(** * Payment-confirmation generator (app.py): a shallow embedding

    The program reads an uploaded bank export (CSV, UTF-16), renders one
    PDF confirmation per row with a non-negative amount and returns the
    PDFs in one ZIP archive.  This file embeds [generate_payment_pdf] and
    the [index] view of [src/app.py], together with the parts of the Python
    runtime and of the libraries they run on ([bytes.decode],
    [str.splitlines], [csv.reader], [csv.DictReader], [os.path], [open],
    [zipfile] and the calls of [FPDF]), and proves properties of them. *)

From Stdlib Require Import NArith List String Ascii Lia.
From Stdlib.Strings Require Import Byte.
From stdpp Require Import base list.
Import ListNotations.
Local Open Scope N_scope.

(** * The program *)

(** ** Python text

    A Python [str] is a sequence of Unicode code points. *)

Definition str := list N.

(** The text of a source literal.  The literals of this file are stored
    by Rocq as their UTF-8 bytes; [u] turns the bytes back into the code
    points Python sees (sequences of one to four bytes). *)
Fixpoint utf8_points (bs : list N) : str :=
  match bs with
  | [] => []
  | b0 :: t0 =>
      if b0 <? 128 then b0 :: utf8_points t0
      else match t0 with
      | [] => [b0]
      | b1 :: t1 =>
          if b0 <? 224 then ((b0 - 192) * 64 + (b1 - 128)) :: utf8_points t1
          else match t1 with
          | [] => [b0; b1]
          | b2 :: t2 =>
              if b0 <? 240
              then ((b0 - 224) * 4096 + (b1 - 128) * 64 + (b2 - 128)) :: utf8_points t2
              else match t2 with
              | [] => [b0; b1; b2]
              | b3 :: t3 =>
                  ((b0 - 240) * 262144 + (b1 - 128) * 4096
                   + (b2 - 128) * 64 + (b3 - 128)) :: utf8_points t3
              end
          end
      end
  end.

Definition u (s : string) : str :=
  utf8_points (map Byte.to_N (list_byte_of_string s)).

Definition str_eqb (a b : str) : bool := bool_decide (a = b).

(** [s.startswith(c)] for a one-character [c]. *)
Definition startswith_char (c : N) (s : str) : bool :=
  match s with
  | x :: _ => x =? c
  | [] => false
  end.

(** [s.replace(a, b)] for one-character [a] and [b]. *)
Definition replace_char (a b : N) (s : str) : str :=
  map (fun x => if x =? a then b else x) s.

(** The surrogate code points, U+D800 to U+DFFF: the high ones up to
    U+DBFF, the low ones from U+DC00. *)
Definition is_surrogate (ch : N) : bool := (55296 <=? ch) && (ch <=? 57343).
Definition is_high_surrogate (ch : N) : bool := (55296 <=? ch) && (ch <=? 56319).
Definition is_low_surrogate (ch : N) : bool := (56320 <=? ch) && (ch <=? 57343).

Definition has_surrogate (s : str) : bool := existsb is_surrogate s.

Definition MINUS : N := 45.  (* '-' *)
Definition DOT : N := 46.    (* '.' *)
Definition SLASH : N := 47.  (* '/' *)
Definition UNDERSCORE : N := 95.

(** [str(n)] for a non-negative [int]: its decimal digits. *)
Fixpoint digits_fuel (fuel : nat) (n : N) (acc : str) : str :=
  match fuel with
  | O => acc
  | S fuel' =>
      let acc' := (48 + n mod 10) :: acc in
      if n <? 10 then acc' else digits_fuel fuel' (n / 10) acc'
  end.

Definition str_of_int (n : N) : str :=
  digits_fuel (S (N.to_nat (N.log2 n))) n [].

(** ** Values, rows and the store

    A cell of a row is a [str] or Python's [None]. *)

Inductive pyval :=
| PyNone
| PyStr (s : str).

#[global] Instance pyval_eq_dec : EqDecision pyval.
Proof. solve_decision. Defined.

(** A row as [csv.DictReader] builds it: the [str] keys (the column
    names, in insertion order) hold a [str] or [None]; the key [None]
    ([restkey]), when present, holds the list of surplus cells. *)
Record Row := mkRow {
  cells : list (str * pyval);
  rest : option (list str)
}.

Definition empty_row : Row := mkRow [] None.

#[global] Instance Row_inhabited : Inhabited Row := populate empty_row.

(** [d.get(k)] on [str] keys. *)
Fixpoint cells_get {V} (k : str) (d : list (str * V)) : option V :=
  match d with
  | [] => None
  | (k', v) :: d' => if str_eqb k' k then Some v else cells_get k d'
  end.

(** [d[k] = v]: an existing key keeps its place, a new key goes last. *)
Fixpoint cells_set {V} (k : str) (v : V) (d : list (str * V))
  : list (str * V) :=
  match d with
  | [] => [(k, v)]
  | (k', v') :: d' =>
      if str_eqb k' k then (k', v) :: d' else (k', v') :: cells_set k v d'
  end.

(** [row.get(k, default)]. *)
Definition row_get (k : str) (default : pyval) (r : Row) : pyval :=
  match cells_get k (cells r) with
  | Some v => v
  | None => default
  end.

Definition row_set (k : str) (v : pyval) (r : Row) : Row :=
  mkRow (cells_set k v (cells r)) (rest r).

(** The keys of a row, as [for key in row] visits them; [None] is the
    key [None]. *)
Definition row_keys (r : Row) : list (option str) :=
  map (fun kv => Some (fst kv)) (cells r)
  ++ match rest r with Some _ => [None] | None => [] end.

(** [v == ""] *)
Definition is_empty_str (v : pyval) : bool :=
  match v with
  | PyStr [] => true
  | _ => false
  end.

(** [f"{v}"] *)
Definition format (v : pyval) : str :=
  match v with
  | PyStr s => s
  | PyNone => u "None"
  end.

(** A rendered document: the drawing calls made on the [FPDF] object, in
    order.  The library turns them into the bytes of the file; the bytes
    of a document are identified with the calls. *)
Inductive op :=
| AddFont (family file : str)
| AddPage
| SetFont (family : str) (size : N)
| MultiCell (h : N) (txt : str)
| RuleBelowText
| Ln (h : N)
| Cell (h : N) (txt : str) (centered : bool)
| SetYFromBottom (mm : N)
| Image (file : str) (x w : N).

Definition Pdf := list op.

Inductive exn :=
| AttributeError (attribute : str)
| FileNotFoundError (path : str)
| OSError (errno : N) (path : str)
| ValueError (msg : str)
| IndexError (msg : str)
| UnicodeDecodeError (reason : str)
| UnicodeEncodeError (reason : str)
| StructError (msg : str)
| CsvError (msg : str).

Inductive outcome (A : Type) :=
| Ret (a : A)
| Raise (e : exn).
Arguments Ret {A} a.
Arguments Raise {A} e.

(** The store: the row objects (a reference is an index) and the files
    of the request's temporary directory, by path. *)
Record World := mkWorld {
  heap : list Row;
  files : list (str * Pdf)
}.

Abbreviation ref := nat (only parsing).

Definition M (A : Type) : Type := World -> outcome A * World.

Definition ret {A} (a : A) : M A := fun w => (Ret a, w).

Definition raise {A} (e : exn) : M A := fun w => (Raise e, w).

Definition bind {A B} (c : M A) (k : A -> M B) : M B :=
  fun w =>
    match c w with
    | (Ret a, w') => k a w'
    | (Raise e, w') => (Raise e, w')
    end.

Notation "'do' x <- c ; k" := (bind c (fun x => k))
  (at level 10, x name, c at level 100, k at level 200).
Notation "c ;; k" := (bind c (fun _ => k))
  (at level 100, k at level 200, right associativity).

(** [for x in xs: body(x)] *)
Fixpoint for_each {A} (xs : list A) (body : A -> M unit) : M unit :=
  match xs with
  | [] => ret tt
  | x :: xs' => body x ;; for_each xs' body
  end.

Definition new_row (r : Row) : M ref :=
  fun w => (Ret (length (heap w)), mkWorld (heap w ++ [r]) (files w)).

Definition read_row (p : ref) : M Row :=
  fun w => (Ret (heap w !!! p), w).

Definition update_row (p : ref) (f : Row -> Row) : M unit :=
  fun w => (Ret tt, mkWorld (<[p := f (heap w !!! p)]> (heap w)) (files w)).

(** ** The renderer

    What the renderer takes from outside the program: the letterhead
    text of [nastaveni/hlavicka.txt], the clock, and the path of the
    temporary directory handed out for the request.  The font and the
    signature image are taken to be where the program looks for them,
    the font being the DejaVu Sans it names, and the letterhead to fit
    on the page. *)
Record Env := mkEnv {
  header_text : str;
  today_day : N;
  today_month : N;
  today_year : N;
  temp_dir : str;
  little_endian : bool  (* the byte order of the machine *)
}.

Definition pad2 (n : N) : str :=
  if n <? 10 then u "0" ++ str_of_int n else str_of_int n.

(** [datetime.today().strftime('%d.%m.%Y')] *)
Definition today (env : Env) : str :=
  pad2 (today_day env) ++ [DOT] ++ pad2 (today_month env) ++ [DOT]
  ++ str_of_int (today_year env).

Definition DejaVu : str := u "DejaVu".

(** [FPDF.cell] and [FPDF.multi_cell] with a Unicode font: the text is
    put on the page in UTF-16, and the encoder refuses a surrogate code
    point. *)
Definition cell (h : N) (txt : str) (centered : bool) (pdf : Pdf) : M Pdf :=
  if has_surrogate txt
  then raise (UnicodeEncodeError (u "surrogates not allowed"))
  else ret (pdf ++ [Cell h txt centered]).

Definition multi_cell (h : N) (txt : str) (pdf : Pdf) : M Pdf :=
  if has_surrogate txt
  then raise (UnicodeEncodeError (u "surrogates not allowed"))
  else ret (pdf ++ [MultiCell h txt]).

(** The text a drawing call puts on the page. *)
Definition op_text (o : op) : str :=
  match o with
  | MultiCell _ txt | Cell _ txt _ => txt
  | _ => []
  end.

(** A code point the table of character widths of the font has no
    entry for: the table has 65536 entries. *)
Definition beyond_font (s : str) : bool := existsb (fun c => 65535 <? c) s.

(** [pdf.output(dest='S').encode('latin-1')].  The library embeds the
    font with the widths of the characters up to the highest one used;
    a character from U+10000 on takes it past the end of the table. *)
Definition output (pdf : Pdf) : M Pdf :=
  if existsb (fun o => beyond_font (op_text o)) pdf
  then raise (IndexError (u "list index out of range"))
  else ret pdf.

(** [PDF.header], which [add_page] calls. *)
Definition PDF_header (env : Env) (pdf : Pdf) : M Pdf :=
  let pdf := pdf ++ [SetFont DejaVu 10] in
  do pdf <- multi_cell 8 (header_text env) pdf;
  (* Add a line between header and content *)
  let pdf := pdf ++ [RuleBelowText; Ln 5] in
  let pdf := pdf ++ [SetFont DejaVu 16] in
  do pdf <- cell 10 (u "Potvrzení o přijaté platbě") true pdf;
  ret (pdf ++ [Ln 5]).

Definition add_page (env : Env) (pdf : Pdf) : M Pdf :=
  PDF_header env (pdf ++ [AddPage]).

Definition NOT_SPECIFIED : str := u "neuvedeno".

Definition DATUM_ZAUCTOVANI : str := u "Datum zaúčtování".
Definition NAZEV_PROTIUCTU : str := u "Název protiúčtu".
Definition IBAN : str := u "IBAN".
Definition BIC : str := u "BIC".
Definition PROTIUCET : str := u "Protiúčet".
Definition BANKOVNI_KOD : str := u "Bankovní kód protiúčtu".
Definition ZPRAVA : str := u "Zpráva pro příjemce".
Definition CASTKA : str := u "Částka".
Definition MENA : str := u "Měna".
Definition VAR_SYMBOL : str := u "Variabilní symbol".

(** The line that names the receiver; the source has a no-break space
    (U+00A0) before the number. *)
Definition RECEIVER : str :=
  u "Příjemce: Tělocvičná jednota Sokol Brno – Jundrov, IČO:" ++ [160]
  ++ u "44995989".

(** The body of [for key in row]: [if row[key] == "": row[key] =
    NOT_SPECIFIED].  Under the key [None] the row holds a list, which is
    never equal to [""]. *)
Definition replace_if_empty (row : ref) (key : option str) : M unit :=
  match key with
  | Some k =>
      do r <- read_row row;
      if is_empty_str (row_get k PyNone r)
      then update_row row (row_set k (PyStr NOT_SPECIFIED))
      else ret tt
  | None => ret tt
  end.

Definition generate_payment_pdf (env : Env) (row : ref) : M Pdf :=
  let pdf : Pdf := [] in
  let pdf := pdf ++ [AddFont DejaVu (u "dejavu-sans/DejaVuSans.ttf")] in
  do pdf <- add_page env pdf;
  let pdf := pdf ++ [SetFont DejaVu 12] in
  (* Replace empty fields with NOT_SPECIFIED *)
  do r0 <- read_row row;
  for_each (row_keys r0) (replace_if_empty row) ;;
  (* Extract fields from CSV row *)
  do r <- read_row row;
  let datum_zauctovani := row_get DATUM_ZAUCTOVANI (PyStr NOT_SPECIFIED) r in
  let nazev_protiuctu := row_get NAZEV_PROTIUCTU (PyStr NOT_SPECIFIED) r in
  let iban := row_get IBAN (PyStr NOT_SPECIFIED) r in
  let bic := row_get BIC (PyStr NOT_SPECIFIED) r in
  let protiucet := row_get PROTIUCET (PyStr NOT_SPECIFIED) r in
  let bankovni_kod := row_get BANKOVNI_KOD (PyStr NOT_SPECIFIED) r in
  let jmeno_a_oddil := row_get ZPRAVA (PyStr NOT_SPECIFIED) r in
  let castka := row_get CASTKA (PyStr NOT_SPECIFIED) r in
  let mena := row_get MENA (PyStr NOT_SPECIFIED) r in
  let var_symbol := row_get VAR_SYMBOL (PyStr NOT_SPECIFIED) r in
  do pdf <- multi_cell 10
    (u "Potvrzujeme přijetí platby ve prospěch naší jednoty za níže uvedeného člena"
     ++ [10] ++ u " a pohybovou aktivitu.") pdf;
  do pdf <- cell 10 (u "Jméno a pohybová aktivita: " ++ format jmeno_a_oddil) false pdf;
  do pdf <- cell 10 (u "Rodné číslo (var. symbol): " ++ format var_symbol) false pdf;
  let pdf := pdf ++ [Ln 5] in
  do pdf <- cell 10 (u "Detail platby:") false pdf;
  do pdf <- cell 10 (u "Přijato dne: " ++ format datum_zauctovani) false pdf;
  do pdf <- cell 10 (u "Částka: " ++ format castka ++ u " " ++ format mena) false pdf;
  do pdf <- cell 10 RECEIVER false pdf;
  (* put the date and signature at the bottom of the page *)
  let pdf := pdf ++ [SetYFromBottom 40] in
  do pdf <- cell 10 (u "Datum vystavení: " ++ today env) false pdf;
  (* signature image *)
  let pdf := pdf ++ [Image (u "nastaveni/podpis.jpg") 150 40] in
  (* Return PDF as bytes *)
  output pdf.

(** ** [bytes.decode("utf-16", errors=...)]

    The decoder of CPython ([PyUnicode_DecodeUTF16Stateful], called
    with byte order 0 and [final] true).  A byte order mark at the start
    selects the byte order and is consumed; without one the machine's
    byte order is used.  At an ill-formed place the error handler is
    called: [strict] raises, [replace] writes U+FFFD and resumes after
    the bytes reported as wrong. *)

Inductive errors_mode := Strict | Replace.

Definition REPLACEMENT : N := 65533.  (* U+FFFD *)

(** [Py_UNICODE_JOIN_SURROGATES] *)
Definition join_surrogates (hi lo : N) : N :=
  65536 + N.lor (N.shiftl (N.land hi 1023) 10) (N.land lo 1023).

(** [(q[ihi] << 8) | q[ilo]] *)
Definition unit16 (le : bool) (b0 b1 : byte) : N :=
  if le then N.lor (N.shiftl (Byte.to_N b1) 8) (Byte.to_N b0)
  else N.lor (N.shiftl (Byte.to_N b0) 8) (Byte.to_N b1).

(** The error handler: what is written in place of the wrong bytes. *)
Definition on_error (errors : errors_mode) (reason : str)
    (resume : outcome str) : outcome str :=
  match errors with
  | Strict => Raise (UnicodeDecodeError reason)
  | Replace =>
      match resume with
      | Ret s => Ret (REPLACEMENT :: s)
      | Raise e => Raise e
      end
  end.

Definition emit (ch : N) (k : outcome str) : outcome str :=
  match k with
  | Ret s => Ret (ch :: s)
  | Raise e => Raise e
  end.

Fixpoint utf16_units (errors : errors_mode) (le : bool) (q : list byte)
  : outcome str :=
  match q with
  | [] => Ret []
  | [_] => on_error errors (u "truncated data") (Ret [])
  | b0 :: b1 :: q' =>
      let ch := unit16 le b0 b1 in
      if negb (is_surrogate ch) then emit ch (utf16_units errors le q')
      else if negb (is_high_surrogate ch)
      then on_error errors (u "illegal encoding") (utf16_units errors le q')
      else
        match q' with
        | b2 :: b3 :: q'' =>
            let ch2 := unit16 le b2 b3 in
            if is_low_surrogate ch2
            then emit (join_surrogates ch ch2) (utf16_units errors le q'')
            else on_error errors (u "illegal UTF-16 surrogate")
                   (utf16_units errors le q')
        | _ => on_error errors (u "unexpected end of data") (Ret [])
        end
  end.

Definition decode_utf16 (errors : errors_mode) (native_le : bool)
    (s : list byte) : outcome str :=
  match s with
  | b0 :: b1 :: q =>
      let bom := unit16 true b0 b1 in
      if bom =? 65279 then utf16_units errors true q
      else if bom =? 65534 then utf16_units errors false q
      else utf16_units errors native_le s
  | _ => utf16_units errors native_le s
  end.

(** ** [str.splitlines()]

    A line ends at a line boundary; ["\r\n"] is one boundary; the
    boundaries are not kept; no empty line follows a final boundary. *)

Definition is_linebreak (c : N) : bool :=
  bool_decide (c ∈ [10; 11; 12; 13; 28; 29; 30; 133; 8232; 8233]).

Fixpoint splitlines_from (s : str) (line : str) : list str :=
  match s with
  | [] => match line with [] => [] | _ => [rev line] end
  | c :: s' =>
      if is_linebreak c
      then rev line ::
           match s' with
           | c' :: s'' =>
               if (c =? 13) && (c' =? 10)
               then splitlines_from s'' []
               else splitlines_from s' []
           | [] => []
           end
      else splitlines_from s' (c :: line)
  end.

Definition splitlines (s : str) : list str := splitlines_from s [].

(** ** A lazy sequence

    What an iterator does when it is run to its end: it yields items and
    then stops, or raises. *)

Inductive trace (A : Type) :=
| Done
| Fail (e : exn)
| Yield (a : A) (t : trace A).
Arguments Done {A}.
Arguments Fail {A} e.
Arguments Yield {A} a t.

(** ** [csv.reader(lines, delimiter=",")]

    The tokenizer of CPython's [_csv] module in the [excel] dialect:
    the double quote as quote character, written twice inside a quoted
    field, no escape character, not
    strict, no skipping of initial spaces.  The states that need an
    escape character are not reachable and are left out. *)

Inductive ParserState :=
| START_RECORD
| START_FIELD
| IN_FIELD
| IN_QUOTED_FIELD
| QUOTE_IN_QUOTED_FIELD
| EAT_CRNL.

#[global] Instance ParserState_eq_dec : EqDecision ParserState.
Proof. solve_decision. Defined.

Record Reader := mkReader {
  state : ParserState;
  fields : list str;   (* the fields of the record so far *)
  field : str          (* the field being read, last character first *)
}.

Definition DELIMITER : N := 44.  (* ',' *)
Definition QUOTECHAR : N := 34.
Definition FIELD_LIMIT : N := 131072.

(** One input of the tokenizer: a character of the line, or the mark put
    after the last character of every line. *)
Inductive pchar :=
| Ch (c : N)
| EOL.

Definition parse_reset : Reader := mkReader START_RECORD [] [].

Definition parse_save_field (self : Reader) : Reader :=
  mkReader (state self) (fields self ++ [rev (field self)]) [].

Definition parse_add_char (self : Reader) (c : N) : outcome Reader :=
  if FIELD_LIMIT <=? N.of_nat (length (field self))
  then Raise (CsvError (u "field larger than field limit (131072)"))
  else Ret (mkReader (state self) (fields self) (c :: field self)).

Definition set_state (s : ParserState) (self : Reader) : Reader :=
  mkReader s (fields self) (field self).

Definition is_crnl (c : pchar) : bool :=
  match c with
  | Ch c => (c =? 10) || (c =? 13)
  | EOL => false
  end.

Definition after_line_end (c : pchar) : ParserState :=
  match c with
  | EOL => START_RECORD
  | Ch _ => EAT_CRNL
  end.

Definition add_then (s : ParserState) (self : Reader) (c : N) : outcome Reader :=
  match parse_add_char self c with
  | Ret self' => Ret (set_state s self')
  | Raise e => Raise e
  end.

Definition start_field (self : Reader) (c : pchar) : outcome Reader :=
  match c with
  | EOL => Ret (set_state START_RECORD (parse_save_field self))
  | Ch x =>
      if (x =? 10) || (x =? 13)
      then Ret (set_state EAT_CRNL (parse_save_field self))
      else if x =? QUOTECHAR then Ret (set_state IN_QUOTED_FIELD self)
      else if x =? DELIMITER then Ret (set_state START_FIELD (parse_save_field self))
      else add_then IN_FIELD self x
  end.

Definition parse_process_char (self : Reader) (c : pchar) : outcome Reader :=
  match state self with
  | START_RECORD =>
      match c with
      | EOL => Ret self
      | Ch x =>
          if (x =? 10) || (x =? 13) then Ret (set_state EAT_CRNL self)
          else start_field (set_state START_FIELD self) c
      end
  | START_FIELD => start_field self c
  | IN_FIELD =>
      match c with
      | EOL => Ret (set_state START_RECORD (parse_save_field self))
      | Ch x =>
          if (x =? 10) || (x =? 13)
          then Ret (set_state EAT_CRNL (parse_save_field self))
          else if x =? DELIMITER
          then Ret (set_state START_FIELD (parse_save_field self))
          else add_then IN_FIELD self x
      end
  | IN_QUOTED_FIELD =>
      match c with
      | EOL => Ret self
      | Ch x =>
          if x =? QUOTECHAR then Ret (set_state QUOTE_IN_QUOTED_FIELD self)
          else add_then IN_QUOTED_FIELD self x
      end
  | QUOTE_IN_QUOTED_FIELD =>
      match c with
      | EOL => Ret (set_state START_RECORD (parse_save_field self))
      | Ch x =>
          if x =? QUOTECHAR then add_then IN_QUOTED_FIELD self x
          else if x =? DELIMITER
          then Ret (set_state START_FIELD (parse_save_field self))
          else if (x =? 10) || (x =? 13)
          then Ret (set_state EAT_CRNL (parse_save_field self))
          else add_then IN_FIELD self x
      end
  | EAT_CRNL =>
      match c with
      | EOL => Ret (set_state START_RECORD self)
      | Ch x =>
          if (x =? 10) || (x =? 13) then Ret self
          else Raise (CsvError (u "new-line character seen in unquoted field - do you need to open the file in universal-newline mode?"))
      end
  end.

(** The characters of one line, then the end-of-line mark. *)
Fixpoint parse_line (self : Reader) (line : str) : outcome Reader :=
  match line with
  | [] => parse_process_char self EOL
  | c :: line' =>
      match parse_process_char self (Ch c) with
      | Ret self' => parse_line self' line'
      | Raise e => Raise e
      end
  end.

(** [Reader_iternext], run to the end of the input: lines are taken
    until the tokenizer is back at the start of a record. *)
Fixpoint reader_from (self : Reader) (lines : list str) : trace (list str) :=
  match lines with
  | [] =>
      if negb (bool_decide (field self = []))
         || bool_decide (state self = IN_QUOTED_FIELD)
      then Yield (fields (parse_save_field self)) Done
      else Done
  | line :: lines' =>
      match parse_line self line with
      | Raise e => Fail e
      | Ret self' =>
          if bool_decide (state self' = START_RECORD)
          then Yield (fields self') (reader_from parse_reset lines')
          else reader_from self' lines'
      end
  end.

Definition csv_reader (lines : list str) : trace (list str) :=
  reader_from parse_reset lines.

(** ** [csv.DictReader(lines, delimiter=",")]

    [restkey] and [restval] keep their default, [None]. *)

(** [dict(zip(fieldnames, row))] *)
Definition dict_zip (fieldnames row : list str) : list (str * pyval) :=
  fold_left (fun d kv => cells_set (fst kv) (PyStr (snd kv)) d)
            (combine fieldnames row) [].

(** The body of [DictReader.__next__] for a row that is not empty. *)
Definition DictReader_row (fieldnames row : list str) : Row :=
  let d := mkRow (dict_zip fieldnames row) None in
  let lf := length fieldnames in
  let lr := length row in
  if Nat.ltb lf lr then mkRow (cells d) (Some (drop lf row))
  else if Nat.ltb lr lf
  then fold_left (fun d key => row_set key PyNone d) (drop lr fieldnames) d
  else d.

(** The rows after the header; empty rows are passed over. *)
Fixpoint DictReader_rows (fieldnames : list str) (reader : trace (list str))
  : trace Row :=
  match reader with
  | Done => Done
  | Fail e => Fail e
  | Yield row reader' =>
      match row with
      | [] => DictReader_rows fieldnames reader'
      | _ => Yield (DictReader_row fieldnames row)
                   (DictReader_rows fieldnames reader')
      end
  end.

(** The first row of the reader gives the field names. *)
Definition DictReader (lines : list str) : trace Row :=
  match csv_reader lines with
  | Done => Done
  | Fail e => Fail e
  | Yield fieldnames reader => DictReader_rows fieldnames reader
  end.

(** ** [os.path] (POSIX) and the temporary directory *)

(** [s.rstrip("/")] *)
Fixpoint rstrip_slash (s : str) : str :=
  match s with
  | [] => []
  | c :: s' =>
      match rstrip_slash s' with
      | [] => if c =? SLASH then [] else [c]
      | r => c :: r
      end
  end.

(** [(p[:i], p[i:])] for [i = p.rfind("/") + 1] *)
Fixpoint split_after_last_slash (p : str) : str * str :=
  match p with
  | [] => ([], [])
  | c :: p' =>
      let (head, tail) := split_after_last_slash p' in
      if c =? SLASH then (c :: head, tail)
      else match head with
           | [] => ([], c :: tail)
           | _ => (c :: head, tail)
           end
  end.

Definition posix_basename (p : str) : str := snd (split_after_last_slash p).

Definition posix_dirname (p : str) : str :=
  let head := fst (split_after_last_slash p) in
  if forallb (fun c => c =? SLASH) head then head else rstrip_slash head.

(** [os.path.join(a, b)] *)
Definition posix_join (a b : str) : str :=
  if startswith_char SLASH b then b
  else match last a with
       | None => a ++ b
       | Some c => if c =? SLASH then a ++ b else a ++ [SLASH] ++ b
       end.

(** [s.lstrip("/")] *)
Fixpoint lstrip_slash (s : str) : str :=
  match s with
  | [] => []
  | c :: s' => if c =? SLASH then lstrip_slash s' else s
  end.

(** The first component of a relative path: what stands before its
    first slash. *)
Fixpoint first_component (s : str) : str :=
  match s with
  | [] => []
  | c :: s' => if c =? SLASH then [] else c :: first_component s'
  end.

(** The bytes of a file name ([os.fsencode]): UTF-8, where the
    surrogates U+DC80 to U+DCFF stand for one byte each; the other
    surrogates cannot be encoded. *)
Definition unencodable (c : N) : bool :=
  is_surrogate c && negb ((56448 <=? c) && (c <=? 56575)).

Definition fs_bytes (c : N) : N :=
  if c <? 128 then 1
  else if c <? 2048 then 2
  else if is_surrogate c then 1
  else if c <? 65536 then 3
  else 4.

Definition fs_length (s : str) : N := fold_right (fun c n => fs_bytes c + n) 0 s.

Definition NAME_MAX : N := 255.
Definition PATH_MAX : N := 4096.
Definition ENAMETOOLONG : N := 36.

(** [with open(path, 'wb') as f: f.write(data)], for a path the program
    builds: the temporary directory, as [tempfile] names it, joined with
    a name.  A path that cannot be encoded or holds a NUL character is
    refused before the system is asked.  The system refuses a path of
    [PATH_MAX] bytes or more, then walks it: the temporary directory is
    new, so the first component below it is the file to make, or a
    directory that does not exist; a component longer than [NAME_MAX]
    bytes is refused when it is reached. *)
Definition write_file (env : Env) (path : str) (data : Pdf) : M unit :=
  fun w =>
    let below := lstrip_slash (drop (length (temp_dir env)) path) in
    if existsb unencodable path
    then (Raise (UnicodeEncodeError (u "surrogates not allowed")), w)
    else if bool_decide (0 ∈ path)
    then (Raise (ValueError (u "embedded null byte")), w)
    else if PATH_MAX <=? fs_length path
    then (Raise (OSError ENAMETOOLONG path), w)
    else if NAME_MAX <? fs_length (first_component below)
    then (Raise (OSError ENAMETOOLONG path), w)
    else if str_eqb (posix_dirname path) (temp_dir env)
    then (Ret tt, mkWorld (heap w) (cells_set path data (files w)))
    else (Raise (FileNotFoundError path), w).

Definition read_file (path : str) : M Pdf :=
  fun w =>
    match cells_get path (files w) with
    | Some data => (Ret data, w)
    | None => (Raise (FileNotFoundError path), w)
    end.

(** [with tempfile.TemporaryDirectory() as temp_dir: body]: the
    directory starts empty and is removed with its files when the block
    is left, by its end or by an exception. *)
Definition with_temporary_directory {A} (body : M A) : M A :=
  fun w =>
    match body (mkWorld (heap w) []) with
    | (o, w') => (o, mkWorld (heap w') (files w))
    end.

(** ** The view *)

Inductive Method := GET | POST | HEAD.

(** An uploaded file ([werkzeug]'s [FileStorage]); it is falsy when its
    file name is empty. *)
Record FileStorage := mkFile {
  filename : str;
  content : list byte
}.

Record Request := mkRequest {
  method : Method;
  csv_file : option FileStorage   (* [request.files.get("csv_file")] *)
}.

Definition Archive := list (str * Pdf).

Inductive Response :=
| Page (template : str)
| Text (body : str) (status : N)
| SendFile (zip : Archive) (mimetype download_name : str)
| ReturnsNone.

Definition Q : str := [34].
Definition NL : str := [10].

Definition UPLOAD_FORM_TEMPLATE : str :=
  NL ++ u "<!doctype html>" ++ NL
  ++ u "<html>" ++ NL
  ++ u "<head>" ++ NL
  ++ u "    <title>CSV to PDFs</title>" ++ NL
  ++ u "</head>" ++ NL
  ++ u "<body>" ++ NL
  ++ u "    <h1>Upload CSV to Generate PDFs</h1>" ++ NL
  ++ u "    <form method=" ++ Q ++ u "POST" ++ Q ++ u " action=" ++ Q ++ u "/" ++ Q
  ++ u " enctype=" ++ Q ++ u "multipart/form-data" ++ Q ++ u ">" ++ NL
  ++ u "        <input type=" ++ Q ++ u "file" ++ Q ++ u " name=" ++ Q ++ u "csv_file" ++ Q
  ++ u " accept=" ++ Q ++ u ".csv" ++ Q ++ u " required />" ++ NL
  ++ u "        <button type=" ++ Q ++ u "submit" ++ Q ++ u ">Convert to PDFs</button>" ++ NL
  ++ u "    </form>" ++ NL
  ++ u "</body>" ++ NL
  ++ u "</html>" ++ NL.

(** [bool(uploaded_file)] *)
Definition truthy (f : option FileStorage) : bool :=
  match f with
  | None => false
  | Some f => negb (bool_decide (filename f = []))
  end.

Definition lift {A} (o : outcome A) : M A := fun w => (o, w).

(** [v.startswith('-')]; [None] has no such method. *)
Definition startswith (v : pyval) (c : N) : M bool :=
  match v with
  | PyStr s => ret (startswith_char c s)
  | PyNone => raise (AttributeError (u "startswith"))
  end.

(** [v.replace('.', '-')] *)
Definition replace (v : pyval) (a b : N) : M str :=
  match v with
  | PyStr s => ret (replace_char a b s)
  | PyNone => raise (AttributeError (u "replace"))
  end.

(** [f"row{row_number}_{datum_zauctovani}.pdf"] *)
Definition pdf_name (row_number : N) (datum_zauctovani : str) : str :=
  u "row" ++ str_of_int row_number ++ u "_" ++ datum_zauctovani ++ u ".pdf".

(** [for row in reader: ...], with the variables it updates. *)
Fixpoint rows_loop (env : Env) (reader : trace Row) (row_number : N)
    (pdf_file_paths : list str) : M (list str) :=
  match reader with
  | Done => ret pdf_file_paths
  | Fail e => raise e
  | Yield d reader' =>
      do row <- new_row d;
      (* Skip rows where the amount is negative *)
      do r <- read_row row;
      let amount := row_get CASTKA (PyStr []) r in
      do negative <- startswith amount MINUS;
      if negative then rows_loop env reader' row_number pdf_file_paths
      else
        let row_number := row_number + 1 in
        (* Generate the PDF in memory *)
        do pdf_bytes <- generate_payment_pdf env row;
        (* Build a filename based on row data *)
        do r <- read_row row;
        do datum_zauctovani <- replace (row_get DATUM_ZAUCTOVANI (PyStr []) r) DOT MINUS;
        let pdf_filename := pdf_name row_number datum_zauctovani in
        (* Write to temp folder *)
        let output_path := posix_join (temp_dir env) pdf_filename in
        write_file env output_path pdf_bytes ;;
        rows_loop env reader' row_number (pdf_file_paths ++ [output_path])
  end.

(** [zf.write(pdf_path, arcname=arcname)].  An entry is the name and
    the content of the file; [zipfile] keeps a name without separators
    as it is and stores it in UTF-8.  The entry carries the time of the
    file, which was written during the request: an entry can hold the
    years 1980 to 2107. *)
Definition zf_write (env : Env) (pdf_path arcname : str) (zf : Archive)
  : M Archive :=
  do data <- read_file pdf_path;
  if today_year env <? 1980
  then raise (ValueError (u "ZIP does not support timestamps before 1980"))
  else if has_surrogate arcname
  then raise (UnicodeEncodeError (u "surrogates not allowed"))
  else if 2107 <? today_year env
  then raise (StructError (u "ushort format requires 0 <= number <= 65535"))
  else ret (zf ++ [(arcname, data)]).

(** [for pdf_path in pdf_file_paths: zf.write(pdf_path, arcname=...)] *)
Fixpoint zip_all (env : Env) (pdf_file_paths : list str) (zf : Archive)
  : M Archive :=
  match pdf_file_paths with
  | [] => ret zf
  | pdf_path :: paths' =>
      let arcname := posix_basename pdf_path in
      do zf <- zf_write env pdf_path arcname zf;
      zip_all env paths' zf
  end.

(** The view.  [if not uploaded_file] holds for a request without the
    file and for a file with an empty name.  The route also lets HEAD
    requests in; for them neither test on [request.method] holds and the
    function returns [None]. *)
Definition index (env : Env) (request : Request) : M Response :=
  match method request with
  | GET => ret (Page UPLOAD_FORM_TEMPLATE)
  | POST =>
      let uploaded_file := csv_file request in
      match uploaded_file with
      | Some file =>
          if negb (truthy uploaded_file)
          then ret (Text (u "No file uploaded.") 400)
          else
            let csv_data := content file in
            with_temporary_directory (
              do decoded_csv <-
                lift (decode_utf16 Replace (little_endian env) csv_data);
              let reader := DictReader (splitlines decoded_csv) in
              do pdf_file_paths <- rows_loop env reader 0 [];
              (* Now, zip all PDFs in memory *)
              do zip_buffer <- zip_all env pdf_file_paths [];
              ret (SendFile zip_buffer (u "application/zip")
                            (u "pdf_confirmations.zip")))
      | None => ret (Text (u "No file uploaded.") 400)
      end
  | HEAD => ret ReturnsNone
  end.

(** ** Running the program on text

    Helpers for examples: an upload holding the UTF-16 (little endian,
    with byte order mark) encoding of a text of the Basic Multilingual
    Plane, and a machine. *)

Definition byte_of (n : N) : byte :=
  match Byte.of_N (n mod 256) with
  | Some b => b
  | None => x00
  end.

Definition encode_utf16 (s : str) : list byte :=
  [xff; xfe] ++ flat_map (fun c => [byte_of c; byte_of (c / 256)]) s.

Definition lines_text (lines : list str) : str :=
  flat_map (fun l => l ++ NL) lines.

Definition upload (lines : list str) : Request :=
  mkRequest POST (Some (mkFile (u "export.csv") (encode_utf16 (lines_text lines)))).

Definition env0 : Env :=
  mkEnv (u "TJ Sokol") 4 11 2026 (u "/tmp/tmpk3v9x0ab") true.

Definition world0 : World := mkWorld [] [].

(** What the caller sees of a run. *)
Definition run (env : Env) (request : Request) : outcome Response :=
  fst (index env request world0).

Definition names (o : outcome Response) : option (list str) :=
  match o with
  | Ret (SendFile zip _ _) => Some (map fst zip)
  | _ => None
  end.

(** * Definitions for the statements *)

(** What the loop of the renderer does to one value. *)
Definition normalized (v : pyval) : pyval :=
  if is_empty_str v then PyStr NOT_SPECIFIED else v.

(** One turn of the loop, on the row itself. *)
Definition replace_step (r : Row) (key : option str) : Row :=
  match key with
  | Some k =>
      if is_empty_str (row_get k PyNone r)
      then row_set k (PyStr NOT_SPECIFIED) r
      else r
  | None => r
  end.

Definition set_heap (w : World) (p : ref) (r : Row) : World :=
  mkWorld (<[p := r]> (heap w)) (files w).

(** The row after the loop of the renderer. *)
Definition normalize_row (r : Row) : Row :=
  fold_left replace_step (row_keys r) r.

(** The text a field contributes to the page, from the row as the
    renderer received it. *)
Definition shown (r : Row) (k : str) : str :=
  match cells_get k (cells r) with
  | None => NOT_SPECIFIED
  | Some v => format (normalized v)
  end.

(** The lines of the body that carry fields. *)
Definition body_lines (r : Row) : list op :=
  [Cell 10 (u "Jméno a pohybová aktivita: " ++ shown r ZPRAVA) false;
   Cell 10 (u "Rodné číslo (var. symbol): " ++ shown r VAR_SYMBOL) false;
   Cell 10 (u "Přijato dne: " ++ shown r DATUM_ZAUCTOVANI) false;
   Cell 10 (u "Částka: " ++ shown r CASTKA ++ u " " ++ shown r MENA) false].

Definition alloc (w : World) (d : Row) : World :=
  mkWorld (heap w ++ [d]) (files w).

(** The amount the filter looks at, and the date the file name is built
    from: the second is read after the renderer has run. *)
Definition amount_of (d : Row) : pyval := row_get CASTKA (PyStr []) d.

Definition date_after_render (d : Row) : pyval :=
  match cells_get DATUM_ZAUCTOVANI (cells d) with
  | None => PyStr []
  | Some v => normalized v
  end.

(** What [os.path.join] puts before a name that does not start with a
    slash. *)
Definition join_prefix (a : str) : str :=
  match last a with
  | None => a
  | Some c => if c =? SLASH then a else a ++ [SLASH]
  end.

Fixpoint items {A} (t : trace A) : list A :=
  match t with
  | Done | Fail _ => []
  | Yield a t' => a :: items t'
  end.

(** The rows whose amount does not start with a minus sign. *)
Definition kept (d : Row) : bool :=
  match amount_of d with
  | PyStr a => negb (startswith_char MINUS a)
  | PyNone => true
  end.

(** The date part of a file name. *)
Definition date_part (d : Row) : str :=
  replace_char DOT MINUS (format (date_after_render d)).

(** The file names of the rows that passed the filter, the count being
    [n] before the first. *)
Fixpoint names_from (n : N) (rows : list Row) : list str :=
  match rows with
  | [] => []
  | d :: rows' => pdf_name (n + 1) (date_part d) :: names_from (n + 1) rows'
  end.

(** The rows of an upload. *)
Definition rows_of (env : Env) (file : FileStorage) : trace Row :=
  match decode_utf16 Replace (little_endian env) (content file) with
  | Ret decoded_csv => DictReader (splitlines decoded_csv)
  | Raise e => Fail e
  end.

Definition is_digit (c : N) : bool := (48 <=? c) && (c <=? 57).

(** The number a string of digits stands for. *)
Definition int_of_digits (s : str) : N :=
  fold_left (fun v c => v * 10 + (c - 48)) s 0.

(** How the lossy decoding of some bytes relates to their strict
    decoding: it returns a text; the same text when the strict decoding
    returns one, and a text with U+FFFD when the strict decoding
    raises. *)
Definition lossy_of (lossy strict : outcome str) : Prop :=
  exists s, lossy = Ret s
    /\ (forall s', strict = Ret s' -> s = s')
    /\ (forall e, strict = Raise e -> In REPLACEMENT s).

(** A Unicode scalar value: a code point up to U+10FFFF that is not a
    surrogate. *)
Definition is_scalar (c : N) : bool :=
  (c <? 1114112) && negb (is_surrogate c).

(** The pieces an upload is made of: a code point in its UTF-16
    encoding (one code unit, or a high and a low surrogate for a code
    point from U+10000 on), or a surrogate code unit that stands
    alone. *)
Inductive piece :=
| Encoded (c : N)
| Lone (unit : N).

Definition unit_bytes (le : bool) (x : N) : list byte :=
  if le then [byte_of x; byte_of (x / 256)]
  else [byte_of (x / 256); byte_of x].

Definition high_of (c : N) : N := 55296 + (c - 65536) / 1024.
Definition low_of (c : N) : N := 56320 + (c - 65536) mod 1024.

Definition piece_bytes (le : bool) (p : piece) : list byte :=
  match p with
  | Encoded c =>
      if c <? 65536 then unit_bytes le c
      else unit_bytes le (high_of c) ++ unit_bytes le (low_of c)
  | Lone x => unit_bytes le x
  end.






(** The byte order mark. *)
Definition bom (le : bool) : list byte :=
  if le then [xff; xfe] else [xfe; xff].


(** Every row of the reader is dropped by the filter, and the reader
    ends without an error. *)
Fixpoint all_dropped (t : trace Row) : bool :=
  match t with
  | Done => true
  | Fail _ => false
  | Yield d t' =>
      match amount_of d with
      | PyStr a => startswith_char MINUS a && all_dropped t'
      | PyNone => false
      end
  end.

(** An export with one row whose posting date is empty. *)
Definition empty_date_export : list str :=
  [u "Datum zaúčtování,Částka,Měna"; u ",100,CZK"].

(** An export whose only row has no cell under "Částka". *)
Definition no_amount_export : list str :=
  [u "Datum zaúčtování,Částka"; u "01.03.2024"].

(** An export whose second row stops before "Částka", and one whose row
    stops before "Datum zaúčtování". *)
Definition short_row_export : list str :=
  [u "Datum zaúčtování,Částka,Měna"; u "01.03.2024,100,CZK"; u "02.03.2024"].

Definition no_date_export : list str :=
  [u "Částka,Datum zaúčtování"; u "100"].

(** A row with an empty posting date and without currency, alone in
    the store. *)
Definition row0 : Row :=
  mkRow [(DATUM_ZAUCTOVANI, PyStr []); (CASTKA, PyStr (u "100"))] None.

(** An export with its header line only, and one whose rows all have a
    negative amount. *)
Definition header_only_export : list str :=
  [u "Datum zaúčtování,Částka,Měna,Zpráva pro příjemce,Variabilní symbol"].

Definition all_negative_export : list str :=
  [u "Datum zaúčtování,Částka,Měna"; u "01.03.2024,-50,CZK"; u "02.03.2024,-0,CZK"].

Definition file_of (lines : list str) : FileStorage :=
  mkFile (u "export.csv") (encode_utf16 (lines_text lines)).

(** An export with three rows, the second with a negative amount. *)
Definition three_rows_export : list str :=
  [u "Datum zaúčtování,Částka,Měna,Zpráva pro příjemce,Variabilní symbol";
   u "01.03.2024,100,CZK,Jan Novák fotbal,123456";
   u "02.03.2024,-50,CZK,vratka,";
   u "03.03.2024,20,CZK,Eva Malá atletika,654321"].

(** The archive of an answer. *)
Definition archive_of (result : outcome Response * World) : Archive :=
  match fst result with
  | Ret (SendFile zip _ _) => zip
  | _ => []
  end.

Definition three_rows_result : outcome Response * World :=
  index env0 (upload three_rows_export) world0.

Definition empty_date_result : outcome Response * World :=
  index env0 (upload empty_date_export) world0.

(** ** Further definitions for the statements *)

(** The document the renderer makes of a row: the result of the call on
    the row alone in the store. *)
Definition document_of (env : Env) (r : Row) : Pdf :=
  match fst (generate_payment_pdf env 0%nat (mkWorld [r] [])) with
  | Ret pdf => pdf
  | Raise _ => []
  end.

(** The fields the body of the page shows. *)
Definition printed_fields : list str :=
  [ZPRAVA; VAR_SYMBOL; DATUM_ZAUCTOVANI; CASTKA; MENA].

(** The drawing calls of the renderer for a row, in order. *)
Definition page (env : Env) (r : Row) : Pdf :=
  [AddFont DejaVu (u "dejavu-sans/DejaVuSans.ttf");
   AddPage;
   SetFont DejaVu 10;
   MultiCell 8 (header_text env);
   RuleBelowText;
   Ln 5;
   SetFont DejaVu 16;
   Cell 10 (u "Potvrzení o přijaté platbě") true;
   Ln 5;
   SetFont DejaVu 12;
   MultiCell 10
     (u "Potvrzujeme přijetí platby ve prospěch naší jednoty za níže uvedeného člena"
      ++ [10] ++ u " a pohybovou aktivitu.");
   Cell 10 (u "Jméno a pohybová aktivita: " ++ shown r ZPRAVA) false;
   Cell 10 (u "Rodné číslo (var. symbol): " ++ shown r VAR_SYMBOL) false;
   Ln 5;
   Cell 10 (u "Detail platby:") false;
   Cell 10 (u "Přijato dne: " ++ shown r DATUM_ZAUCTOVANI) false;
   Cell 10 (u "Částka: " ++ shown r CASTKA ++ u " " ++ shown r MENA) false;
   Cell 10 RECEIVER false;
   SetYFromBottom 40;
   Cell 10 (u "Datum vystavení: " ++ today env) false;
   Image (u "nastaveni/podpis.jpg") 150 40].

(** A text the renderer can put on the page: it holds no surrogate and
    no code point from U+10000 on. *)
Definition printable (s : str) : bool :=
  negb (has_surrogate s) && negb (beyond_font s).

(** How the call of the renderer ends on a row, once the letterhead is
    drawn. *)
Definition render_outcome (env : Env) (r : Row) : outcome Pdf :=
  if existsb has_surrogate (map (shown r) printed_fields)
  then Raise (UnicodeEncodeError (u "surrogates not allowed"))
  else if beyond_font (header_text env)
          || existsb beyond_font (map (shown r) printed_fields)
  then Raise (IndexError (u "list index out of range"))
  else Ret (page env r).

(** The entries of an archive: for each row that passed the filter its
    file name and its document, the count being [n] before the first. *)
Definition entries_from (env : Env) (n : N) (rows : list Row) : Archive :=
  combine (names_from n rows) (map (document_of env) rows).

(** A text that can be part of a file name: no slash and no NUL. *)
Definition plain_text (s : str) : bool :=
  negb (bool_decide (SLASH ∈ s)) && negb (bool_decide (0 ∈ s)).

(** The path of a directory as [tempfile] gives it: not empty, not
    ending with a slash, without NUL and without surrogates. *)
Definition plain_dir (dir : str) : bool :=
  match last dir with
  | Some c => negb (c =? SLASH)
  | None => false
  end && negb (bool_decide (0 ∈ dir)) && negb (has_surrogate dir).

(** What lets a request through.  The reader ends without an error and
    every row has a [str] under "Částka" if it has the key.  Every row
    that passes the filter shows texts the font has in its five printed
    fields and has, after rendering, a [str] date without slash or NUL
    that makes a file name of at most [NAME_MAX] bytes and a path of
    less than [PATH_MAX] bytes; [n] counts the rows accepted before. *)
Fixpoint rows_ok (env : Env) (t : trace Row) (n : N) : bool :=
  match t with
  | Done => true
  | Fail _ => false
  | Yield d t' =>
      match amount_of d with
      | PyNone => false
      | PyStr a =>
          if startswith_char MINUS a then rows_ok env t' n
          else
            forallb (fun k => printable (shown d k)) printed_fields
            && match date_after_render d with
               | PyNone => false
               | PyStr s =>
                   let name := pdf_name (n + 1) (replace_char DOT MINUS s) in
                   plain_text s
                   && (fs_length name <=? NAME_MAX)
                   && (fs_length (posix_join (temp_dir env) name) <? PATH_MAX)
                   && rows_ok env t' (n + 1)
               end
      end
  end.

(** The exception a lazy sequence ends with, if any. *)
Fixpoint trace_error {A} (t : trace A) : option exn :=
  match t with
  | Done => None
  | Fail e => Some e
  | Yield _ t' => trace_error t'
  end.

Definition field_limit_error : exn :=
  CsvError (u "field larger than field limit (131072)").

Definition new_line_error : exn :=
  CsvError (u "new-line character seen in unquoted field - do you need to open the file in universal-newline mode?").

(** The exceptions of the [csv] module. *)
Definition is_csv_error (e : exn) : bool :=
  match e with
  | CsvError _ => true
  | _ => false
  end.

(** A step of the tokenizer that went well: it did not stop in the
    state after a line end inside a line, and if it raised, it was for
    the length of a field. *)
Definition fine (o : outcome Reader) : Prop :=
  match o with
  | Ret self => state self <> EAT_CRNL
  | Raise e => e = field_limit_error
  end.

Definition no_crnl (line : str) : Prop :=
  forall c, In c line -> (c =? 10) || (c =? 13) = false.


(** A row with an account number beside the fields of [row0], and a row
    whose currency is [None]. *)
Definition row0_with_iban : Row :=
  mkRow [(DATUM_ZAUCTOVANI, PyStr []); (CASTKA, PyStr (u "100"));
         (IBAN, PyStr (u "CZ6508000000192000145399"))] (Some [u "x"]).

Definition row_without_currency : Row :=
  mkRow [(CASTKA, PyStr (u "100")); (MENA, PyNone)] None.

(** A row with an emoji (U+1F600) in its message, and a row with a
    date of 300 characters. *)
Definition row_with_emoji : Row :=
  mkRow [(DATUM_ZAUCTOVANI, PyStr (u "01.03.2024")); (CASTKA, PyStr (u "100"));
         (ZPRAVA, PyStr (u "Jan " ++ [128512]))] None.

Definition row_with_long_date : Row :=
  mkRow [(DATUM_ZAUCTOVANI, PyStr (repeat 97 300)); (CASTKA, PyStr (u "100"))]
        None.

(** * Properties *)

(** ** The runtime on examples *)

Example u_castka : u "Částka" = [268; 225; 115; 116; 107; 97].
Proof. reflexivity. Qed.

Example str_of_int_1203 : str_of_int 1203 = u "1203".
Proof. reflexivity. Qed.

Example str_of_int_0 : str_of_int 0 = u "0".
Proof. reflexivity. Qed.

Example decode_bom_le :
  decode_utf16 Replace true [xff; xfe; x61; x00] = Ret (u "a").
Proof. reflexivity. Qed.

Example decode_bom_be :
  decode_utf16 Replace true [xfe; xff; x00; x61] = Ret (u "a").
Proof. reflexivity. Qed.

Example decode_lone_low :
  decode_utf16 Replace true [x61; x00; x00; xdc; x62; x00]
  = Ret [97; REPLACEMENT; 98].
Proof. reflexivity. Qed.

Example decode_high_then_char :
  decode_utf16 Replace true [x00; xd8; x61; x00] = Ret [REPLACEMENT; 97].
Proof. reflexivity. Qed.

Example decode_high_then_byte :
  decode_utf16 Replace true [x00; xd8; x61] = Ret [REPLACEMENT].
Proof. reflexivity. Qed.

Example decode_pair :
  decode_utf16 Replace true [x3d; xd8; x00; xde] = Ret [128512].
Proof. reflexivity. Qed.

Example decode_odd :
  decode_utf16 Replace true [x61] = Ret [REPLACEMENT].
Proof. reflexivity. Qed.

Example splitlines_mixed :
  splitlines (u "a" ++ [10] ++ u "b" ++ [13; 10] ++ u "c" ++ [13] ++ [13])
  = [u "a"; u "b"; u "c"; []].
Proof. reflexivity. Qed.

Example splitlines_final_boundary :
  splitlines (u "a,b" ++ [10] ++ [10] ++ u "c" ++ [10]) = [u "a,b"; []; u "c"].
Proof. reflexivity. Qed.

Example csv_reader_plain :
  csv_reader [u "a,b"; u "1,,3"; []; u "x"]
  = Yield [u "a"; u "b"] (Yield [u "1"; []; u "3"] (Yield [] (Yield [u "x"] Done))).
Proof. reflexivity. Qed.

Example csv_reader_quoted :
  csv_reader [[34] ++ u "x" ++ [34; 34] ++ u "y" ++ [34] ++ u "z,2"]
  = Yield [u "x" ++ [34] ++ u "yz"; u "2"] Done.
Proof. reflexivity. Qed.

Example csv_reader_open_quote :
  csv_reader [[34] ++ u "x"; u "y" ++ [34] ++ u ",2"]
  = Yield [u "xy"; u "2"] Done.
Proof. reflexivity. Qed.

Example DictReader_short_row :
  DictReader [u "a,b"; u "1"]
  = Yield (mkRow [(u "a", PyStr (u "1")); (u "b", PyNone)] None) Done.
Proof. reflexivity. Qed.

Example DictReader_long_row :
  DictReader [u "a,b"; u "1,2,3"]
  = Yield (mkRow [(u "a", PyStr (u "1")); (u "b", PyStr (u "2"))]
                 (Some [u "3"])) Done.
Proof. reflexivity. Qed.

Example DictReader_repeated_name :
  DictReader [u "a,a"; u "x"] = Yield (mkRow [(u "a", PyNone)] None) Done.
Proof. reflexivity. Qed.

Example DictReader_blank_line :
  DictReader [u "a,b"; []; u "1,2"]
  = Yield (mkRow [(u "a", PyStr (u "1")); (u "b", PyStr (u "2"))] None) Done.
Proof. reflexivity. Qed.

Example posix_join_basename :
  posix_basename (posix_join (u "/tmp/tmpk3v9") (u "row1_01-03-2024.pdf"))
  = u "row1_01-03-2024.pdf"
  /\ posix_dirname (posix_join (u "/tmp/tmpk3v9") (u "row1_01-03-2024.pdf"))
    = u "/tmp/tmpk3v9"
  /\ posix_dirname (u "/tmp/tmpk3v9/row1_01/03/2024.pdf")
    = u "/tmp/tmpk3v9/row1_01/03".
Proof. repeat split; reflexivity. Qed.

Example scenario_A :
  names (run env0 (upload
    [u "Datum zaúčtování,Částka,Měna,Zpráva pro příjemce,Variabilní symbol";
     u "01.03.2024,100,CZK,Jan Novák fotbal,123456"]))
  = Some [u "row1_01-03-2024.pdf"].
Proof. vm_compute. reflexivity. Qed.

(** A negative amount takes no number. *)
Example scenario_B :
  names (run env0 (upload
    [u "Datum zaúčtování,Částka,Měna";
     u "01.03.2024,-50,CZK";
     u "02.03.2024,70,CZK"]))
  = Some [u "row1_02-03-2024.pdf"].
Proof. vm_compute. reflexivity. Qed.

(** No column "Datum zaúčtování" at all. *)
Example scenario_C :
  names (run env0 (upload [u "Částka,Měna"; u "100,CZK"]))
  = Some [u "row1_.pdf"].
Proof. vm_compute. reflexivity. Qed.

(** A header line only. *)
Example scenario_D :
  names (run env0 (upload [u "Datum zaúčtování,Částka,Měna"])) = Some [].
Proof. vm_compute. reflexivity. Qed.

(** A date with a slash names a file in a directory that does not
    exist. *)
Example date_with_slash :
  run env0 (upload [u "Datum zaúčtování,Částka"; u "01/03/2024,100"])
  = Raise (FileNotFoundError (u "/tmp/tmpk3v9x0ab/row1_01/03/2024.pdf")).
Proof. vm_compute. reflexivity. Qed.

(** A character beyond U+FFFF in a printed field: the row is drawn, and
    writing the document out fails. *)
Example emoji_in_message :
  run env0 (mkRequest POST (Some (mkFile (u "export.csv")
    (bom true ++ flat_map (piece_bytes true) (map Encoded (lines_text
       [u "Datum zaúčtování,Částka,Zpráva pro příjemce";
        u "01.03.2024,100,Jan " ++ [128512]]))))))
  = Raise (IndexError (u "list index out of range")).
Proof. vm_compute. reflexivity. Qed.

(** The same character in a field that is not printed does no harm. *)
Example emoji_in_iban :
  names (run env0 (mkRequest POST (Some (mkFile (u "export.csv")
    (bom true ++ flat_map (piece_bytes true) (map Encoded (lines_text
       [u "Datum zaúčtování,Částka,IBAN";
        u "01.03.2024,100,CZ65 " ++ [128512]])))))))
  = Some [u "row1_01-03-2024.pdf"].
Proof. vm_compute. reflexivity. Qed.

(** A date of 300 characters makes a file name the system refuses; one
    of 246 characters is the longest that fits beside "row1_" and
    ".pdf". *)
Example long_date :
  run env0 (upload [u "Datum zaúčtování,Částka"; repeat 97 300 ++ u ",100"])
  = Raise (OSError ENAMETOOLONG
             (u "/tmp/tmpk3v9x0ab/row1_" ++ repeat 97 300 ++ u ".pdf"))
  /\ names (run env0 (upload [u "Datum zaúčtování,Částka";
                              repeat 97 246 ++ u ",100"]))
     = Some [u "row1_" ++ repeat 97 246 ++ u ".pdf"]
  /\ run env0 (upload [u "Datum zaúčtování,Částka"; repeat 97 247 ++ u ",100"])
     = Raise (OSError ENAMETOOLONG
                (u "/tmp/tmpk3v9x0ab/row1_" ++ repeat 97 247 ++ u ".pdf")).
Proof. repeat split; vm_compute; reflexivity. Qed.

(** A long directory below the temporary one does not exist, and a
    long first component is refused before that is seen. *)
Example long_component :
  run env0 (upload [u "Datum zaúčtování,Částka";
                    u "x/" ++ repeat 97 300 ++ u ",100"])
  = Raise (FileNotFoundError
             (u "/tmp/tmpk3v9x0ab/row1_x/" ++ repeat 97 300 ++ u ".pdf"))
  /\ run env0 (upload [u "Datum zaúčtování,Částka";
                       repeat 97 300 ++ u "/x,100"])
     = Raise (OSError ENAMETOOLONG
                (u "/tmp/tmpk3v9x0ab/row1_" ++ repeat 97 300 ++ u "/x.pdf")).
Proof. repeat split; vm_compute; reflexivity. Qed.

(** A surrogate in a printed field, which no decoded upload holds, is
    refused when the line is drawn; the row has been changed by then. *)
Example surrogate_in_field :
  generate_payment_pdf env0 0%nat
    (alloc world0 (mkRow [(DATUM_ZAUCTOVANI, PyStr []); (MENA, PyStr [55296])] None))
  = (Raise (UnicodeEncodeError (u "surrogates not allowed")),
     mkWorld [mkRow [(DATUM_ZAUCTOVANI, PyStr (u "neuvedeno"));
                     (MENA, PyStr [55296])] None] []).
Proof. vm_compute. reflexivity. Qed.

(** ** Text *)

Lemma str_eqb_eq (a b : str) : str_eqb a b = true <-> a = b.
Proof. unfold str_eqb. apply bool_decide_eq_true. Qed.

Lemma str_eqb_refl (a : str) : str_eqb a a = true.
Proof. apply str_eqb_eq. reflexivity. Qed.

Lemma str_eqb_neq (a b : str) : a <> b -> str_eqb a b = false.
Proof. intros H. unfold str_eqb. apply bool_decide_eq_false. exact H. Qed.

(** ** Dictionaries *)

Section Cells.
Context {V : Type}.
Implicit Types (d : list (str * V)) (k : str) (v : V).

Lemma cells_get_set_same d k v : cells_get k (cells_set k v d) = Some v.
Proof.
  induction d as [|[k' v'] d IH]; simpl.
  - rewrite str_eqb_refl. reflexivity.
  - destruct (str_eqb k' k) eqn:E; simpl; rewrite E; auto.
Qed.

Lemma cells_get_set_other d k k' v :
  k <> k' -> cells_get k' (cells_set k v d) = cells_get k' d.
Proof.
  intros Hne. induction d as [|[k0 v0] d IH]; simpl.
  - rewrite str_eqb_neq by exact Hne. reflexivity.
  - destruct (str_eqb k0 k) eqn:E; simpl.
    + apply str_eqb_eq in E. subst k0.
      rewrite str_eqb_neq by exact Hne. reflexivity.
    + destruct (str_eqb k0 k'); auto.
Qed.

Lemma cells_get_In d k :
  cells_get k d <> None -> In k (map fst d).
Proof.
  induction d as [|[k' v'] d IH]; simpl; [congruence|].
  destruct (str_eqb k' k) eqn:E.
  - apply str_eqb_eq in E. auto.
  - auto.
Qed.
End Cells.

(** ** Decimal numbers *)

Lemma digits_fuel_digits fuel : forall n acc,
  Forall (fun c => is_digit c = true) acc ->
  Forall (fun c => is_digit c = true) (digits_fuel fuel n acc).
Proof.
  induction fuel as [|fuel IH]; intros n acc Hacc; simpl; [exact Hacc|].
  assert (is_digit (48 + n mod 10) = true) as Hd.
  { unfold is_digit.
    pose proof (N.mod_upper_bound n 10 ltac:(discriminate)) as Hm.
    apply andb_true_intro. split; apply N.leb_le;
      generalize dependent (n mod 10); intros; lia. }
  destruct (n <? 10); [|apply IH]; constructor; assumption.
Qed.

Lemma digits_fuel_value fuel : forall n acc,
  n < 10 ^ N.of_nat fuel ->
  fold_left (fun v c => v * 10 + (c - 48)) (digits_fuel fuel n acc) 0
  = fold_left (fun v c => v * 10 + (c - 48)) acc n.
Proof.
  induction fuel as [|fuel IH]; intros n acc Hn.
  - simpl in Hn. assert (n = 0) as -> by lia. reflexivity.
  - cbn [digits_fuel]. destruct (N.ltb_spec n 10) as [Hlt|Hge].
    + cbn [fold_left]. f_equal. rewrite N.mod_small by exact Hlt.
      clear. lia.
    + rewrite IH.
      * cbn [fold_left]. f_equal.
        pose proof (N.div_mod n 10 ltac:(discriminate)) as Hdm.
        revert Hdm. generalize (n / 10) (n mod 10). clear. intros q r Hdm. lia.
      * rewrite Nat2N.inj_succ, N.pow_succ_r' in Hn.
        apply N.Div0.div_lt_upper_bound. exact Hn.
Qed.

Lemma str_of_int_fuel n : n < 10 ^ N.of_nat (S (N.to_nat (N.log2 n))).
Proof.
  rewrite Nat2N.inj_succ, N2Nat.id.
  destruct (N.eq_dec n 0) as [->|Hn]; [reflexivity|].
  pose proof (N.log2_spec n ltac:(lia)) as [_ Hup].
  eapply N.lt_le_trans; [exact Hup|].
  apply N.pow_le_mono_l. lia.
Qed.

Lemma int_of_str_of_int n : int_of_digits (str_of_int n) = n.
Proof.
  unfold int_of_digits, str_of_int.
  rewrite digits_fuel_value by apply str_of_int_fuel. reflexivity.
Qed.

Lemma str_of_int_inj n m : str_of_int n = str_of_int m -> n = m.
Proof.
  intros H. rewrite <- (int_of_str_of_int n), <- (int_of_str_of_int m).
  rewrite H. reflexivity.
Qed.

Lemma str_of_int_digits n :
  Forall (fun c => is_digit c = true) (str_of_int n).
Proof. apply digits_fuel_digits. constructor. Qed.

(** Two strings of digits, each followed by a character that is not a
    digit: when the texts agree, so do the digits. *)
Lemma digits_prefix_unique a : forall b x y r1 r2,
  Forall (fun c => is_digit c = true) a ->
  Forall (fun c => is_digit c = true) b ->
  is_digit x = false -> is_digit y = false ->
  a ++ x :: r1 = b ++ y :: r2 -> a = b.
Proof.
  induction a as [|c a IH]; intros b x y r1 r2 Ha Hb Hx Hy Heq.
  - destruct b as [|c' b]; [reflexivity|].
    simpl in Heq. injection Heq as -> _.
    apply Forall_inv in Hb. congruence.
  - destruct b as [|c' b].
    + simpl in Heq. injection Heq as -> _.
      apply Forall_inv in Ha. congruence.
    + simpl in Heq. injection Heq as -> Heq. f_equal.
      eapply IH; [| | | |exact Heq];
        eauto using Forall_inv_tail.
Qed.

(** ** The replacement of empty fields *)

Lemma set_heap_same w p r : heap w !! p = Some r -> set_heap w p r = w.
Proof.
  intros H. destruct w as [h f]. unfold set_heap. simpl in *.
  rewrite list_insert_id by exact H. reflexivity.
Qed.

Lemma set_heap_lookup w p r r0 :
  heap w !! p = Some r0 -> heap (set_heap w p r) !! p = Some r.
Proof.
  intros H. simpl. apply list_lookup_insert_eq.
  eapply lookup_lt_Some. exact H.
Qed.

Lemma set_heap_twice w p r r' :
  set_heap (set_heap w p r) p r' = set_heap w p r'.
Proof. unfold set_heap. simpl. rewrite list_insert_insert_eq. reflexivity. Qed.

Lemma lookup_total_Some (h : list Row) p r : h !! p = Some r -> h !!! p = r.
Proof. intros H. apply list_lookup_total_correct. exact H. Qed.

Lemma replace_if_empty_run w p r key :
  heap w !! p = Some r ->
  replace_if_empty p key w = (Ret tt, set_heap w p (replace_step r key)).
Proof.
  intros H. destruct key as [k|]; simpl.
  - unfold bind, read_row. rewrite (lookup_total_Some _ _ _ H).
    destruct (is_empty_str (row_get k PyNone r)).
    + unfold update_row. rewrite (lookup_total_Some _ _ _ H). reflexivity.
    + unfold ret. rewrite set_heap_same by exact H. reflexivity.
  - unfold ret. rewrite set_heap_same by exact H. reflexivity.
Qed.

Lemma replace_loop_run keys : forall w p r,
  heap w !! p = Some r ->
  for_each keys (replace_if_empty p) w
  = (Ret tt, set_heap w p (fold_left replace_step keys r)).
Proof.
  induction keys as [|key keys IH]; intros w p r H; simpl.
  - unfold ret. rewrite set_heap_same by exact H. reflexivity.
  - unfold bind at 1. rewrite (replace_if_empty_run _ _ _ _ H).
    rewrite (IH _ p (replace_step r key)).
    + rewrite set_heap_twice. reflexivity.
    + eapply set_heap_lookup. exact H.
Qed.

Lemma normalized_idem v : normalized (normalized v) = normalized v.
Proof. destruct v as [|[|c s]]; reflexivity. Qed.

Lemma normalized_not_empty v : is_empty_str v = false -> normalized v = v.
Proof. unfold normalized. intros ->. reflexivity. Qed.

Lemma is_empty_str_spec v : is_empty_str v = true <-> v = PyStr [].
Proof.
  destruct v as [|[|c s]]; simpl; split; intros H; try reflexivity;
    try discriminate H.
Qed.

Lemma replace_step_get r k0 k :
  cells_get k (cells (replace_step r (Some k0)))
  = if str_eqb k0 k then option_map normalized (cells_get k (cells r))
    else cells_get k (cells r).
Proof.
  simpl. unfold row_get.
  destruct (str_eqb k0 k) eqn:E.
  - apply str_eqb_eq in E. subst k0.
    destruct (cells_get k (cells r)) as [v|] eqn:G; simpl.
    + destruct (is_empty_str v) eqn:Ev; simpl.
      * rewrite cells_get_set_same. unfold normalized. rewrite Ev. reflexivity.
      * rewrite G. simpl. rewrite normalized_not_empty by exact Ev. reflexivity.
    + rewrite G. reflexivity.
  - assert (k0 <> k) as Hne.
    { intros ->. rewrite str_eqb_refl in E. discriminate. }
    destruct (is_empty_str _); simpl; [|reflexivity].
    apply cells_get_set_other. exact Hne.
Qed.

Lemma replace_step_keys r key :
  map fst (cells (replace_step r key)) = map fst (cells r)
  /\ rest (replace_step r key) = rest r.
Proof.
  destruct key as [k|]; simpl; [|auto].
  destruct (is_empty_str (row_get k PyNone r)) eqn:E; simpl; [|auto].
  split; [|reflexivity].
  apply is_empty_str_spec in E. unfold row_get in E.
  destruct (cells_get k (cells r)) as [v|] eqn:G; [|discriminate].
  clear E. induction (cells r) as [|[k' v'] d IH]; simpl in *; [discriminate|].
  destruct (str_eqb k' k); simpl; [reflexivity|]. f_equal. auto.
Qed.

Lemma replace_fold_get keys : forall r k,
  (In (Some k) keys ->
   cells_get k (cells (fold_left replace_step keys r))
   = option_map normalized (cells_get k (cells r)))
  /\ (~ In (Some k) keys ->
      cells_get k (cells (fold_left replace_step keys r))
      = cells_get k (cells r)).
Proof.
  induction keys as [|key keys IH]; intros r k; simpl.
  - split; [tauto|reflexivity].
  - destruct (IH (replace_step r key) k) as [IHin IHout].
    assert (option_map normalized (cells_get k (cells (replace_step r key)))
            = option_map normalized (cells_get k (cells r))) as Hn.
    { destruct key as [k0|]; [|reflexivity].
      rewrite replace_step_get. destruct (str_eqb k0 k); [|reflexivity].
      destruct (cells_get k (cells r)); simpl; [|reflexivity].
      rewrite normalized_idem. reflexivity. }
    split.
    + intros [Heq|Hin].
      * subst key. destruct (decide (Some k ∈ keys)) as [Hin|Hout];
          rewrite list_elem_of_In in *.
        -- rewrite IHin by exact Hin. exact Hn.
        -- rewrite IHout by exact Hout. rewrite replace_step_get.
           rewrite str_eqb_refl. reflexivity.
      * rewrite IHin by exact Hin. exact Hn.
    + intros Hout. rewrite IHout by tauto.
      destruct key as [k0|]; [|reflexivity].
      rewrite replace_step_get. rewrite str_eqb_neq; [reflexivity|].
      intros ->. tauto.
Qed.

Lemma In_row_keys r k : In k (map fst (cells r)) -> In (Some k) (row_keys r).
Proof.
  intros H. unfold row_keys. apply in_or_app. left.
  apply in_map_iff in H. destruct H as [[k' v] [<- H]].
  apply in_map_iff. exists (k', v). auto.
Qed.

Lemma normalize_row_get r k :
  cells_get k (cells (normalize_row r))
  = option_map normalized (cells_get k (cells r)).
Proof.
  unfold normalize_row.
  destruct (replace_fold_get (row_keys r) r k) as [Hin Hout].
  destruct (cells_get k (cells r)) as [v|] eqn:G.
  - rewrite Hin; [reflexivity|].
    apply In_row_keys. apply cells_get_In. congruence.
  - destruct (decide (Some k ∈ row_keys r)) as [H|H];
      rewrite list_elem_of_In in H.
    + rewrite Hin by exact H. reflexivity.
    + rewrite Hout by exact H. reflexivity.
Qed.

Lemma normalize_row_keys r :
  map fst (cells (normalize_row r)) = map fst (cells r)
  /\ rest (normalize_row r) = rest r.
Proof.
  unfold normalize_row. generalize (row_keys r) as keys.
  intros keys. revert r.
  induction keys as [|key keys IH]; intros r; simpl; [auto|].
  destruct (IH (replace_step r key)) as [H1 H2].
  destruct (replace_step_keys r key) as [H3 H4].
  split; congruence.
Qed.

Lemma shown_after_loop r k :
  format (row_get k (PyStr NOT_SPECIFIED) (normalize_row r)) = shown r k.
Proof.
  unfold row_get, shown. rewrite normalize_row_get.
  destruct (cells_get k (cells r)); reflexivity.
Qed.

(** ** The texts of the page *)

Lemma has_surrogate_app a b :
  has_surrogate (a ++ b) = has_surrogate a || has_surrogate b.
Proof. apply existsb_app. Qed.

Lemma beyond_font_app a b :
  beyond_font (a ++ b) = beyond_font a || beyond_font b.
Proof. apply existsb_app. Qed.

Lemma has_surrogate_after a b :
  has_surrogate a = false -> has_surrogate (a ++ b) = has_surrogate b.
Proof. intros H. rewrite has_surrogate_app, H. reflexivity. Qed.

Lemma beyond_font_after a b :
  beyond_font a = false -> beyond_font (a ++ b) = beyond_font b.
Proof. intros H. rewrite beyond_font_app, H. reflexivity. Qed.

Lemma digits_plain s :
  Forall (fun c => is_digit c = true) s ->
  has_surrogate s = false /\ beyond_font s = false.
Proof.
  induction 1 as [|c s Hc _ [IH1 IH2]]; [split; reflexivity|].
  unfold is_digit in Hc. apply andb_prop in Hc. destruct Hc as [_ Hc].
  apply N.leb_le in Hc. unfold has_surrogate, beyond_font in *.
  cbn [existsb]. rewrite IH1, IH2, !orb_false_r. unfold is_surrogate. split.
  - apply andb_false_intro1, N.leb_gt. lia.
  - apply N.ltb_ge. lia.
Qed.

Lemma pad2_digits n : Forall (fun c => is_digit c = true) (pad2 n).
Proof.
  unfold pad2. destruct (n <? 10); [|apply str_of_int_digits].
  constructor; [reflexivity|]. apply str_of_int_digits.
Qed.

Lemma today_plain env :
  has_surrogate (today env) = false /\ beyond_font (today env) = false.
Proof.
  unfold today.
  destruct (digits_plain _ (pad2_digits (today_day env))) as [D1 D2].
  destruct (digits_plain _ (pad2_digits (today_month env))) as [M1 M2].
  destruct (digits_plain _ (str_of_int_digits (today_year env))) as [Y1 Y2].
  rewrite !has_surrogate_app, !beyond_font_app, D1, D2, M1, M2, Y1, Y2.
  split; reflexivity.
Qed.

Lemma cell_run h txt centered pdf w :
  cell h txt centered pdf w
  = if has_surrogate txt
    then (Raise (UnicodeEncodeError (u "surrogates not allowed")), w)
    else (Ret (pdf ++ [Cell h txt centered]), w).
Proof. unfold cell. destruct (has_surrogate txt); reflexivity. Qed.

Lemma multi_cell_run h txt pdf w :
  multi_cell h txt pdf w
  = if has_surrogate txt
    then (Raise (UnicodeEncodeError (u "surrogates not allowed")), w)
    else (Ret (pdf ++ [MultiCell h txt]), w).
Proof. unfold multi_cell. destruct (has_surrogate txt); reflexivity. Qed.

(** What the library looks at when it writes the document out. *)
Lemma page_beyond_font env r :
  existsb (fun o => beyond_font (op_text o)) (page env r)
  = beyond_font (header_text env)
    || existsb beyond_font (map (shown r) printed_fields).
Proof.
  unfold page, printed_fields. cbn [existsb op_text map].
  rewrite !(beyond_font_after (u _)) by reflexivity.
  rewrite (beyond_font_app (shown r CASTKA)).
  rewrite (beyond_font_after (u " ")) by reflexivity.
  rewrite (proj2 (today_plain env)).
  change (beyond_font []) with false.
  change (beyond_font (u "Potvrzení o přijaté platbě")) with false.
  change (beyond_font (u "Detail platby:")) with false.
  change (beyond_font RECEIVER) with false.
  change (beyond_font ([10] ++ u " a pohybovou aktivitu.")) with false.
  cbn [orb]. rewrite !orb_false_r. reflexivity.
Qed.

(** The call of the renderer on a row of the store. *)
Lemma generate_payment_pdf_eq env w p r :
  heap w !! p = Some r ->
  generate_payment_pdf env p w
  = if has_surrogate (header_text env)
    then (Raise (UnicodeEncodeError (u "surrogates not allowed")), w)
    else (render_outcome env r, set_heap w p (normalize_row r)).
Proof.
  intros H. unfold generate_payment_pdf, add_page, PDF_header. cbv zeta.
  unfold bind at 1. unfold bind at 1. rewrite multi_cell_run.
  destruct (has_surrogate (header_text env)); [reflexivity|].
  unfold bind at 1. rewrite cell_run.
  change (has_surrogate (u "Potvrzení o přijaté platbě")) with false.
  cbv iota. unfold ret at 1.
  unfold bind at 1. unfold read_row at 1.
  rewrite (lookup_total_Some _ _ _ H).
  unfold bind at 1. rewrite (replace_loop_run _ _ _ _ H).
  fold (normalize_row r).
  unfold bind at 1. unfold read_row.
  rewrite (lookup_total_Some _ _ (normalize_row r))
    by (eapply set_heap_lookup; exact H).
  rewrite !shown_after_loop.
  unfold render_outcome, printed_fields. cbn [map existsb].
  unfold bind at 1. rewrite multi_cell_run.
  match goal with
  | |- context [has_surrogate (?a ++ [10] ++ ?b)] =>
      change (has_surrogate (a ++ [10] ++ b)) with false
  end.
  cbv iota.
  unfold bind at 1. rewrite cell_run.
  rewrite (has_surrogate_after (u _)) by reflexivity.
  destruct (has_surrogate (shown r ZPRAVA)); [reflexivity|].
  unfold bind at 1. rewrite cell_run.
  rewrite (has_surrogate_after (u _)) by reflexivity.
  destruct (has_surrogate (shown r VAR_SYMBOL)); [reflexivity|].
  unfold bind at 1. rewrite cell_run.
  change (has_surrogate (u "Detail platby:")) with false. cbv iota.
  unfold bind at 1. rewrite cell_run.
  rewrite (has_surrogate_after (u _)) by reflexivity.
  destruct (has_surrogate (shown r DATUM_ZAUCTOVANI)); [reflexivity|].
  unfold bind at 1. rewrite cell_run.
  rewrite (has_surrogate_after (u _)) by reflexivity.
  rewrite (has_surrogate_app (shown r CASTKA)).
  rewrite (has_surrogate_after (u " ")) by reflexivity.
  destruct (has_surrogate (shown r CASTKA)); [reflexivity|].
  destruct (has_surrogate (shown r MENA)); [reflexivity|].
  cbn [orb]. cbv iota.
  unfold bind at 1. rewrite cell_run.
  change (has_surrogate RECEIVER) with false. cbv iota.
  unfold bind at 1. rewrite cell_run.
  rewrite (has_surrogate_after (u _)) by reflexivity.
  rewrite (proj1 (today_plain env)).
  unfold output.
  match goal with
  | |- context [existsb (fun o => beyond_font (op_text o)) ?l] =>
      change l with (page env r)
  end.
  rewrite page_beyond_font.
  unfold printed_fields. cbn [map existsb].
  destruct (_ || _); reflexivity.
Qed.

(** A call that returns: the document and the store it leaves. *)
Lemma generate_payment_pdf_returns env w p r pdf w1 :
  heap w !! p = Some r ->
  generate_payment_pdf env p w = (Ret pdf, w1) ->
  pdf = page env r /\ w1 = set_heap w p (normalize_row r)
  /\ has_surrogate (header_text env) = false
  /\ render_outcome env r = Ret (page env r).
Proof.
  intros H Hrun. rewrite (generate_payment_pdf_eq env w p r H) in Hrun.
  destruct (has_surrogate (header_text env)); [discriminate|].
  injection Hrun as Hout <-. split; [|split; [reflexivity|split; [reflexivity|]]].
  - unfold render_outcome in Hout.
    destruct (existsb has_surrogate _); [discriminate|].
    destruct (_ || _); [discriminate|]. injection Hout as <-. reflexivity.
  - rewrite Hout. f_equal. unfold render_outcome in Hout.
    destruct (existsb has_surrogate _); [discriminate|].
    destruct (_ || _); [discriminate|]. injection Hout as <-. reflexivity.
Qed.

Lemma printable_spec s :
  printable s = true <-> has_surrogate s = false /\ beyond_font s = false.
Proof.
  unfold printable. rewrite andb_true_iff, !negb_true_iff. reflexivity.
Qed.


Lemma render_outcome_printable env r :
  printable (header_text env) = true ->
  (forall k, In k printed_fields -> printable (shown r k) = true) ->
  has_surrogate (header_text env) = false
  /\ render_outcome env r = Ret (page env r).
Proof.
  intros Hh Hf. apply printable_spec in Hh. destruct Hh as [Hh1 Hh2].
  split; [exact Hh1|]. unfold render_outcome. rewrite Hh2.
  assert (forall k, In k printed_fields ->
            has_surrogate (shown r k) = false
            /\ beyond_font (shown r k) = false) as H
    by (intros k Hk; apply printable_spec, Hf, Hk).
  unfold printed_fields in *. cbn [map existsb].
  destruct (H ZPRAVA) as [-> ->]; [left; reflexivity|].
  destruct (H VAR_SYMBOL) as [-> ->]; [right; left; reflexivity|].
  destruct (H DATUM_ZAUCTOVANI) as [-> ->]; [do 2 right; left; reflexivity|].
  destruct (H CASTKA) as [-> ->]; [do 3 right; left; reflexivity|].
  destruct (H MENA) as [-> ->]; [do 4 right; left; reflexivity|].
  reflexivity.
Qed.

Lemma page_body env r line : In line (body_lines r) -> In line (page env r).
Proof.
  unfold body_lines, page. intros [<-|[<-|[<-|[<-|[]]]]].
  - do 11 right. left. reflexivity.
  - do 12 right. left. reflexivity.
  - do 15 right. left. reflexivity.
  - do 16 right. left. reflexivity.
Qed.

(** What the four kinds of value of a field put on the page. *)
Lemma shown_cases r :
  (forall k, cells_get k (cells r) = None -> shown r k = u "neuvedeno")
  /\ (forall k, cells_get k (cells r) = Some (PyStr []) ->
        shown r k = u "neuvedeno")
  /\ (forall k c s, cells_get k (cells r) = Some (PyStr (c :: s)) ->
        shown r k = c :: s)
  /\ (forall k, cells_get k (cells r) = Some PyNone -> shown r k = u "None").
Proof.
  unfold shown. repeat split; intros; 
    match goal with H : cells_get _ _ = _ |- _ => rewrite H end; reflexivity.
Qed.

(** ** One turn of the loop over the rows *)

Lemma alloc_lookup w d : heap (alloc w d) !! length (heap w) = Some d.
Proof. simpl. apply list_lookup_middle. reflexivity. Qed.

Lemma date_after_render_eq d :
  row_get DATUM_ZAUCTOVANI (PyStr []) (normalize_row d) = date_after_render d.
Proof.
  unfold row_get, date_after_render. rewrite normalize_row_get.
  destruct (cells_get DATUM_ZAUCTOVANI (cells d)); reflexivity.
Qed.

Lemma new_row_run d w : new_row d w = (Ret (length (heap w)), alloc w d).
Proof. reflexivity. Qed.

Lemma read_row_run w p r : heap w !! p = Some r -> read_row p w = (Ret r, w).
Proof. intros H. unfold read_row. rewrite (lookup_total_Some _ _ _ H). reflexivity. Qed.

(** The start of a turn: the row is made and the amount is read. *)
Ltac loop_head w d :=
  cbn [rows_loop]; unfold bind at 1; rewrite new_row_run;
  unfold bind at 1; rewrite (read_row_run _ _ _ (alloc_lookup w d));
  fold (amount_of d).

(** The renderer has run: the date is read from the row it left. *)
Ltac loop_render w d Hrun :=
  unfold bind at 1; rewrite Hrun;
  unfold bind at 1;
  rewrite (read_row_run _ _ (normalize_row d))
    by (eapply set_heap_lookup; apply alloc_lookup);
  rewrite date_after_render_eq.

Lemma rows_loop_None env d t n paths w :
  amount_of d = PyNone ->
  rows_loop env (Yield d t) n paths w
  = (Raise (AttributeError (u "startswith")), alloc w d).
Proof.
  intros Ha. loop_head w d. rewrite Ha. reflexivity.
Qed.

Lemma rows_loop_negative env d t n paths w a :
  amount_of d = PyStr a -> startswith_char MINUS a = true ->
  rows_loop env (Yield d t) n paths w = rows_loop env t n paths (alloc w d).
Proof.
  intros Ha Hs. loop_head w d. rewrite Ha.
  unfold startswith, bind, ret. rewrite Hs. reflexivity.
Qed.

(** The renderer raises: so does the loop. *)
Lemma rows_loop_render_raises env d t n paths w a e w2 :
  amount_of d = PyStr a -> startswith_char MINUS a = false ->
  generate_payment_pdf env (length (heap w)) (alloc w d) = (Raise e, w2) ->
  rows_loop env (Yield d t) n paths w = (Raise e, w2).
Proof.
  intros Ha Hs Hgen. loop_head w d. rewrite Ha.
  unfold startswith. unfold bind at 1. unfold ret at 1. rewrite Hs.
  unfold bind at 1. cbn [alloc heap] in Hgen. rewrite Hgen. reflexivity.
Qed.

Lemma rows_loop_no_date env d t n paths w a pdf w2 :
  amount_of d = PyStr a -> startswith_char MINUS a = false ->
  date_after_render d = PyNone ->
  generate_payment_pdf env (length (heap w)) (alloc w d) = (Ret pdf, w2) ->
  rows_loop env (Yield d t) n paths w
  = (Raise (AttributeError (u "replace")), w2).
Proof.
  intros Ha Hs Hd Hgen.
  destruct (generate_payment_pdf_returns env _ _ _ _ _ (alloc_lookup w d) Hgen)
    as (-> & -> & _).
  loop_head w d. rewrite Ha.
  unfold startswith. unfold bind at 1. unfold ret at 1. rewrite Hs.
  cbn [alloc heap] in Hgen.
  loop_render w d Hgen. rewrite Hd. reflexivity.
Qed.

Lemma rows_loop_accept env d t n paths w a s pdf w2 :
  amount_of d = PyStr a -> startswith_char MINUS a = false ->
  date_after_render d = PyStr s ->
  generate_payment_pdf env (length (heap w)) (alloc w d) = (Ret pdf, w2) ->
  rows_loop env (Yield d t) n paths w
  = (let output_path :=
       posix_join (temp_dir env)
                  (pdf_name (n + 1) (replace_char DOT MINUS s)) in
     write_file env output_path pdf ;;
     rows_loop env t (n + 1) (paths ++ [output_path])) w2.
Proof.
  intros Ha Hs Hd Hgen.
  destruct (generate_payment_pdf_returns env _ _ _ _ _ (alloc_lookup w d) Hgen)
    as (-> & -> & _).
  loop_head w d. rewrite Ha.
  unfold startswith. unfold bind at 1. unfold ret at 1. rewrite Hs.
  cbn [alloc heap] in Hgen.
  loop_render w d Hgen. rewrite Hd.
  unfold replace. unfold bind at 1. unfold ret at 1. reflexivity.
Qed.

(** ** Paths *)

Lemma split_no_slash n :
  ~ In SLASH n -> split_after_last_slash n = ([], n).
Proof.
  induction n as [|c n IH]; intros H; simpl; [reflexivity|].
  rewrite IH by (intros Hin; apply H; right; exact Hin).
  destruct (N.eqb_spec c SLASH) as [->|_]; [|reflexivity].
  exfalso. apply H. left. reflexivity.
Qed.

Lemma split_app_no_slash P n :
  ~ In SLASH n -> P = [] \/ last P = Some SLASH ->
  split_after_last_slash (P ++ n) = (P, n).
Proof.
  intros Hn. induction P as [|c P IH]; intros HP; simpl.
  - apply split_no_slash. exact Hn.
  - destruct HP as [HP|HP]; [discriminate|].
    destruct P as [|c' P].
    + simpl in HP. injection HP as ->. simpl.
      rewrite split_no_slash by exact Hn. reflexivity.
    + rewrite IH by (right; exact HP).
      destruct (c =? SLASH); reflexivity.
Qed.

Lemma split_head_app P n :
  fst (split_after_last_slash n) <> [] ->
  fst (split_after_last_slash (P ++ n)) = P ++ fst (split_after_last_slash n).
Proof.
  intros Hn. induction P as [|c P IH]; simpl; [reflexivity|].
  destruct (split_after_last_slash (P ++ n)) as [h t]. simpl in IH. subst h.
  destruct (c =? SLASH); [reflexivity|].
  destruct (P ++ fst (split_after_last_slash n)) eqn:E; [|reflexivity].
  apply app_eq_nil in E. tauto.
Qed.

Lemma split_head_slash n :
  In SLASH n -> fst (split_after_last_slash n) <> [].
Proof.
  induction n as [|c n IH]; simpl; [tauto|].
  intros [->|Hin].
  - destruct (split_after_last_slash n). simpl. discriminate.
  - specialize (IH Hin). destruct (split_after_last_slash n) as [h t].
    simpl in IH. destruct (c =? SLASH); [simpl; discriminate|].
    destruct h; [tauto|simpl; discriminate].
Qed.

Lemma split_head_cons r n :
  fst (split_after_last_slash (r :: n)) <> [] ->
  fst (split_after_last_slash (r :: n))
  = r :: fst (split_after_last_slash n).
Proof.
  simpl. destruct (split_after_last_slash n) as [h t]. simpl.
  destruct (r =? SLASH); [reflexivity|].
  destruct h; simpl; [tauto|reflexivity].
Qed.

Lemma rstrip_cons r s : r <> SLASH -> rstrip_slash (r :: s) = r :: rstrip_slash s.
Proof.
  intros Hr. simpl. destruct (rstrip_slash s); [|reflexivity].
  destruct (N.eqb_spec r SLASH); [contradiction|reflexivity].
Qed.

Lemma rstrip_app P r s :
  r <> SLASH -> rstrip_slash (P ++ r :: s) = P ++ r :: rstrip_slash s.
Proof.
  intros Hr. induction P as [|c P IH].
  - apply rstrip_cons. exact Hr.
  - simpl app. simpl rstrip_slash. rewrite IH.
    destruct (P ++ r :: rstrip_slash s) eqn:E; [|reflexivity].
    apply app_eq_nil in E. destruct E. discriminate.
Qed.

Lemma posix_join_prefix a b :
  startswith_char SLASH b = false -> posix_join a b = join_prefix a ++ b.
Proof.
  intros H. unfold posix_join, join_prefix. rewrite H.
  destruct (last a) as [c|]; [|reflexivity].
  destruct (c =? SLASH); [reflexivity|].
  rewrite <- app_assoc. reflexivity.
Qed.

Lemma join_prefix_end a :
  join_prefix a = [] \/ last (join_prefix a) = Some SLASH.
Proof.
  unfold join_prefix. destruct (last a) as [c|] eqn:E.
  - destruct (N.eqb_spec c SLASH) as [->|_].
    + right. exact E.
    + right. apply last_snoc.
  - left. destruct a; [reflexivity|].
    apply last_None in E. discriminate.
Qed.

Lemma join_prefix_length a : (length a <= length (join_prefix a))%nat.
Proof.
  unfold join_prefix. destruct (last a) as [c|]; [|lia].
  destruct (c =? SLASH); [lia|]. rewrite length_app. simpl. lia.
Qed.

(** A name without a slash, joined to a directory, is the base name of
    the path. *)
Lemma basename_join a r n :
  r <> SLASH -> ~ In SLASH (r :: n) ->
  posix_basename (posix_join a (r :: n)) = r :: n.
Proof.
  intros Hr Hn. rewrite posix_join_prefix.
  - unfold posix_basename.
    rewrite split_app_no_slash by (exact Hn || apply join_prefix_end).
    reflexivity.
  - simpl. apply N.eqb_neq. exact Hr.
Qed.

(** A name with a slash, joined to a directory, lies in another
    directory. *)
Lemma dirname_join_slash a r n :
  r <> SLASH -> In SLASH (r :: n) ->
  posix_dirname (posix_join a (r :: n)) <> a.
Proof.
  intros Hr Hn. rewrite posix_join_prefix
    by (simpl; apply N.eqb_neq; exact Hr).
  unfold posix_dirname.
  pose proof (split_head_slash _ Hn) as Hne.
  rewrite split_head_app by exact Hne.
  rewrite split_head_cons by exact Hne.
  set (h := fst (split_after_last_slash n)).
  assert (forallb (fun c => c =? SLASH) (join_prefix a ++ r :: h) = false) as ->.
  { rewrite forallb_app. simpl.
    destruct (N.eqb_spec r SLASH); [contradiction|].
    simpl. apply andb_false_r. }
  rewrite rstrip_app by exact Hr.
  intros Heq. apply (f_equal (@length N)) in Heq.
  rewrite length_app in Heq. simpl in Heq.
  pose proof (join_prefix_length a). lia.
Qed.

Lemma pdf_name_cons n s :
  pdf_name n s = 114 :: (111 :: 119 :: str_of_int n ++ u "_" ++ s ++ u ".pdf").
Proof. reflexivity. Qed.

(** What a file that could be written tells about its path. *)
Lemma write_file_Ret env path data w w1 :
  write_file env path data w = (Ret tt, w1) ->
  existsb unencodable path = false
  /\ ~ In 0 path
  /\ fs_length path < PATH_MAX
  /\ fs_length (first_component
                  (lstrip_slash (drop (length (temp_dir env)) path)))
     <= NAME_MAX
  /\ posix_dirname path = temp_dir env
  /\ w1 = mkWorld (heap w) (cells_set path data (files w)).
Proof.
  unfold write_file. cbv zeta. intros Hw.
  destruct (existsb unencodable path); [discriminate|].
  destruct (bool_decide _) eqn:Hnul; [discriminate|].
  destruct (N.leb_spec PATH_MAX (fs_length path)) as [|Hp]; [discriminate|].
  destruct (N.ltb_spec NAME_MAX
              (fs_length (first_component
                 (lstrip_slash (drop (length (temp_dir env)) path)))))
    as [|Hn]; [discriminate|].
  destruct (str_eqb _ _) eqn:Hdir; [|discriminate].
  apply str_eqb_eq in Hdir. apply bool_decide_eq_false in Hnul.
  rewrite list_elem_of_In in Hnul. injection Hw as <-. auto 10.
Qed.

(** A file that could be written has its name as base name. *)
Lemma write_file_basename env name pdf w w' :
  startswith_char 114 name = true ->
  write_file env (posix_join (temp_dir env) name) pdf w = (Ret tt, w') ->
  posix_basename (posix_join (temp_dir env) name) = name.
Proof.
  intros Hr Hw. destruct name as [|r n]; [discriminate|].
  simpl in Hr. apply N.eqb_eq in Hr. subst r.
  assert (114 <> SLASH) as Hne by discriminate.
  apply write_file_Ret in Hw. destruct Hw as (_ & _ & _ & _ & Hdir & _).
  destruct (decide (SLASH ∈ 114 :: n)) as [Hin|Hout];
    rewrite list_elem_of_In in *.
  - exfalso. exact (dirname_join_slash _ _ _ Hne Hin Hdir).
  - apply basename_join; assumption.
Qed.

(** ** The whole loop *)

Lemma rows_loop_names env t : forall n paths w ps w',
  rows_loop env t n paths w = (Ret ps, w') ->
  exists qs, ps = paths ++ qs
    /\ map posix_basename qs = names_from n (List.filter kept (items t)).
Proof.
  induction t as [|e|d t IH]; intros n paths w ps w' Hrun.
  - injection Hrun as <- _. exists []. rewrite app_nil_r. auto.
  - discriminate Hrun.
  - cbn [items List.filter]. unfold kept at 1.
    destruct (amount_of d) as [|a] eqn:Ha.
    { rewrite rows_loop_None in Hrun by exact Ha. discriminate. }
    destruct (startswith_char MINUS a) eqn:Hs; cbn [negb].
    { rewrite (rows_loop_negative _ _ _ _ _ _ _ Ha Hs) in Hrun.
      eapply IH. exact Hrun. }
    destruct (generate_payment_pdf env (length (heap w)) (alloc w d))
      as [[pdf|e] w2] eqn:Hgen;
      [|rewrite (rows_loop_render_raises _ _ _ _ _ _ _ _ _ Ha Hs Hgen) in Hrun;
        discriminate].
    destruct (date_after_render d) as [|s] eqn:Hd.
    { rewrite (rows_loop_no_date _ _ _ _ _ _ _ _ _ Ha Hs Hd Hgen) in Hrun.
      discriminate. }
    rewrite (rows_loop_accept env d t n paths w a s pdf _ Ha Hs Hd Hgen)
      in Hrun.
    clear Hgen. cbv zeta in Hrun.
    unfold bind at 1 in Hrun.
    destruct (write_file _ _ _ _) as [[[]|e] w1] eqn:Hw; [|discriminate].
    apply IH in Hrun. destruct Hrun as [qs [-> Hqs]].
    eexists (_ :: qs). split; [rewrite <- app_assoc; reflexivity|].
    cbn [map names_from]. unfold date_part at 1. rewrite Hd. cbn [format].
    f_equal; [|exact Hqs].
    eapply write_file_basename; [reflexivity|exact Hw].
Qed.

(** An entry that could be written. *)
Lemma zf_write_Ret env path arcname zf w zf1 w1 :
  zf_write env path arcname zf w = (Ret zf1, w1) ->
  exists data,
    cells_get path (files w) = Some data
    /\ zf1 = zf ++ [(arcname, data)] /\ w1 = w
    /\ 1980 <= today_year env <= 2107
    /\ has_surrogate arcname = false.
Proof.
  unfold zf_write, read_file. unfold bind at 1. intros H.
  destruct (cells_get path (files w)) as [data|]; [|discriminate].
  destruct (N.ltb_spec (today_year env) 1980); [discriminate|].
  destruct (has_surrogate arcname); [discriminate|].
  destruct (N.ltb_spec 2107 (today_year env)); [discriminate|].
  injection H as <- <-. exists data. auto 10.
Qed.

Lemma zip_all_names env ps : forall zf w z w',
  zip_all env ps zf w = (Ret z, w') ->
  map fst z = map fst zf ++ map posix_basename ps.
Proof.
  induction ps as [|p ps IH]; intros zf w z w' H; cbn [zip_all] in H.
  - injection H as <- _. rewrite app_nil_r. reflexivity.
  - unfold bind at 1 in H.
    destruct (zf_write env p (posix_basename p) zf w) as [[zf1|e] w1] eqn:Hz;
      [|discriminate].
    apply zf_write_Ret in Hz. destruct Hz as (data & _ & -> & _).
    apply IH in H. rewrite H, map_app, <- app_assoc. reflexivity.
Qed.

(** A request answered with an archive holds, in order, one entry for
    each row that passed the filter, under the name built for it. *)
Lemma index_archive_names env request w zip m dn w' :
  index env request w = (Ret (SendFile zip m dn), w') ->
  exists file,
    csv_file request = Some file
    /\ map fst zip = names_from 0 (List.filter kept (items (rows_of env file))).
Proof.
  unfold index. destruct (method request); try discriminate.
  destruct (csv_file request) as [file|]; [|discriminate].
  destruct (negb (truthy (Some file))); [discriminate|].
  intros H. exists file. split; [reflexivity|].
  unfold with_temporary_directory in H.
  unfold bind at 1 in H. unfold lift in H. unfold rows_of.
  destruct (decode_utf16 _ _ _) as [decoded|e]; [|discriminate].
  unfold bind at 1 in H.
  destruct (rows_loop _ _ _ _ _) as [[ps|e] w1] eqn:Hloop; [|discriminate].
  apply rows_loop_names in Hloop. destruct Hloop as [qs [-> Hqs]].
  unfold bind at 1 in H.
  destruct (zip_all _ _ _ _) as [[z|e] w2] eqn:Hz; [|discriminate].
  apply zip_all_names in Hz. unfold ret in H. injection H as <- _ _ _.
  rewrite Hz. simpl. exact Hqs.
Qed.

(** ** The numbers in the names of the files *)

Lemma pdf_name_inj n m s s' : pdf_name n s = pdf_name m s' -> n = m.
Proof.
  rewrite !pdf_name_cons. intros H. injection H as H.
  apply str_of_int_inj.
  eapply digits_prefix_unique;
    [apply str_of_int_digits|apply str_of_int_digits| | |exact H];
    reflexivity.
Qed.

Lemma names_from_bound rows : forall n name,
  In name (names_from n rows) ->
  exists k d, n < k /\ name = pdf_name k (date_part d).
Proof.
  induction rows as [|d rows IH]; intros n name Hin; simpl in Hin; [tauto|].
  destruct Hin as [<-|Hin].
  - exists (n + 1), d. split; [lia|reflexivity].
  - apply IH in Hin. destruct Hin as [k [d' [Hk ->]]].
    exists k, d'. split; [lia|reflexivity].
Qed.

Lemma names_from_NoDup rows : forall n, List.NoDup (names_from n rows).
Proof.
  induction rows as [|d rows IH]; intros n; simpl; constructor.
  - intros Hin. apply names_from_bound in Hin.
    destruct Hin as [k [d' [Hk Heq]]].
    apply pdf_name_inj in Heq. lia.
  - apply IH.
Qed.

Lemma names_from_lookup rows : forall n i d,
  rows !! i = Some d ->
  names_from n rows !! i = Some (pdf_name (n + N.of_nat i + 1) (date_part d)).
Proof.
  induction rows as [|d0 rows IH]; intros n i d H; [discriminate|].
  destruct i as [|i]; simpl in *.
  - injection H as ->. rewrite N.add_0_r. reflexivity.
  - rewrite (IH (n + 1) i d H). do 2 f_equal. lia.
Qed.

Lemma names_from_length rows : forall n,
  length (names_from n rows) = length rows.
Proof. induction rows; intros n; simpl; auto. Qed.

(** ** UTF-16 code units *)

Lemma lor_lt_pow2 a b n : a < 2 ^ n -> b < 2 ^ n -> N.lor a b < 2 ^ n.
Proof.
  intros Ha Hb.
  destruct (N.eq_dec a 0) as [->|Ha0]; [rewrite N.lor_0_l; exact Hb|].
  destruct (N.eq_dec b 0) as [->|Hb0]; [rewrite N.lor_0_r; exact Ha|].
  assert (N.lor a b <> 0) as Hab.
  { intros H. apply N.lor_eq_0_iff in H. tauto. }
  apply N.log2_lt_pow2; [lia|]. rewrite N.log2_lor.
  apply N.log2_lt_pow2 in Ha; [|lia]. apply N.log2_lt_pow2 in Hb; [|lia].
  lia.
Qed.

Lemma byte_lt b : Byte.to_N b < 256.
Proof. pose proof (Byte.to_N_bounded b). lia. Qed.

Lemma unit16_lt le b0 b1 : unit16 le b0 b1 < 65536.
Proof.
  pose proof (byte_lt b0) as H0. pose proof (byte_lt b1) as H1.
  unfold unit16. change 65536 with (2 ^ 16).
  destruct le; apply lor_lt_pow2;
    rewrite ?N.shiftl_mul_pow2; change (2 ^ 8) with 256;
    change (2 ^ 16) with 65536; lia.
Qed.

Lemma land_1023_lt a : N.land a 1023 < 1024.
Proof.
  change 1023 with (N.ones 10). rewrite N.land_ones.
  change (2 ^ 10) with 1024. apply N.mod_lt. discriminate.
Qed.

Lemma join_surrogates_scalar hi lo : is_scalar (join_surrogates hi lo) = true.
Proof.
  unfold join_surrogates.
  pose proof (land_1023_lt hi) as Hh. pose proof (land_1023_lt lo) as Hl.
  assert (N.lor (N.shiftl (N.land hi 1023) 10) (N.land lo 1023) < 2 ^ 20) as Hb.
  { apply lor_lt_pow2; rewrite ?N.shiftl_mul_pow2; change (2 ^ 10) with 1024;
      change (2 ^ 20) with 1048576; lia. }
  change (2 ^ 20) with 1048576 in Hb.
  generalize dependent (N.lor (N.shiftl (N.land hi 1023) 10) (N.land lo 1023)).
  intros x Hx. unfold is_scalar, is_surrogate.
  apply andb_true_intro. split.
  - apply N.ltb_lt. lia.
  - apply negb_true_iff, andb_false_intro2, N.leb_gt. lia.
Qed.

Lemma byte_of_to_N n : Byte.to_N (byte_of n) = n mod 256.
Proof.
  unfold byte_of. destruct (Byte.of_N (n mod 256)) as [b|] eqn:E.
  - apply Byte.to_of_N. exact E.
  - apply Byte.of_N_None_iff in E.
    pose proof (N.mod_lt n 256 ltac:(discriminate)). lia.
Qed.

Lemma unit16_byte_of c :
  c < 65536 -> unit16 true (byte_of c) (byte_of (c / 256)) = c.
Proof.
  intros Hc. unfold unit16. rewrite !byte_of_to_N.
  rewrite (N.mod_small (c / 256))
    by (apply N.Div0.div_lt_upper_bound; exact Hc).
  change 256 with (2 ^ 8). apply N.bits_inj. intros i.
  rewrite N.lor_spec.
  destruct (N.lt_ge_cases i 8) as [Hi|Hi].
  - rewrite N.shiftl_spec_low by exact Hi.
    rewrite N.mod_pow2_bits_low by exact Hi. reflexivity.
  - rewrite N.shiftl_spec_high' by exact Hi.
    rewrite N.mod_pow2_bits_high by exact Hi.
    rewrite N.div_pow2_bits, N.sub_add by exact Hi.
    apply orb_false_r.
Qed.



















(** * The statements of the specification *)



(** C10. The renderer changes the row it is given: after a call that
    returns, the row object holds "neuvedeno" under every key that held
    the empty string, its other values and everything else in the store
    are as before, and the caller, which reads the date for the file
    name from the same object after the call, reads the changed
    value. *)
Theorem renderer_mutates_row env w0 d pdf w' :
  let p := length (heap w0) in
  generate_payment_pdf env p (alloc w0 d) = (Ret pdf, w') ->
  exists r',
    heap w' !! p = Some r'
    /\ (forall k, cells_get k (cells d) = Some (PyStr []) ->
          cells_get k (cells r') = Some (PyStr (u "neuvedeno")))
    /\ (forall k v, cells_get k (cells d) = Some v -> v <> PyStr [] ->
          cells_get k (cells r') = Some v)
    /\ (forall k, cells_get k (cells d) = None -> cells_get k (cells r') = None)
    /\ (forall q, q <> p -> heap w' !! q = heap (alloc w0 d) !! q)
    /\ files w' = files w0
    /\ (forall t n paths a s,
          amount_of d = PyStr a -> startswith_char MINUS a = false ->
          row_get DATUM_ZAUCTOVANI (PyStr []) r' = PyStr s ->
          rows_loop env (Yield d t) n paths w0
          = (let output_path :=
               posix_join (temp_dir env)
                          (pdf_name (n + 1) (replace_char DOT MINUS s)) in
             write_file env output_path pdf ;;
             rows_loop env t (n + 1) (paths ++ [output_path])) w').
Proof.
  intros p Hrun.
  destruct (generate_payment_pdf_returns env _ _ _ _ _ (alloc_lookup w0 d) Hrun)
    as (Hpdf & Hw & _).
  exists (normalize_row d). subst w'.
  split; [eapply set_heap_lookup; apply alloc_lookup|].
  split. { intros k Hk. rewrite normalize_row_get, Hk. reflexivity. }
  split.
  { intros k v Hk Hv. rewrite normalize_row_get, Hk. simpl. f_equal.
    apply normalized_not_empty. destruct (is_empty_str v) eqn:E; [|reflexivity].
    apply is_empty_str_spec in E. contradiction. }
  split. { intros k Hk. rewrite normalize_row_get, Hk. reflexivity. }
  split. { intros q Hq. simpl. apply list_lookup_insert_ne. auto. }
  split; [reflexivity|].
  intros t n paths a s Ha Hs Hd. rewrite date_after_render_eq in Hd.
  apply (rows_loop_accept env d t n paths w0 a s pdf _ Ha Hs Hd Hrun).
Qed.

(** ** Decoding *)

Lemma lossy_emit c lossy strict :
  lossy_of lossy strict -> lossy_of (emit c lossy) (emit c strict).
Proof.
  intros [s [-> [Hok Herr]]]. exists (c :: s). split; [reflexivity|].
  destruct strict as [s'|e]; simpl; split; intros x Hx; try discriminate.
  - injection Hx as <-. f_equal. apply Hok. reflexivity.
  - right. eapply Herr. reflexivity.
Qed.

Lemma lossy_returns lossy strict :
  lossy_of lossy strict -> exists s, lossy = Ret s.
Proof. intros [s [-> _]]. exists s. reflexivity. Qed.

Lemma lossy_error reason lossy strict :
  (exists s, lossy = Ret s) ->
  lossy_of (on_error Replace reason lossy) (on_error Strict reason strict).
Proof.
  intros [s ->]. exists (REPLACEMENT :: s). simpl.
  split; [reflexivity|]. split; intros x Hx; [discriminate|]. left. reflexivity.
Qed.

Lemma lossy_nil : lossy_of (Ret []) (Ret []).
Proof.
  exists []. split; [reflexivity|].
  split; intros x Hx; [injection Hx as <-; reflexivity|discriminate].
Qed.

Lemma utf16_units_lossy le (n : nat) : forall q,
  (length q <= n)%nat ->
  lossy_of (utf16_units Replace le q) (utf16_units Strict le q).
Proof.
  induction n as [|n IH]; intros q Hlen.
  - destruct q; [apply lossy_nil|simpl in Hlen; lia].
  - destruct q as [|b0 [|b1 q']]; [apply lossy_nil| |].
    + apply lossy_error. exists []. reflexivity.
    + cbn [utf16_units]. simpl in Hlen.
      destruct (negb (is_surrogate (unit16 le b0 b1))).
      { apply lossy_emit, IH. lia. }
      destruct (negb (is_high_surrogate (unit16 le b0 b1))).
      { apply lossy_error. eapply lossy_returns, IH. lia. }
      destruct q' as [|b2 [|b3 q'']].
      * apply lossy_error. exists []. reflexivity.
      * apply lossy_error. exists []. reflexivity.
      * destruct (is_low_surrogate (unit16 le b2 b3)).
        -- apply lossy_emit, IH. simpl in Hlen. lia.
        -- apply lossy_error. eapply lossy_returns, IH.
           simpl in Hlen |- *. lia.
Qed.






(** ** Requests without rows to render *)

Lemma rows_loop_all_dropped env t : forall n paths w,
  all_dropped t = true ->
  exists w', rows_loop env t n paths w = (Ret paths, w')
    /\ files w' = files w.
Proof.
  induction t as [|e|d t IH]; intros n paths w H; simpl in H.
  - exists w. auto.
  - discriminate.
  - destruct (amount_of d) as [|a] eqn:Ha; [discriminate|].
    apply andb_prop in H. destruct H as [Hs Ht].
    rewrite (rows_loop_negative _ _ _ _ _ _ _ Ha Hs).
    destruct (IH n paths (alloc w d) Ht) as [w' [Hrun Hf]].
    exists w'. auto.
Qed.

(** C8. When no row is accepted, because every row is filtered out or
    because the file has only its header line, the request does not
    fail: it is answered with an archive without entries. *)
Theorem no_accepted_rows_empty_archive env file w :
  filename file <> [] ->
  all_dropped (rows_of env file) = true ->
  exists w',
    index env (mkRequest POST (Some file)) w
    = (Ret (SendFile [] (u "application/zip") (u "pdf_confirmations.zip")), w')
    /\ files w' = files w.
Proof.
  intros Hname Hrows. unfold index. cbn [method csv_file truthy].
  rewrite bool_decide_eq_false_2 by exact Hname. cbn [negb].
  unfold with_temporary_directory, rows_of in *.
  unfold bind at 1. unfold lift.
  destruct (decode_utf16 _ _ _) as [decoded|e]; [|discriminate].
  unfold bind at 1.
  destruct (rows_loop_all_dropped env _ 0 [] (mkWorld (heap w) []) Hrows)
    as [w1 [Hrun _]].
  rewrite Hrun. unfold bind at 1. cbn [zip_all]. unfold ret.
  eexists. split; reflexivity.
Qed.

(** C9. A POST request without an upload is answered with status 400
    and a plain message, and nothing else happens: the store is left as
    it was (nothing is decoded, no row is made, no file is written). *)
Theorem missing_upload_rejected env request w :
  method request = POST ->
  truthy (csv_file request) = false ->
  index env request w = (Ret (Text (u "No file uploaded.") 400), w).
Proof.
  intros Hm Hf. unfold index. rewrite Hm.
  destruct (csv_file request) as [file|]; [|reflexivity].
  rewrite Hf. reflexivity.
Qed.

(** ** File names *)

(** C4. In an archive the entries are named "row<N>_<date>.pdf", where
    N counts the records accepted so far: the i-th accepted record
    (from 0) is entry i and has N = i + 1, so that N goes up by one with
    each accepted record and rows that are filtered out take no number;
    the names of one archive are pairwise distinct. *)
Theorem archive_names_numbered env request w zip m dn w' :
  index env request w = (Ret (SendFile zip m dn), w') ->
  exists file,
    csv_file request = Some file
    /\ let accepted := List.filter kept (items (rows_of env file)) in
       length zip = length accepted
       /\ (forall i d, accepted !! i = Some d ->
             map fst zip !! i
             = Some (u "row" ++ str_of_int (N.of_nat i + 1) ++ u "_"
                     ++ date_part d ++ u ".pdf"))
       /\ List.NoDup (map fst zip).
Proof.
  intros H. apply index_archive_names in H. destruct H as [file [Hf Hn]].
  exists file. split; [exact Hf|]. cbv zeta.
  split. { rewrite <- (length_map fst), Hn. apply names_from_length. }
  split. { intros i d Hi. rewrite Hn. apply (names_from_lookup _ 0 i d Hi). }
  rewrite Hn. apply names_from_NoDup.
Qed.

(** C2, as amended.  The date in the name of an entry is the value of
    "Datum zaúčtování" that the row holds after the renderer has run,
    with every '.' replaced by '-': for a row whose value in the file is
    the empty string it is the sentinel (as in "row1_neuvedeno.pdf"),
    for a row with a non-empty value it is that value, and for a row
    without the field (the header has no such column) it is empty (as in
    "row1_.pdf"). *)
Theorem file_name_date_after_render env request w zip m dn w' :
  index env request w = (Ret (SendFile zip m dn), w') ->
  exists file,
    csv_file request = Some file
    /\ forall i d,
         List.filter kept (items (rows_of env file)) !! i = Some d ->
         exists date,
           map fst zip !! i
           = Some (pdf_name (N.of_nat i + 1) (replace_char DOT MINUS date))
           /\ (cells_get DATUM_ZAUCTOVANI (cells d) = Some (PyStr []) ->
               date = u "neuvedeno")
           /\ (forall c s,
                 cells_get DATUM_ZAUCTOVANI (cells d) = Some (PyStr (c :: s)) ->
                 date = c :: s)
           /\ (cells_get DATUM_ZAUCTOVANI (cells d) = None -> date = []).
Proof.
  intros H. apply index_archive_names in H. destruct H as [file [Hf Hn]].
  exists file. split; [exact Hf|]. intros i d Hi.
  exists (format (date_after_render d)).
  split. { rewrite Hn. apply (names_from_lookup _ 0 i d Hi). }
  unfold date_after_render.
  split; [|split]; [intros Hd|intros c s Hd|intros Hd]; rewrite Hd; reflexivity.
Qed.

(** C2, as stated, fails: the value of "Datum zaúčtování" in the row of
    the file is the empty string, and the entry is named
    "row1_neuvedeno.pdf", not "row1_.pdf". *)
Lemma empty_date_named_by_sentinel :
  DictReader empty_date_export
  = Yield (mkRow [(DATUM_ZAUCTOVANI, PyStr []); (CASTKA, PyStr (u "100"));
                  (MENA, PyStr (u "CZK"))] None) Done
  /\ names (run env0 (upload empty_date_export))
     = Some [u "row1_neuvedeno.pdf"]
  /\ names (run env0 (upload empty_date_export)) <> Some [u "row1_.pdf"].
Proof.
  split; [reflexivity|].
  assert (names (run env0 (upload empty_date_export))
          = Some [u "row1_neuvedeno.pdf"]) as E by (vm_compute; reflexivity).
  split; [exact E|]. rewrite E. discriminate.
Qed.

(** ** Rows shorter than the header *)

(** C1, at a row without an amount.  The row does not start with '-'
    and should give one entry; the reader holds [None] under "Částka",
    the filter calls [startswith] on it, and the request ends with an
    AttributeError: no archive is produced.  Where a request is answered
    with an archive, the archive has one entry for each row whose amount
    does not start with '-'. *)
Theorem missing_amount_no_archive :
  DictReader no_amount_export
  = Yield (mkRow [(DATUM_ZAUCTOVANI, PyStr (u "01.03.2024")); (CASTKA, PyNone)]
                 None) Done
  /\ map kept (items (DictReader no_amount_export)) = [true]
  /\ run env0 (upload no_amount_export) = Raise (AttributeError (u "startswith"))
  /\ names (run env0 (upload no_amount_export)) = None
  /\ forall env request w zip m dn w',
       index env request w = (Ret (SendFile zip m dn), w') ->
       exists file,
         csv_file request = Some file
         /\ length zip
            = length (List.filter kept (items (rows_of env file))).
Proof.
  split; [reflexivity|]. split; [reflexivity|].
  assert (run env0 (upload no_amount_export)
          = Raise (AttributeError (u "startswith"))) as E
    by (vm_compute; reflexivity).
  split; [exact E|]. split; [rewrite E; reflexivity|].
  intros env request w zip m dn w' H.
  apply index_archive_names in H. destruct H as [file [Hf Hn]].
  exists file. split; [exact Hf|].
  rewrite <- (length_map fst), Hn. apply names_from_length.
Qed.

(** C3, at rows shorter than the header.  The reader fills the missing
    cells with [None]; a row without a cell for "Částka" makes the
    filter raise, also after a row that was rendered, and a row without
    a cell for "Datum zaúčtování" makes the naming of the file raise. *)
Theorem short_row_raises :
  run env0 (upload short_row_export) = Raise (AttributeError (u "startswith"))
  /\ run env0 (upload no_date_export) = Raise (AttributeError (u "replace"))
  /\ forall env d t n paths w,
       row_get CASTKA (PyStr []) d = PyNone ->
       exists w',
         rows_loop env (Yield d t) n paths w
         = (Raise (AttributeError (u "startswith")), w').
Proof.
  split; [vm_compute; reflexivity|].
  split; [vm_compute; reflexivity|].
  intros env d t n paths w H. eexists.
  apply rows_loop_None. exact H.
Qed.

(** ** The theorems at concrete inputs *)



Lemma renderer_mutates_row_witness :
  generate_payment_pdf env0 (length (heap world0)) (alloc world0 row0)
  = (Ret (document_of env0 row0),
     set_heap (alloc world0 row0) 0%nat (normalize_row row0))
  /\ exists r',
       heap (set_heap (alloc world0 row0) 0%nat (normalize_row row0)) !! 0%nat
       = Some r'
       /\ cells_get DATUM_ZAUCTOVANI (cells r') = Some (PyStr (u "neuvedeno"))
       /\ cells_get CASTKA (cells r') = Some (PyStr (u "100")).
Proof.
  assert (generate_payment_pdf env0 (length (heap world0)) (alloc world0 row0)
          = (Ret (document_of env0 row0),
             set_heap (alloc world0 row0) 0%nat (normalize_row row0))) as Hrun
    by (vm_compute; reflexivity).
  split; [exact Hrun|].
  destruct (renderer_mutates_row env0 world0 row0 _ _ Hrun)
    as (r' & Hrow & Hempty & Hother & _).
  exists r'. split; [exact Hrow|]. split; [apply Hempty; reflexivity|].
  apply Hother; [reflexivity|discriminate].
Defined.

Lemma no_accepted_rows_empty_archive_witness :
  filename (file_of header_only_export) <> []
  /\ all_dropped (rows_of env0 (file_of header_only_export)) = true
  /\ exists w',
       index env0 (mkRequest POST (Some (file_of header_only_export))) world0
       = (Ret (SendFile [] (u "application/zip") (u "pdf_confirmations.zip")), w')
       /\ files w' = files world0.
Proof.
  assert (filename (file_of header_only_export) <> []) as Hname
    by discriminate.
  assert (all_dropped (rows_of env0 (file_of header_only_export)) = true)
    as Hrows by (vm_compute; reflexivity).
  split; [exact Hname|]. split; [exact Hrows|].
  exact (no_accepted_rows_empty_archive env0 (file_of header_only_export)
           world0 Hname Hrows).
Defined.

Example all_negative_empty_archive :
  names (run env0 (upload all_negative_export)) = Some [].
Proof. vm_compute. reflexivity. Qed.

Lemma missing_upload_rejected_witness :
  method (mkRequest POST None) = POST
  /\ truthy (csv_file (mkRequest POST None)) = false
  /\ index env0 (mkRequest POST None) world0
     = (Ret (Text (u "No file uploaded.") 400), world0).
Proof.
  split; [reflexivity|]. split; [reflexivity|].
  exact (missing_upload_rejected env0 (mkRequest POST None) world0
           eq_refl eq_refl).
Defined.

Lemma archive_names_numbered_witness :
  three_rows_result
  = (Ret (SendFile (archive_of three_rows_result) (u "application/zip")
                   (u "pdf_confirmations.zip")), snd three_rows_result)
  /\ map fst (archive_of three_rows_result)
     = [u "row1_01-03-2024.pdf"; u "row2_03-03-2024.pdf"]
  /\ List.NoDup (map fst (archive_of three_rows_result)).
Proof.
  assert (three_rows_result
          = (Ret (SendFile (archive_of three_rows_result) (u "application/zip")
                           (u "pdf_confirmations.zip")), snd three_rows_result))
    as Hrun by (vm_compute; reflexivity).
  split; [exact Hrun|]. split; [vm_compute; reflexivity|].
  destruct (archive_names_numbered env0 (upload three_rows_export) world0
              _ _ _ _ Hrun) as (file & _ & _ & _ & Hnodup).
  exact Hnodup.
Defined.

Lemma file_name_date_after_render_witness :
  empty_date_result
  = (Ret (SendFile (archive_of empty_date_result) (u "application/zip")
                   (u "pdf_confirmations.zip")), snd empty_date_result)
  /\ map fst (archive_of empty_date_result) !! 0%nat
     = Some (u "row1_neuvedeno.pdf").
Proof.
  assert (empty_date_result
          = (Ret (SendFile (archive_of empty_date_result) (u "application/zip")
                           (u "pdf_confirmations.zip")), snd empty_date_result))
    as Hrun by (vm_compute; reflexivity).
  split; [exact Hrun|].
  destruct (file_name_date_after_render env0 (upload empty_date_export) world0
              _ _ _ _ Hrun) as (file & Hfile & Hnames).
  injection Hfile as <-.
  destruct (Hnames 0%nat
              (mkRow [(DATUM_ZAUCTOVANI, PyStr []); (CASTKA, PyStr (u "100"));
                      (MENA, PyStr (u "CZK"))] None))
    as (date & Hname & Hempty & _).
  { vm_compute. reflexivity. }
  rewrite (Hempty eq_refl) in Hname. exact Hname.
Defined.

(** * Further properties of the program *)

(** ** The renderer *)

Lemma generate_payment_pdf_same_document env w p r w0 p0 :
  heap w !! p = Some r -> heap w0 !! p0 = Some r ->
  fst (generate_payment_pdf env p w) = fst (generate_payment_pdf env p0 w0).
Proof.
  intros H H0.
  rewrite (generate_payment_pdf_eq env w p r H).
  rewrite (generate_payment_pdf_eq env w0 p0 r H0).
  destruct (has_surrogate (header_text env)); reflexivity.
Qed.

(** The document of a call that returns. *)
Lemma document_of_returns env w p r pdf w1 :
  heap w !! p = Some r ->
  generate_payment_pdf env p w = (Ret pdf, w1) ->
  document_of env r = pdf.
Proof.
  intros H Hrun. unfold document_of.
  rewrite <- (generate_payment_pdf_same_document env w p r
                (mkWorld [r] []) 0%nat H eq_refl).
  rewrite Hrun. reflexivity.
Qed.

Lemma replace_fold_fixed keys : forall r,
  (forall k, is_empty_str (row_get k PyNone r) = false) ->
  fold_left replace_step keys r = r.
Proof.
  induction keys as [|key keys IH]; intros r H; simpl; [reflexivity|].
  assert (replace_step r key = r) as ->.
  { destruct key as [k|]; simpl; [|reflexivity]. rewrite H. reflexivity. }
  apply IH. exact H.
Qed.

Lemma normalized_never_empty v : is_empty_str (normalized v) = false.
Proof. destruct v as [|[|c s]]; reflexivity. Qed.

Lemma normalize_row_idem r : normalize_row (normalize_row r) = normalize_row r.
Proof.
  unfold normalize_row at 1. apply replace_fold_fixed.
  intros k. unfold row_get. rewrite normalize_row_get.
  destruct (cells_get k (cells r)); simpl; [|reflexivity].
  apply normalized_never_empty.
Qed.

Lemma shown_normalize_row r k : shown (normalize_row r) k = shown r k.
Proof.
  unfold shown. rewrite normalize_row_get.
  destruct (cells_get k (cells r)); simpl; [|reflexivity].
  rewrite normalized_idem. reflexivity.
Qed.

(** How a call ends depends on the row through the texts of the five
    printed fields only. *)
Lemma render_outcome_shown env r1 r2 :
  (forall k, In k printed_fields -> shown r1 k = shown r2 k) ->
  render_outcome env r1 = render_outcome env r2.
Proof.
  intros H. unfold render_outcome, page, printed_fields in *. cbn [map].
  rewrite (H ZPRAVA) by (left; reflexivity).
  rewrite (H VAR_SYMBOL) by (right; left; reflexivity).
  rewrite (H DATUM_ZAUCTOVANI) by (do 2 right; left; reflexivity).
  rewrite (H CASTKA) by (do 3 right; left; reflexivity).
  rewrite (H MENA) by (do 4 right; left; reflexivity).
  reflexivity.
Qed.

(** X1. A second call of the renderer on the same row changes nothing:
    it returns the same document and leaves the store as the first call
    left it. *)
Theorem renderer_second_call_changes_nothing env w p r pdf w1 :
  heap w !! p = Some r ->
  generate_payment_pdf env p w = (Ret pdf, w1) ->
  generate_payment_pdf env p w1 = (Ret pdf, w1).
Proof.
  intros H Hrun.
  destruct (generate_payment_pdf_returns env w p r pdf w1 H Hrun)
    as (-> & -> & Hs & Hout).
  rewrite (generate_payment_pdf_eq env _ p (normalize_row r))
    by (eapply set_heap_lookup; exact H).
  rewrite Hs, normalize_row_idem, set_heap_twice. f_equal.
  rewrite <- Hout. apply render_outcome_shown.
  intros k _. apply shown_normalize_row.
Qed.

(** X2. The document shows five fields of the row and nothing else of
    it: two rows that agree on "Zpráva pro příjemce", "Variabilní
    symbol", "Datum zaúčtování", "Částka" and "Měna" give the same
    document, whatever their other fields (IBAN, BIC, the account
    fields, surplus cells) hold. *)
Theorem document_ignores_other_fields env w1 p1 r1 w2 p2 r2 :
  heap w1 !! p1 = Some r1 ->
  heap w2 !! p2 = Some r2 ->
  (forall k, In k [ZPRAVA; VAR_SYMBOL; DATUM_ZAUCTOVANI; CASTKA; MENA] ->
     cells_get k (cells r1) = cells_get k (cells r2)) ->
  fst (generate_payment_pdf env p1 w1) = fst (generate_payment_pdf env p2 w2).
Proof.
  intros H1 H2 Hk.
  rewrite (generate_payment_pdf_eq env w1 p1 r1 H1).
  rewrite (generate_payment_pdf_eq env w2 p2 r2 H2).
  destruct (has_surrogate (header_text env)); [reflexivity|].
  cbn [fst]. apply render_outcome_shown.
  intros k Hin. unfold shown. rewrite (Hk k Hin). reflexivity.
Qed.

(** X3. The renderer keeps the shape of the row: the same keys in the
    same order and the same surplus cells; no object is added to the
    store and no file is touched. *)
Theorem renderer_keeps_keys env w p r pdf w1 :
  heap w !! p = Some r ->
  generate_payment_pdf env p w = (Ret pdf, w1) ->
  exists r1,
    heap w1 !! p = Some r1
    /\ map fst (cells r1) = map fst (cells r)
    /\ rest r1 = rest r
    /\ length (heap w1) = length (heap w)
    /\ files w1 = files w.
Proof.
  intros H Hrun.
  destruct (generate_payment_pdf_returns env w p r pdf w1 H Hrun)
    as (_ & -> & _).
  exists (normalize_row r).
  split; [eapply set_heap_lookup; exact H|].
  destruct (normalize_row_keys r) as [Hk Hr].
  split; [exact Hk|]. split; [exact Hr|].
  split; [simpl; apply length_insert|reflexivity].
Qed.

(** X4. On a page the renderer returns, a field that holds [None], as
    a cell missing from a short row does, is printed as the text "None",
    not as the sentinel, and it stays [None] in the row.  [text k] is
    what field [k] puts on the page. *)
Theorem none_cell_printed_as_None env w p r pdf w' :
  heap w !! p = Some r ->
  generate_payment_pdf env p w = (Ret pdf, w') ->
  exists text,
    (forall k, cells_get k (cells r) = Some PyNone ->
       text k = u "None"
       /\ cells_get k (cells (heap w' !!! p)) = Some PyNone)
    /\ (forall k c s,
          cells_get k (cells r) = Some (PyStr (c :: s)) -> text k = c :: s)
    /\ In (Cell 10 (u "Jméno a pohybová aktivita: " ++ text ZPRAVA) false) pdf
    /\ In (Cell 10 (u "Rodné číslo (var. symbol): " ++ text VAR_SYMBOL) false) pdf
    /\ In (Cell 10 (u "Přijato dne: " ++ text DATUM_ZAUCTOVANI) false) pdf
    /\ In (Cell 10 (u "Částka: " ++ text CASTKA ++ u " " ++ text MENA) false) pdf.
Proof.
  intros H Hrun.
  destruct (generate_payment_pdf_returns env w p r pdf w' H Hrun)
    as (-> & -> & _).
  destruct (shown_cases r) as (_ & _ & Hstr & Hnone).
  exists (shown r). split.
  { intros k Hk. split; [apply Hnone; exact Hk|].
    rewrite (lookup_total_Some _ _ (normalize_row r))
      by (eapply set_heap_lookup; exact H).
    rewrite normalize_row_get, Hk. reflexivity. }
  split; [exact Hstr|].
  split; [apply page_body; left; reflexivity|].
  split; [apply page_body; right; left; reflexivity|].
  split; apply page_body; [do 2 right|do 3 right]; left; reflexivity.
Qed.

(** ** Rows shorter than the header, in general *)

Lemma fill_None_get k keys : forall d,
  In k keys \/ cells_get k (cells d) = Some PyNone ->
  cells_get k (cells (fold_left (fun d key => row_set key PyNone d) keys d))
  = Some PyNone.
Proof.
  induction keys as [|key keys IH]; intros d H; simpl.
  - destruct H as [[]|H]. exact H.
  - apply IH. destruct H as [[->|Hin]|H].
    + right. simpl. apply cells_get_set_same.
    + left. exact Hin.
    + right. simpl. destruct (decide (key = k)) as [->|Hne].
      * apply cells_get_set_same.
      * rewrite cells_get_set_other by exact Hne. exact H.
Qed.

Lemma DictReader_row_missing fieldnames row k :
  In k (drop (length row) fieldnames) ->
  cells_get k (cells (DictReader_row fieldnames row)) = Some PyNone.
Proof.
  intros Hin. unfold DictReader_row.
  assert (length row < length fieldnames)%nat as Hlt.
  { destruct (Nat.lt_ge_cases (length row) (length fieldnames)) as [H|H];
      [exact H|].
    rewrite drop_ge in Hin by exact H. destruct Hin. }
  destruct (Nat.ltb_spec (length fieldnames) (length row)); [lia|].
  destruct (Nat.ltb_spec (length row) (length fieldnames)); [|lia].
  apply fill_None_get. left. exact Hin.
Qed.

(** X5. Whenever the header names "Částka" in a column the row has no
    cell for, the row holds [None] there and the loop over the rows
    raises AttributeError at the test of the amount; the rows after it
    are not looked at. *)
Theorem short_row_amount_raises env fieldnames row reader n paths w :
  In CASTKA (drop (length row) fieldnames) ->
  exists w',
    rows_loop env (Yield (DictReader_row fieldnames row) reader) n paths w
    = (Raise (AttributeError (u "startswith")), w').
Proof.
  intros Hin. eexists. apply rows_loop_None.
  unfold amount_of, row_get.
  rewrite (DictReader_row_missing _ _ _ Hin). reflexivity.
Qed.

(** X6. Whenever a row passes the test of the amount, the header
    names "Datum zaúčtování" in a column the row has no cell for, and
    the renderer returns for the row, the page shows "Přijato dne: None"
    and the loop raises AttributeError when it builds the file name; no
    file is written for the row. *)
Theorem short_row_date_raises env fieldnames row reader n paths w a pdf w1 :
  amount_of (DictReader_row fieldnames row) = PyStr a ->
  startswith_char MINUS a = false ->
  In DATUM_ZAUCTOVANI (drop (length row) fieldnames) ->
  generate_payment_pdf env (length (heap w))
    (alloc w (DictReader_row fieldnames row)) = (Ret pdf, w1) ->
  rows_loop env (Yield (DictReader_row fieldnames row) reader) n paths w
  = (Raise (AttributeError (u "replace")), w1)
  /\ files w1 = files w
  /\ In (Cell 10 (u "Přijato dne: None") false) pdf.
Proof.
  intros Ha Hs Hin Hgen.
  pose proof (DictReader_row_missing _ _ _ Hin) as Hd.
  set (d := DictReader_row fieldnames row) in *.
  split; [|split].
  - apply (rows_loop_no_date env d reader n paths w a pdf w1 Ha Hs); [|exact Hgen].
    unfold date_after_render. rewrite Hd. reflexivity.
  - destruct (generate_payment_pdf_returns env _ _ _ _ _ (alloc_lookup w d) Hgen)
      as (_ & -> & _). reflexivity.
  - destruct (generate_payment_pdf_returns env _ _ _ _ _ (alloc_lookup w d) Hgen)
      as (-> & _).
    assert (shown d DATUM_ZAUCTOVANI = u "None") as E
      by (unfold shown; rewrite Hd; reflexivity).
    change (u "Přijato dne: None") with (u "Přijato dne: " ++ u "None").
    rewrite <- E. apply page_body. do 2 right. left. reflexivity.
Qed.

(** ** The files of a request *)

Lemma pdf_name_no_slash_start n s : startswith_char SLASH (pdf_name n s) = false.
Proof. rewrite pdf_name_cons. reflexivity. Qed.

Lemma posix_join_inj dir a b :
  startswith_char SLASH a = false -> startswith_char SLASH b = false ->
  posix_join dir a = posix_join dir b -> a = b.
Proof.
  intros Ha Hb. rewrite !posix_join_prefix by assumption.
  apply app_inv_head.
Qed.

Lemma write_file_inv env name pdf w w1 :
  startswith_char 114 name = true ->
  write_file env (posix_join (temp_dir env) name) pdf w = (Ret tt, w1) ->
  ~ In SLASH name /\ ~ In 0 name
  /\ w1 = mkWorld (heap w)
            (cells_set (posix_join (temp_dir env) name) pdf (files w)).
Proof.
  intros Hr Hw. destruct name as [|r n]; [discriminate|].
  simpl in Hr. apply N.eqb_eq in Hr. subst r.
  assert (114 <> SLASH) as Hne by discriminate.
  apply write_file_Ret in Hw.
  destruct Hw as (_ & Hnul & _ & _ & Hdir & ->).
  split; [|split; [|reflexivity]].
  - intros Hin. exact (dirname_join_slash _ _ _ Hne Hin Hdir).
  - intros Hin. apply Hnul.
    rewrite posix_join_prefix by reflexivity.
    apply in_or_app. right. exact Hin.
Qed.

Lemma rows_loop_entries env t : forall n paths w ps w',
  rows_loop env t n paths w = (Ret ps, w') ->
  ps = paths ++ map (posix_join (temp_dir env))
                    (names_from n (List.filter kept (items t)))
  /\ Forall (fun name => ~ In SLASH name /\ ~ In 0 name)
            (names_from n (List.filter kept (items t)))
  /\ Forall2 (fun name d =>
                cells_get (posix_join (temp_dir env) name) (files w')
                = Some (document_of env d))
             (names_from n (List.filter kept (items t)))
             (List.filter kept (items t))
  /\ (forall p,
        (forall k s, n < k -> p <> posix_join (temp_dir env) (pdf_name k s)) ->
        cells_get p (files w') = cells_get p (files w)).
Proof.
  induction t as [|e|d t IH]; intros n paths w ps w' Hrun.
  - injection Hrun as <- <-. cbn [items List.filter names_from map].
    rewrite app_nil_r. repeat split; constructor.
  - discriminate Hrun.
  - cbn [items List.filter].
    destruct (amount_of d) as [|a] eqn:Ha.
    { rewrite rows_loop_None in Hrun by exact Ha. discriminate. }
    destruct (startswith_char MINUS a) eqn:Hs.
    { assert (kept d = false) as ->
        by (unfold kept; rewrite Ha, Hs; reflexivity).
      rewrite (rows_loop_negative _ _ _ _ _ _ _ Ha Hs) in Hrun.
      apply IH in Hrun. exact Hrun. }
    assert (kept d = true) as ->
      by (unfold kept; rewrite Ha, Hs; reflexivity).
    destruct (generate_payment_pdf env (length (heap w)) (alloc w d))
      as [[pdf|e] w2] eqn:Hgen;
      [|rewrite (rows_loop_render_raises _ _ _ _ _ _ _ _ _ Ha Hs Hgen) in Hrun;
        discriminate].
    destruct (date_after_render d) as [|s] eqn:Hd.
    { rewrite (rows_loop_no_date _ _ _ _ _ _ _ _ _ Ha Hs Hd Hgen) in Hrun.
      discriminate. }
    rewrite (rows_loop_accept env d t n paths w a s _ _ Ha Hs Hd Hgen) in Hrun.
    assert (files w2 = files w) as Hfw.
    { destruct (generate_payment_pdf_returns env _ _ _ _ _
                  (alloc_lookup w d) Hgen) as (_ & -> & _). reflexivity. }
    pose proof (document_of_returns env _ _ _ _ _ (alloc_lookup w d) Hgen)
      as <-.
    clear Hgen. cbv zeta in Hrun. unfold bind at 1 in Hrun.
    destruct (write_file _ _ _ _) as [[[]|e] w1] eqn:Hw; [|discriminate].
    apply write_file_inv in Hw; [|reflexivity].
    destruct Hw as (Hslash & Hnul & ->).
    apply IH in Hrun. destruct Hrun as (-> & Hgood & Hfiles & Hold).
    cbn [files] in Hold. rewrite Hfw in Hold.
    cbn [names_from map].
    assert (date_part d = replace_char DOT MINUS s) as ->
      by (unfold date_part; rewrite Hd; reflexivity).
    set (name := pdf_name (n + 1) (replace_char DOT MINUS s)) in *.
    assert (forall k s', n + 1 < k ->
              posix_join (temp_dir env) name
              <> posix_join (temp_dir env) (pdf_name k s')) as Hfresh.
    { intros k s' Hk Heq.
      apply posix_join_inj in Heq; try apply pdf_name_no_slash_start.
      apply pdf_name_inj in Heq. lia. }
    split; [rewrite <- app_assoc; reflexivity|].
    split; [constructor; [split; assumption|exact Hgood]|].
    split.
    + constructor; [|exact Hfiles].
      rewrite (Hold _ Hfresh). apply cells_get_set_same.
    + intros p Hp. rewrite Hold by (intros k s' Hk; apply Hp; lia).
      apply cells_get_set_other.
      intros Heq. apply (Hp (n + 1) (replace_char DOT MINUS s)); [lia|].
      symmetry. exact Heq.
Qed.

(** The archive, when it could be made, holds the files. *)
Lemma zip_all_entries env ps : forall es zf w z w',
  Forall2 (fun p e => posix_basename p = fst e
                      /\ cells_get p (files w) = Some (snd e)) ps es ->
  zip_all env ps zf w = (Ret z, w') ->
  z = zf ++ es.
Proof.
  induction ps as [|p ps IH]; intros es zf w z w' H Hz; inversion H; subst;
    cbn [zip_all] in Hz.
  - injection Hz as <- _. rewrite app_nil_r. reflexivity.
  - unfold bind at 1 in Hz.
    destruct (zf_write env p (posix_basename p) zf w) as [[zf1|e] w1] eqn:Hw;
      [|discriminate].
    apply zf_write_Ret in Hw. destruct Hw as (data & Hdata & -> & -> & _).
    match goal with Hy : _ /\ _ |- _ => destruct Hy as [Hb Hf] end.
    rewrite Hf in Hdata. injection Hdata as <-.
    rewrite (IH _ _ _ _ _ ltac:(eassumption) Hz).
    rewrite Hb, <- app_assoc. destruct y. reflexivity.
Qed.

(** It can be made when the clock shows a year an entry can hold and
    the names have no surrogates. *)
Lemma zip_all_succeeds env ps : forall es zf w,
  1980 <= today_year env <= 2107 ->
  Forall2 (fun p e => posix_basename p = fst e
                      /\ cells_get p (files w) = Some (snd e)) ps es ->
  Forall (fun e => has_surrogate (fst e) = false) es ->
  zip_all env ps zf w = (Ret (zf ++ es), w).
Proof.
  intros es zf w Hyear H. revert zf.
  induction H as [|p e ps es [Hb Hf] _ IH]; intros zf Hs.
  - rewrite app_nil_r. reflexivity.
  - inversion Hs; subst. cbn [zip_all]. unfold bind at 1.
    unfold zf_write, read_file. unfold bind at 1. rewrite Hf.
    destruct (N.ltb_spec (today_year env) 1980); [lia|].
    rewrite Hb. match goal with Hx : has_surrogate _ = false |- _ => rewrite Hx end.
    destruct (N.ltb_spec 2107 (today_year env)); [lia|].
    unfold ret. rewrite IH by assumption.
    rewrite <- app_assoc. destruct e. reflexivity.
Qed.

Lemma entries_relation env w rows : forall n,
  Forall (fun name => ~ In SLASH name /\ ~ In 0 name) (names_from n rows) ->
  Forall2 (fun name d =>
             cells_get (posix_join (temp_dir env) name) (files w)
             = Some (document_of env d)) (names_from n rows) rows ->
  Forall2 (fun p e => posix_basename p = fst e
                      /\ cells_get p (files w) = Some (snd e))
          (map (posix_join (temp_dir env)) (names_from n rows))
          (entries_from env n rows).
Proof.
  induction rows as [|d rows IH]; intros n Hgood Hfiles;
    cbn [names_from map entries_from combine] in *; [constructor|].
  inversion Hgood; subst. inversion Hfiles; subst.
  constructor; [|apply IH; assumption].
  split; [|assumption]. cbn [fst].
  match goal with Hy : _ /\ _ |- _ => destruct Hy as [Hsl _] end.
  rewrite pdf_name_cons in *. apply basename_join; [discriminate|exact Hsl].
Qed.

(** X7. A request that is answered with an archive has, for each row
    that passed the filter and in the order of the rows, one entry that
    holds the document rendered from that row under the name built for
    it: no document is lost or overwritten by a later one. *)
Theorem archive_holds_rendered_documents env request w zip m dn w' :
  index env request w = (Ret (SendFile zip m dn), w') ->
  exists file,
    csv_file request = Some file
    /\ zip = combine
               (names_from 0 (List.filter kept (items (rows_of env file))))
               (map (document_of env)
                    (List.filter kept (items (rows_of env file)))).
Proof.
  unfold index. destruct (method request); try discriminate.
  destruct (csv_file request) as [file|]; [|discriminate].
  destruct (negb (truthy (Some file))); [discriminate|].
  intros H. exists file. split; [reflexivity|].
  unfold with_temporary_directory in H.
  unfold bind at 1 in H. unfold lift in H. unfold rows_of.
  destruct (decode_utf16 _ _ _) as [decoded|e]; [|discriminate].
  unfold bind at 1 in H.
  destruct (rows_loop _ _ _ _ _) as [[ps|e] w1] eqn:Hloop; [|discriminate].
  apply rows_loop_entries in Hloop.
  destruct Hloop as (-> & Hgood & Hfiles & _).
  unfold bind at 1 in H. cbn [app] in H.
  destruct (zip_all _ _ _ _) as [[z|e] w2] eqn:Hz; [|discriminate].
  apply (zip_all_entries _ _ _ _ _ _ _
           (entries_relation env w1 _ 0 Hgood Hfiles)) in Hz.
  unfold ret in H. injection H as <- _ _ _. rewrite Hz. reflexivity.
Qed.

(** X8. In an archive no entry name holds a slash or a NUL character:
    every entry lies at the top of the archive, whatever the dates in
    the file are. *)
Theorem archive_names_have_no_separator env request w zip m dn w' :
  index env request w = (Ret (SendFile zip m dn), w') ->
  forall name, In name (map fst zip) -> ~ In SLASH name /\ ~ In 0 name.
Proof.
  unfold index. destruct (method request); try discriminate.
  destruct (csv_file request) as [file|]; [|discriminate].
  destruct (negb (truthy (Some file))); [discriminate|].
  intros H.
  unfold with_temporary_directory in H.
  unfold bind at 1 in H. unfold lift in H.
  destruct (decode_utf16 _ _ _) as [decoded|e]; [|discriminate].
  unfold bind at 1 in H.
  destruct (rows_loop _ _ _ _ _) as [[ps|e] w1] eqn:Hloop; [|discriminate].
  pose proof (rows_loop_names _ _ _ _ _ _ _ Hloop) as [qs [Hps Hqs]].
  apply rows_loop_entries in Hloop.
  destruct Hloop as (-> & Hgood & _ & _).
  unfold bind at 1 in H.
  destruct (zip_all _ _ _ _) as [[z|e] w2] eqn:Hz; [|discriminate].
  apply zip_all_names in Hz. unfold ret in H. injection H as <- _ _ _.
  rewrite Hz. cbn [map app]. apply app_inv_head in Hps. rewrite Hps, Hqs.
  intros name Hin. rewrite Forall_forall in Hgood. apply Hgood.
  rewrite <- list_elem_of_In in *. exact Hin.
Qed.

(** ** Requests that are answered with an archive *)

Lemma rstrip_snoc_slash s : rstrip_slash (s ++ [SLASH]) = rstrip_slash s.
Proof.
  induction s as [|c s IH]; [reflexivity|].
  simpl app. simpl rstrip_slash. rewrite IH. reflexivity.
Qed.

Lemma rstrip_plain s c : last s = Some c -> c <> SLASH -> rstrip_slash s = s.
Proof.
  intros Hl Hc. induction s as [|c0 [|c1 s] IH]; [discriminate| |].
  - simpl in Hl. injection Hl as ->. simpl.
    destruct (N.eqb_spec c SLASH); [contradiction|reflexivity].
  - change (last (c0 :: c1 :: s)) with (last (c1 :: s)) in Hl.
    specialize (IH Hl). simpl rstrip_slash in *. rewrite IH. reflexivity.
Qed.

Lemma last_In (s : str) c : last s = Some c -> In c s.
Proof.
  induction s as [|c0 [|c1 s] IH]; intros H; [discriminate| |].
  - simpl in H. injection H as ->. left. reflexivity.
  - right. apply IH. exact H.
Qed.

Lemma plain_dir_spec dir :
  plain_dir dir = true ->
  exists c, last dir = Some c /\ c <> SLASH /\ ~ In 0 dir
            /\ has_surrogate dir = false.
Proof.
  unfold plain_dir. intros H. apply andb_prop in H. destruct H as [H Hs].
  apply andb_prop in H. destruct H as [Hl Hn].
  destruct (last dir) as [c|]; [|discriminate].
  exists c. split; [reflexivity|]. split; [|split].
  - intros ->. discriminate.
  - apply negb_true_iff, bool_decide_eq_false in Hn.
    rewrite <- list_elem_of_In. exact Hn.
  - apply negb_true_iff. exact Hs.
Qed.

Lemma plain_text_spec s :
  plain_text s = true -> ~ In SLASH s /\ ~ In 0 s.
Proof.
  unfold plain_text. intros H. apply andb_prop in H. destruct H as [H1 H2].
  apply negb_true_iff, bool_decide_eq_false in H1.
  apply negb_true_iff, bool_decide_eq_false in H2.
  rewrite <- !list_elem_of_In. auto.
Qed.

Lemma dirname_join_plain dir name c :
  last dir = Some c -> c <> SLASH ->
  startswith_char 114 name = true -> ~ In SLASH name ->
  posix_join dir name = dir ++ [SLASH] ++ name
  /\ posix_dirname (posix_join dir name) = dir.
Proof.
  intros Hl Hc Hr Hn.
  assert (startswith_char SLASH name = false) as Hs.
  { destruct name as [|r n]; [reflexivity|]. simpl in *.
    apply N.eqb_eq in Hr. subst r. reflexivity. }
  assert (posix_join dir name = dir ++ [SLASH] ++ name) as Hj.
  { unfold posix_join. rewrite Hs, Hl.
    destruct (N.eqb_spec c SLASH); [contradiction|reflexivity]. }
  split; [exact Hj|]. rewrite Hj. unfold posix_dirname.
  rewrite app_assoc.
  rewrite split_app_no_slash by (exact Hn || (right; apply last_snoc)).
  cbn [fst].
  assert (forallb (fun x => x =? SLASH) (dir ++ [SLASH]) = false) as ->.
  { destruct (forallb _ _) eqn:E; [|reflexivity].
    rewrite forallb_forall in E.
    specialize (E c (in_or_app _ _ _ (or_introl (last_In _ _ Hl)))).
    apply N.eqb_eq in E. contradiction. }
  rewrite rstrip_snoc_slash. apply (rstrip_plain _ c); assumption.
Qed.

Lemma replace_char_In c s :
  In c (replace_char DOT MINUS s) -> c = MINUS \/ In c s.
Proof.
  unfold replace_char. intros H. apply in_map_iff in H.
  destruct H as [x [Hx Hin]]. destruct (x =? DOT); [left|right]; congruence.
Qed.

Lemma pdf_name_plain n s c :
  is_digit c = false -> ~ In c (u "row_.pdf") -> c <> MINUS -> ~ In c s ->
  ~ In c (pdf_name n (replace_char DOT MINUS s)).
Proof.
  intros Hd Hfix Hm Hs Hin. unfold pdf_name in Hin.
  repeat (apply in_app_or in Hin; destruct Hin as [Hin|Hin]).
  - apply Hfix. simpl in *. tauto.
  - pose proof (str_of_int_digits n) as Hall. rewrite Forall_forall in Hall.
    rewrite <- list_elem_of_In in Hin.
    specialize (Hall c Hin). congruence.
  - apply Hfix. simpl in *. tauto.
  - apply replace_char_In in Hin. tauto.
  - apply Hfix. simpl in *. tauto.
Qed.

Lemma has_surrogate_encodable s :
  has_surrogate s = false -> existsb unencodable s = false.
Proof.
  unfold has_surrogate. induction s as [|c s IH]; [reflexivity|].
  cbn [existsb]. intros H. apply orb_false_iff in H. destruct H as [Hc Hs].
  rewrite IH by exact Hs. unfold unencodable. rewrite Hc. reflexivity.
Qed.

Lemma first_component_plain s : ~ In SLASH s -> first_component s = s.
Proof.
  induction s as [|c s IH]; intros H; [reflexivity|]. cbn [first_component].
  destruct (N.eqb_spec c SLASH) as [->|_]; [exfalso; apply H; left; reflexivity|].
  rewrite IH; [reflexivity|]. intros Hin. apply H. right. exact Hin.
Qed.

Lemma replace_char_no_surrogate s :
  has_surrogate s = false -> has_surrogate (replace_char DOT MINUS s) = false.
Proof.
  unfold has_surrogate, replace_char. induction s as [|c s IH]; [reflexivity|].
  cbn [existsb map]. intros H. apply orb_false_iff in H. destruct H as [Hc Hs].
  rewrite IH by exact Hs. destruct (c =? DOT); [reflexivity|].
  rewrite Hc. reflexivity.
Qed.

Lemma pdf_name_no_surrogate n s :
  has_surrogate s = false ->
  has_surrogate (pdf_name n (replace_char DOT MINUS s)) = false.
Proof.
  intros H. unfold pdf_name.
  rewrite !has_surrogate_app, (replace_char_no_surrogate s H).
  rewrite (proj1 (digits_plain _ (str_of_int_digits n))). reflexivity.
Qed.

(** The date of the file name is on the page, when the row has one. *)
Lemma date_no_surrogate d s :
  date_after_render d = PyStr s ->
  has_surrogate (shown d DATUM_ZAUCTOVANI) = false ->
  has_surrogate s = false.
Proof.
  unfold date_after_render, shown.
  destruct (cells_get DATUM_ZAUCTOVANI (cells d)) as [v|].
  - intros ->. auto.
  - intros H _. injection H as <-. reflexivity.
Qed.

Lemma write_file_succeeds env name pdf w c :
  last (temp_dir env) = Some c -> c <> SLASH -> ~ In 0 (temp_dir env) ->
  has_surrogate (temp_dir env) = false ->
  startswith_char 114 name = true ->
  ~ In SLASH name -> ~ In 0 name -> has_surrogate name = false ->
  fs_length name <= NAME_MAX ->
  fs_length (posix_join (temp_dir env) name) < PATH_MAX ->
  write_file env (posix_join (temp_dir env) name) pdf w
  = (Ret tt, mkWorld (heap w)
               (cells_set (posix_join (temp_dir env) name) pdf (files w))).
Proof.
  intros Hl Hc Hnul Hsur Hr Hslash Hzero Hname Hlen Hpath.
  destruct (dirname_join_plain (temp_dir env) name c Hl Hc Hr Hslash)
    as [Hj Hd].
  unfold write_file. cbv zeta. rewrite Hd, str_eqb_refl.
  rewrite has_surrogate_encodable.
  2: { rewrite Hj, !has_surrogate_app, Hsur, Hname. reflexivity. }
  rewrite bool_decide_eq_false_2.
  2: { rewrite Hj, list_elem_of_In. intros Hin.
       apply in_app_or in Hin. destruct Hin as [Hin|Hin]; [tauto|].
       apply in_app_or in Hin. destruct Hin as [[Hin|[]]|Hin];
         [discriminate|tauto]. }
  destruct (N.leb_spec PATH_MAX (fs_length (posix_join (temp_dir env) name)));
    [lia|].
  rewrite Hj at 1. rewrite drop_app_length.
  assert (lstrip_slash ([SLASH] ++ name) = name) as ->.
  { destruct name as [|r n]; [discriminate|]. simpl in Hr.
    apply N.eqb_eq in Hr. subst r. reflexivity. }
  rewrite first_component_plain by exact Hslash.
  destruct (N.ltb_spec NAME_MAX (fs_length name)); [lia|]. reflexivity.
Qed.

Lemma forallb_printed (P : str -> bool) :
  forallb P printed_fields = true -> forall k, In k printed_fields -> P k = true.
Proof. intros H k Hk. rewrite forallb_forall in H. apply H. exact Hk. Qed.

Lemma rows_loop_succeeds env t c :
  last (temp_dir env) = Some c -> c <> SLASH -> ~ In 0 (temp_dir env) ->
  has_surrogate (temp_dir env) = false ->
  printable (header_text env) = true ->
  forall n paths w,
    rows_ok env t n = true ->
    exists ps w', rows_loop env t n paths w = (Ret ps, w').
Proof.
  intros Hl Hc Hnul Hsur Hhead.
  induction t as [|e|d t IH]; intros n paths w Hok; cbn [rows_ok] in Hok.
  - eexists _, _. reflexivity.
  - discriminate.
  - destruct (amount_of d) as [|a] eqn:Ha; [discriminate|].
    destruct (startswith_char MINUS a) eqn:Hs.
    { rewrite (rows_loop_negative _ _ _ _ _ _ _ Ha Hs). apply IH. exact Hok. }
    apply andb_prop in Hok. destruct Hok as [Hprint Hok].
    destruct (date_after_render d) as [|s] eqn:Hd; [discriminate|].
    cbv zeta in Hok.
    apply andb_prop in Hok. destruct Hok as [Hok Hrest].
    apply andb_prop in Hok. destruct Hok as [Hok Hpath].
    apply andb_prop in Hok. destruct Hok as [Hplain Hname].
    apply plain_text_spec in Hplain. destruct Hplain as [Hsl H0].
    apply N.leb_le in Hname. apply N.ltb_lt in Hpath.
    destruct (render_outcome_printable env d Hhead (forallb_printed _ Hprint))
      as [Hhs Hout].
    pose proof (generate_payment_pdf_eq env _ _ d (alloc_lookup w d)) as Hgen.
    rewrite Hhs, Hout in Hgen.
    rewrite (rows_loop_accept env d t n paths w a s _ _ Ha Hs Hd Hgen).
    cbv zeta. unfold bind at 1.
    set (name := pdf_name (n + 1) (replace_char DOT MINUS s)) in *.
    assert (has_surrogate s = false) as Hds.
    { apply (date_no_surrogate d s Hd).
      pose proof (forallb_printed _ Hprint DATUM_ZAUCTOVANI
                    ltac:(do 2 right; left; reflexivity)) as Hp.
      apply printable_spec in Hp. tauto. }
    rewrite (write_file_succeeds env name _ _ c Hl Hc Hnul Hsur eq_refl);
      [apply IH; exact Hrest| | | |exact Hname|exact Hpath].
    + apply pdf_name_plain; [reflexivity| |discriminate|exact Hsl].
      simpl; intuition discriminate.
    + apply pdf_name_plain; [reflexivity| |discriminate|exact H0].
      simpl; intuition discriminate.
    + apply pdf_name_no_surrogate. exact Hds.
Qed.

(** The names of the files that were written hold no surrogate: their
    dates are on the pages. *)
Lemma rows_loop_names_printable env t : forall n paths w ps w',
  rows_loop env t n paths w = (Ret ps, w') ->
  Forall (fun name => has_surrogate name = false)
         (names_from n (List.filter kept (items t))).
Proof.
  induction t as [|e|d t IH]; intros n paths w ps w' Hrun.
  - constructor.
  - discriminate Hrun.
  - cbn [items List.filter].
    destruct (amount_of d) as [|a] eqn:Ha.
    { rewrite rows_loop_None in Hrun by exact Ha. discriminate. }
    destruct (startswith_char MINUS a) eqn:Hs.
    { assert (kept d = false) as ->
        by (unfold kept; rewrite Ha, Hs; reflexivity).
      rewrite (rows_loop_negative _ _ _ _ _ _ _ Ha Hs) in Hrun.
      apply IH in Hrun. exact Hrun. }
    assert (kept d = true) as ->
      by (unfold kept; rewrite Ha, Hs; reflexivity).
    destruct (generate_payment_pdf env (length (heap w)) (alloc w d))
      as [[pdf|e] w2] eqn:Hgen;
      [|rewrite (rows_loop_render_raises _ _ _ _ _ _ _ _ _ Ha Hs Hgen) in Hrun;
        discriminate].
    destruct (date_after_render d) as [|s] eqn:Hd.
    { rewrite (rows_loop_no_date _ _ _ _ _ _ _ _ _ Ha Hs Hd Hgen) in Hrun.
      discriminate. }
    rewrite (rows_loop_accept env d t n paths w a s _ _ Ha Hs Hd Hgen) in Hrun.
    destruct (generate_payment_pdf_returns env _ _ _ _ _ (alloc_lookup w d) Hgen)
      as (_ & _ & _ & Hout).
    cbv zeta in Hrun. unfold bind at 1 in Hrun.
    destruct (write_file _ _ _ _) as [[[]|e] w1]; [|discriminate].
    apply IH in Hrun. cbn [names_from]. constructor; [|exact Hrun].
    unfold date_part. rewrite Hd. cbn [format].
    apply pdf_name_no_surrogate. apply (date_no_surrogate d s Hd).
    unfold render_outcome, printed_fields in Hout. cbn [map existsb] in Hout.
    destruct (has_surrogate (shown d ZPRAVA)); [discriminate|].
    destruct (has_surrogate (shown d VAR_SYMBOL)); [discriminate|].
    destruct (has_surrogate (shown d DATUM_ZAUCTOVANI)); [discriminate|].
    reflexivity.
Qed.

(** X9. A request is answered with an archive whenever the upload has
    a file name, the temporary directory has a plain path, the clock
    shows a year a ZIP entry can hold, the letterhead is a text the font
    has, the reader ends without an error, no row holds [None] under
    "Částka", and every row that passes the filter has printed fields
    the font has and a [str] date without a slash or a NUL character
    that makes a file name of at most 255 bytes; the archive then has
    one entry for each row that passed the filter, and no file is left
    behind. *)
Theorem well_formed_export_gives_archive env file w :
  plain_dir (temp_dir env) = true ->
  1980 <= today_year env <= 2107 ->
  printable (header_text env) = true ->
  filename file <> [] ->
  rows_ok env (rows_of env file) 0 = true ->
  exists zip w',
    index env (mkRequest POST (Some file)) w
    = (Ret (SendFile zip (u "application/zip") (u "pdf_confirmations.zip")), w')
    /\ length zip = length (List.filter kept (items (rows_of env file)))
    /\ files w' = files w.
Proof.
  intros Hdir Hyear Hhead Hname Hrows.
  apply plain_dir_spec in Hdir. destruct Hdir as (c & Hl & Hc & Hnul & Hsur).
  unfold index. cbn [method csv_file truthy].
  rewrite bool_decide_eq_false_2 by exact Hname. cbn [negb].
  unfold with_temporary_directory, rows_of in *.
  unfold bind at 1. unfold lift.
  destruct (decode_utf16 _ _ _) as [decoded|e]; [|discriminate].
  unfold bind at 1.
  destruct (rows_loop_succeeds env _ c Hl Hc Hnul Hsur Hhead 0 []
              (mkWorld (heap w) []) Hrows) as (ps & w1 & Hloop).
  rewrite Hloop.
  pose proof (rows_loop_names_printable _ _ _ _ _ _ _ Hloop) as Hprint.
  apply rows_loop_entries in Hloop.
  destruct Hloop as (-> & Hgood & Hfiles & _).
  unfold bind at 1. cbn [app].
  rewrite (zip_all_succeeds env _ _ [] w1 Hyear
             (entries_relation env w1 _ 0 Hgood Hfiles)).
  - unfold ret. eexists _, _. split; [reflexivity|].
    split; [|reflexivity].
    cbn [app]. unfold entries_from.
    rewrite length_combine, names_from_length, length_map. lia.
  - unfold entries_from. revert Hprint.
    generalize 0. generalize (List.filter kept (items (DictReader (splitlines decoded)))).
    intros rows. induction rows as [|d rows IH]; intros n Hp;
      cbn [names_from map combine]; constructor.
    + inversion Hp; subst. assumption.
    + apply IH. inversion Hp; subst. assumption.
Qed.

(** ** The exceptions of a request *)

Lemma is_linebreak_crnl c : is_linebreak c = false -> (c =? 10) || (c =? 13) = false.
Proof.
  intros H. destruct (N.eqb_spec c 10) as [->|_]; [discriminate H|].
  destruct (N.eqb_spec c 13) as [->|_]; [discriminate H|]. reflexivity.
Qed.

Lemma splitlines_from_no_crnl (n : nat) : forall s line,
  (length s <= n)%nat -> no_crnl line ->
  Forall no_crnl (splitlines_from s line).
Proof.
  induction n as [|n IH]; intros s line Hlen Hline.
  - destruct s; [|simpl in Hlen; lia]. simpl.
    destruct line; constructor; [|constructor].
    intros c Hc. apply Hline. apply in_rev. exact Hc.
  - destruct s as [|c s'].
    { simpl. destruct line; constructor; [|constructor].
      intros x Hx. apply Hline. apply in_rev. exact Hx. }
    simpl in Hlen. cbn [splitlines_from].
    destruct (is_linebreak c) eqn:Hc.
    + constructor.
      { intros x Hx. apply Hline. apply in_rev. exact Hx. }
      assert (no_crnl []) as Hnil by (intros x []).
      destruct s' as [|c' s'']; [constructor|].
      destruct ((c =? 13) && (c' =? 10)); apply IH; try exact Hnil;
        simpl in *; lia.
    + apply IH; [lia|]. intros x [<-|Hx]; [|apply Hline; exact Hx].
      apply is_linebreak_crnl. exact Hc.
Qed.

Lemma splitlines_no_crnl s : Forall no_crnl (splitlines s).
Proof.
  apply (splitlines_from_no_crnl (length s)); [lia|]. intros c [].
Qed.

Lemma add_then_fine s self x : s <> EAT_CRNL -> fine (add_then s self x).
Proof.
  intros Hs. unfold add_then, parse_add_char.
  destruct (FIELD_LIMIT <=? _); simpl; [reflexivity|exact Hs].
Qed.

Lemma start_field_fine self c : is_crnl c = false -> fine (start_field self c).
Proof.
  intros Hc. destruct c as [x|]; simpl in *; [|discriminate].
  rewrite Hc. destruct (x =? QUOTECHAR); [simpl; discriminate|].
  destruct (x =? DELIMITER); [simpl; discriminate|].
  apply add_then_fine. discriminate.
Qed.

Lemma parse_process_char_fine self c :
  state self <> EAT_CRNL -> is_crnl c = false ->
  fine (parse_process_char self c).
Proof.
  intros Hs Hc. unfold parse_process_char.
  destruct (state self) eqn:E; try contradiction.
  - destruct c as [x|]; [|simpl; congruence].
    simpl in Hc. rewrite Hc. apply start_field_fine. exact Hc.
  - apply start_field_fine. exact Hc.
  - destruct c as [x|]; [|simpl; discriminate].
    simpl in Hc. rewrite Hc.
    destruct (x =? DELIMITER); [simpl; discriminate|].
    apply add_then_fine. discriminate.
  - destruct c as [x|]; [|simpl; congruence].
    destruct (x =? QUOTECHAR); [simpl; discriminate|].
    apply add_then_fine. discriminate.
  - destruct c as [x|]; [|simpl; discriminate].
    simpl in Hc.
    destruct (x =? QUOTECHAR); [apply add_then_fine; discriminate|].
    destruct (x =? DELIMITER); [simpl; discriminate|].
    rewrite Hc. apply add_then_fine. discriminate.
Qed.

Lemma parse_line_fine line : forall self,
  state self <> EAT_CRNL -> no_crnl line -> fine (parse_line self line).
Proof.
  induction line as [|c line IH]; intros self Hs Hline; cbn [parse_line].
  - apply parse_process_char_fine; [exact Hs|reflexivity].
  - pose proof (parse_process_char_fine self (Ch c) Hs
                  (Hline c (or_introl eq_refl))) as Hstep.
    destruct (parse_process_char self (Ch c)) as [self'|e]; [|exact Hstep].
    apply IH; [exact Hstep|]. intros x Hx. apply Hline. right. exact Hx.
Qed.

Lemma reader_from_error lines : forall self e,
  state self <> EAT_CRNL -> Forall no_crnl lines ->
  trace_error (reader_from self lines) = Some e -> e = field_limit_error.
Proof.
  induction lines as [|line lines IH]; intros self e Hs Hlines He;
    cbn [reader_from] in He.
  - destruct (_ || _); simpl in He; discriminate.
  - inversion Hlines; subst.
    pose proof (parse_line_fine line self Hs ltac:(assumption)) as Hline.
    destruct (parse_line self line) as [self'|e']; simpl in *.
    + destruct (bool_decide (state self' = START_RECORD)); simpl in He.
      * eapply (IH parse_reset); [discriminate|assumption|exact He].
      * eapply (IH self'); [exact Hline|assumption|exact He].
    + injection He as <-. exact Hline.
Qed.

Lemma DictReader_rows_error fieldnames reader :
  trace_error (DictReader_rows fieldnames reader) = trace_error reader.
Proof.
  induction reader as [|e|row reader IH]; simpl; try reflexivity.
  destruct row; simpl; exact IH.
Qed.

Lemma DictReader_error s e :
  trace_error (DictReader (splitlines s)) = Some e -> e = field_limit_error.
Proof.
  intros He.
  apply (reader_from_error (splitlines s) parse_reset e);
    [discriminate|apply splitlines_no_crnl|].
  unfold DictReader, csv_reader in He.
  destruct (reader_from parse_reset (splitlines s)) as [|e'|f reader];
    simpl in *; try exact He.
  rewrite DictReader_rows_error in He. exact He.
Qed.

Lemma decode_replace_total native_le bs :
  exists s, decode_utf16 Replace native_le bs = Ret s.
Proof.
  apply (lossy_returns _ (decode_utf16 Strict native_le bs)).
  unfold decode_utf16.
  destruct bs as [|b0 [|b1 q]];
    try (eapply utf16_units_lossy; reflexivity).
  destruct (unit16 true b0 b1 =? 65279);
    [eapply utf16_units_lossy; reflexivity|].
  destruct (unit16 true b0 b1 =? 65534);
    eapply utf16_units_lossy; reflexivity.
Qed.

Lemma render_not_csv_error env w p r e w1 :
  heap w !! p = Some r ->
  generate_payment_pdf env p w = (Raise e, w1) -> is_csv_error e = false.
Proof.
  intros H Hrun. rewrite (generate_payment_pdf_eq env w p r H) in Hrun.
  destruct (has_surrogate (header_text env)); [injection Hrun as <- _; reflexivity|].
  unfold render_outcome in Hrun.
  destruct (existsb has_surrogate _); [injection Hrun as <- _; reflexivity|].
  destruct (_ || _); [injection Hrun as <- _; reflexivity|discriminate].
Qed.

Lemma write_file_not_csv_error env path data w e w1 :
  write_file env path data w = (Raise e, w1) -> is_csv_error e = false.
Proof.
  unfold write_file. cbv zeta. intros H.
  repeat match type of H with
         | (if ?b then _ else _) = _ =>
             destruct b; [injection H as <- _; reflexivity|]
         end.
  destruct (str_eqb _ _); [discriminate|]. injection H as <- _. reflexivity.
Qed.

(** An error of the [csv] module that ends the loop over the rows comes
    from the reader. *)
Lemma rows_loop_error env t : forall n paths w e w',
  rows_loop env t n paths w = (Raise e, w') ->
  is_csv_error e = true ->
  trace_error t = Some e.
Proof.
  induction t as [|e0|d t IH]; intros n paths w e w' Hrun He.
  - discriminate Hrun.
  - injection Hrun as <- _. reflexivity.
  - cbn [trace_error].
    destruct (amount_of d) as [|a] eqn:Ha.
    { rewrite rows_loop_None in Hrun by exact Ha.
      injection Hrun as <- _. discriminate. }
    destruct (startswith_char MINUS a) eqn:Hs.
    { rewrite (rows_loop_negative _ _ _ _ _ _ _ Ha Hs) in Hrun.
      eapply IH; eassumption. }
    destruct (generate_payment_pdf env (length (heap w)) (alloc w d))
      as [[pdf|e1] w2] eqn:Hgen.
    2: { rewrite (rows_loop_render_raises _ _ _ _ _ _ _ _ _ Ha Hs Hgen) in Hrun.
         injection Hrun as <- _.
         rewrite (render_not_csv_error _ _ _ _ _ _ (alloc_lookup w d) Hgen) in He.
         discriminate. }
    destruct (date_after_render d) as [|s] eqn:Hd.
    { rewrite (rows_loop_no_date _ _ _ _ _ _ _ _ _ Ha Hs Hd Hgen) in Hrun.
      injection Hrun as <- _. discriminate. }
    rewrite (rows_loop_accept env d t n paths w a s _ _ Ha Hs Hd Hgen) in Hrun.
    clear Hgen. cbv zeta in Hrun. unfold bind at 1 in Hrun.
    destruct (write_file _ _ _ _) as [[[]|e1] w1] eqn:Hw.
    + eapply IH; eassumption.
    + injection Hrun as <- _.
      rewrite (write_file_not_csv_error _ _ _ _ _ _ Hw) in He. discriminate.
Qed.

Lemma zip_all_error env ps : forall zf w e w',
  zip_all env ps zf w = (Raise e, w') -> is_csv_error e = false.
Proof.
  induction ps as [|p ps IH]; intros zf w e w' H; cbn [zip_all] in H.
  - discriminate.
  - unfold bind at 1 in H.
    destruct (zf_write env p (posix_basename p) zf w) as [[zf1|e1] w1] eqn:Hw.
    + eapply IH. exact H.
    + injection H as <- _. unfold zf_write, read_file in Hw.
      unfold bind at 1 in Hw.
      destruct (cells_get p (files w)); [|injection Hw as <- _; reflexivity].
      repeat match type of Hw with
             | (if ?b then _ else _) _ = _ =>
                 destruct b; [injection Hw as <- _; reflexivity|]
             end.
      discriminate.
Qed.

(** X10. A request never ends with the complaint of the [csv] reader
    about a new-line character inside a line, whatever the upload
    holds: the lines the reader is given come from [splitlines] and
    hold no line end. *)
Theorem request_never_new_line_error env request w :
  fst (index env request w) <> Raise new_line_error.
Proof.
  unfold index. destruct (method request); try discriminate.
  destruct (csv_file request) as [file|]; [|discriminate].
  destruct (negb (truthy (Some file))); [discriminate|].
  unfold with_temporary_directory.
  destruct (bind _ _ _) as [o w'] eqn:Hbody. cbn [fst]. intros ->.
  unfold bind at 1 in Hbody. unfold lift in Hbody.
  destruct (decode_replace_total (little_endian env) (content file))
    as [decoded Hdec].
  rewrite Hdec in Hbody. unfold bind at 1 in Hbody.
  destruct (rows_loop _ _ _ _ _) as [[ps|e1] w1] eqn:Hloop.
  - unfold bind at 1 in Hbody.
    destruct (zip_all _ _ _ _) as [[z|e2] w2] eqn:Hz; [discriminate|].
    injection Hbody as -> _. apply zip_all_error in Hz. discriminate.
  - injection Hbody as -> _.
    apply rows_loop_error in Hloop; [|reflexivity].
    apply DictReader_error in Hloop. vm_compute in Hloop. discriminate.
Qed.

(** ** Rows that cannot be rendered or stored *)

Lemma shown_no_surrogate d k :
  (forall s, cells_get k (cells d) = Some (PyStr s) -> has_surrogate s = false) ->
  has_surrogate (shown d k) = false.
Proof.
  intros H. unfold shown.
  destruct (cells_get k (cells d)) as [[|[|c s]]|]; try reflexivity.
  apply (H (c :: s)). reflexivity.
Qed.

(** X14. A character from U+10000 on (an emoji, say) in one of the five
    printed fields of a row that passes the filter ends the request:
    the row is drawn, writing the document out raises IndexError in the
    library, and no file is written for the row.  The strings of the
    printed fields and the letterhead hold no surrogates, as every text
    decoded from an upload or read from a file does. *)
Theorem astral_character_raises env d t n paths w a k s :
  amount_of d = PyStr a ->
  startswith_char MINUS a = false ->
  has_surrogate (header_text env) = false ->
  (forall k' s', In k' [ZPRAVA; VAR_SYMBOL; DATUM_ZAUCTOVANI; CASTKA; MENA] ->
     cells_get k' (cells d) = Some (PyStr s') -> has_surrogate s' = false) ->
  In k [ZPRAVA; VAR_SYMBOL; DATUM_ZAUCTOVANI; CASTKA; MENA] ->
  cells_get k (cells d) = Some (PyStr s) ->
  beyond_font s = true ->
  exists msg w',
    rows_loop env (Yield d t) n paths w = (Raise (IndexError msg), w')
    /\ files w' = files w.
Proof.
  intros Ha Hs Hhead Hsur Hk Hcell Hbeyond.
  pose proof (generate_payment_pdf_eq env _ _ d (alloc_lookup w d)) as Hgen.
  rewrite Hhead in Hgen. unfold render_outcome in Hgen.
  assert (existsb has_surrogate (map (shown d) printed_fields) = false) as E1.
  { apply not_true_is_false. intros E. apply existsb_exists in E.
    destruct E as (x & Hin & Hx). apply in_map_iff in Hin.
    destruct Hin as (k' & <- & Hk').
    rewrite shown_no_surrogate in Hx; [discriminate|].
    intros s'. apply Hsur. exact Hk'. }
  assert (existsb beyond_font (map (shown d) printed_fields) = true) as E2.
  { apply existsb_exists. exists (shown d k). split.
    - apply in_map. exact Hk.
    - unfold shown. rewrite Hcell.
      destruct s as [|c s]; [discriminate Hbeyond|exact Hbeyond]. }
  rewrite E1, E2, orb_true_r in Hgen.
  eexists _, _. split.
  - apply (rows_loop_render_raises _ _ _ _ _ _ _ _ _ Ha Hs Hgen).
  - reflexivity.
Qed.

Lemma write_file_too_long env name pdf w c :
  last (temp_dir env) = Some c -> c <> SLASH -> ~ In 0 (temp_dir env) ->
  has_surrogate (temp_dir env) = false ->
  startswith_char 114 name = true ->
  ~ In SLASH name -> ~ In 0 name -> has_surrogate name = false ->
  NAME_MAX < fs_length name ->
  write_file env (posix_join (temp_dir env) name) pdf w
  = (Raise (OSError ENAMETOOLONG (posix_join (temp_dir env) name)), w).
Proof.
  intros Hl Hc Hnul Hsur Hr Hslash Hzero Hname Hlen.
  destruct (dirname_join_plain (temp_dir env) name c Hl Hc Hr Hslash)
    as [Hj Hd].
  unfold write_file. cbv zeta.
  rewrite has_surrogate_encodable.
  2: { rewrite Hj, !has_surrogate_app, Hsur, Hname. reflexivity. }
  rewrite bool_decide_eq_false_2.
  2: { rewrite Hj, list_elem_of_In. intros Hin.
       apply in_app_or in Hin. destruct Hin as [Hin|Hin]; [tauto|].
       apply in_app_or in Hin. destruct Hin as [[Hin|[]]|Hin];
         [discriminate|tauto]. }
  destruct (PATH_MAX <=? _); [reflexivity|].
  rewrite Hj at 1. rewrite drop_app_length.
  assert (lstrip_slash ([SLASH] ++ name) = name) as ->.
  { destruct name as [|r n]; [discriminate|]. simpl in Hr.
    apply N.eqb_eq in Hr. subst r. reflexivity. }
  rewrite first_component_plain by exact Hslash.
  destruct (N.ltb_spec NAME_MAX (fs_length name)); [reflexivity|lia].
Qed.

(** X15. A date that makes the file name longer than 255 bytes ends the
    request: the row is rendered, and opening the file raises OSError
    with the error number of a name that is too long.  The date has no
    slash and no NUL character, and the temporary directory has a plain
    path. *)
Theorem long_file_name_raises env d t n paths w a pdf w1 s :
  plain_dir (temp_dir env) = true ->
  amount_of d = PyStr a ->
  startswith_char MINUS a = false ->
  generate_payment_pdf env (length (heap w)) (alloc w d) = (Ret pdf, w1) ->
  date_after_render d = PyStr s ->
  plain_text s = true ->
  255 < fs_length (pdf_name (n + 1) (replace_char DOT MINUS s)) ->
  rows_loop env (Yield d t) n paths w
  = (Raise (OSError 36
              (posix_join (temp_dir env)
                 (pdf_name (n + 1) (replace_char DOT MINUS s)))), w1)
  /\ files w1 = files w.
Proof.
  intros Hdir Ha Hs Hgen Hd Hplain Hlen.
  apply plain_dir_spec in Hdir. destruct Hdir as (c & Hl & Hc & Hnul & Hsur).
  apply plain_text_spec in Hplain. destruct Hplain as [Hsl H0].
  rewrite (rows_loop_accept env d t n paths w a s _ _ Ha Hs Hd Hgen).
  destruct (generate_payment_pdf_returns env _ _ _ _ _ (alloc_lookup w d) Hgen)
    as (_ & Hw1 & _ & Hout).
  cbv zeta. unfold bind at 1.
  rewrite (write_file_too_long env
             (pdf_name (n + 1) (replace_char DOT MINUS s)) pdf w1 c
             Hl Hc Hnul Hsur eq_refl);
    [split; [reflexivity|subst w1; reflexivity]| | | |exact Hlen].
  - apply pdf_name_plain; [reflexivity| |discriminate|exact Hsl].
    simpl; intuition discriminate.
  - apply pdf_name_plain; [reflexivity| |discriminate|exact H0].
    simpl; intuition discriminate.
  - apply pdf_name_no_surrogate. apply (date_no_surrogate d s Hd).
    unfold render_outcome, printed_fields in Hout. cbn [map existsb] in Hout.
    destruct (has_surrogate (shown d ZPRAVA)); [discriminate|].
    destruct (has_surrogate (shown d VAR_SYMBOL)); [discriminate|].
    destruct (has_surrogate (shown d DATUM_ZAUCTOVANI)); [discriminate|].
    reflexivity.
Qed.

(** ** The decoded text *)

Lemma unit_scalar le b0 b1 :
  negb (is_surrogate (unit16 le b0 b1)) = true ->
  is_scalar (unit16 le b0 b1) = true.
Proof.
  intros H. unfold is_scalar. rewrite H, andb_true_r.
  apply N.ltb_lt. pose proof (unit16_lt le b0 b1). lia.
Qed.

Lemma emit_scalar c k s :
  is_scalar c = true ->
  (forall s', k = Ret s' -> Forall (fun x => is_scalar x = true) s') ->
  emit c k = Ret s -> Forall (fun x => is_scalar x = true) s.
Proof.
  intros Hc Hk H. destruct k as [s'|e]; simpl in H; [|discriminate].
  injection H as <-. constructor; [exact Hc|]. apply Hk. reflexivity.
Qed.

Lemma utf16_units_scalar le (n : nat) : forall q s,
  (length q <= n)%nat ->
  utf16_units Replace le q = Ret s ->
  Forall (fun c => is_scalar c = true) s.
Proof.
  induction n as [|n IH]; intros q s Hlen H.
  - destruct q; [|simpl in Hlen; lia]. injection H as <-. constructor.
  - destruct q as [|b0 [|b1 q']].
    + injection H as <-. constructor.
    + injection H as <-. repeat constructor.
    + cbn [utf16_units] in H. simpl in Hlen.
      destruct (negb (is_surrogate (unit16 le b0 b1))) eqn:Hs.
      { eapply emit_scalar; [apply unit_scalar; exact Hs| |exact H].
        intros s' Hs'. eapply IH; [|exact Hs']. lia. }
      destruct (negb (is_high_surrogate (unit16 le b0 b1))).
      { eapply (emit_scalar REPLACEMENT); [reflexivity| |exact H].
        intros s' Hs'. eapply IH; [|exact Hs']. lia. }
      destruct q' as [|b2 [|b3 q'']].
      * injection H as <-. repeat constructor.
      * injection H as <-. repeat constructor.
      * destruct (is_low_surrogate (unit16 le b2 b3)).
        -- eapply emit_scalar; [apply join_surrogates_scalar| |exact H].
           intros s' Hs'. eapply IH; [|exact Hs']. simpl in Hlen. lia.
        -- eapply (emit_scalar REPLACEMENT); [reflexivity| |exact H].
           intros s' Hs'. eapply IH; [|exact Hs']. simpl in Hlen |- *. lia.
Qed.

(** X11. The text the upload is decoded to holds only Unicode scalar
    values: code points up to U+10FFFF and no surrogate, whatever the
    bytes are. *)
Theorem decoded_text_is_scalar native_le csv_data decoded_csv :
  decode_utf16 Replace native_le csv_data = Ret decoded_csv ->
  Forall (fun c => is_scalar c = true) decoded_csv.
Proof.
  unfold decode_utf16.
  destruct csv_data as [|b0 [|b1 q]];
    try (apply (utf16_units_scalar _ 2); simpl; lia).
  destruct (unit16 true b0 b1 =? 65279);
    [apply (utf16_units_scalar _ (length q)); lia|].
  destruct (unit16 true b0 b1 =? 65534);
    [apply (utf16_units_scalar _ (length q)); lia|].
  apply (utf16_units_scalar _ (S (S (length q)))). simpl. lia.
Qed.

Lemma utf16_units_encoded errors s :
  Forall (fun c => c < 65536 /\ is_surrogate c = false) s ->
  utf16_units errors true
    (flat_map (fun c => [byte_of c; byte_of (c / 256)]) s) = Ret s.
Proof.
  induction s as [|c s IH]; intros H; [reflexivity|].
  inversion H as [|? ? [Hc Hs] Hrest]; subst.
  cbn [flat_map app utf16_units].
  rewrite (unit16_byte_of c Hc), Hs. cbn [negb].
  rewrite IH by exact Hrest. reflexivity.
Qed.

(** X12. A text of the Basic Multilingual Plane without surrogates,
    saved as UTF-16 with a byte order mark and the low byte first, is
    decoded to the same text, on a machine of either byte order and with
    either error handler. *)
Theorem decode_reads_utf16_export errors native_le s :
  Forall (fun c => c < 65536 /\ is_surrogate c = false) s ->
  decode_utf16 errors native_le (encode_utf16 s) = Ret s.
Proof.
  intros H. unfold encode_utf16. cbn [app decode_utf16].
  change (unit16 true xff xfe =? 65279) with true. cbv iota.
  apply utf16_units_encoded. exact H.
Qed.

(** ** The cells of a row *)

Lemma fold_set_other (kvs : list (str * str)) : forall d k,
  ~ In k (map fst kvs) ->
  cells_get k (fold_left (fun d kv => cells_set (fst kv) (PyStr (snd kv)) d)
                         kvs d)
  = cells_get k d.
Proof.
  induction kvs as [|[k0 v0] kvs IH]; intros d k Hk; simpl; [reflexivity|].
  rewrite IH by (intros Hin; apply Hk; right; exact Hin).
  apply cells_get_set_other. intros ->. apply Hk. left. reflexivity.
Qed.

Lemma fold_set_get (kvs : list (str * str)) : forall d k v,
  List.NoDup (map fst kvs) -> In (k, v) kvs ->
  cells_get k (fold_left (fun d kv => cells_set (fst kv) (PyStr (snd kv)) d)
                         kvs d)
  = Some (PyStr v).
Proof.
  induction kvs as [|[k0 v0] kvs IH]; intros d k v Hnd Hin; [destruct Hin|].
  simpl in Hnd. inversion Hnd as [|? ? Hk0 Hnd']; subst.
  destruct Hin as [Heq|Hin]; simpl.
  - injection Heq as -> ->. rewrite fold_set_other by exact Hk0.
    apply cells_get_set_same.
  - apply IH; assumption.
Qed.

Lemma combine_lookup_In (fieldnames row : list str) : forall i name cell,
  fieldnames !! i = Some name -> row !! i = Some cell ->
  In (name, cell) (combine fieldnames row).
Proof.
  revert row. induction fieldnames as [|f fieldnames IH];
    intros row i name cell Hf Hr; [discriminate|].
  destruct row as [|c row]; [discriminate|].
  destruct i as [|i]; simpl in *.
  - injection Hf as ->. injection Hr as ->. left. reflexivity.
  - right. eapply IH; eassumption.
Qed.

Lemma combine_keys_NoDup (fieldnames row : list str) :
  List.NoDup fieldnames -> List.NoDup (map fst (combine fieldnames row)).
Proof.
  revert row. induction fieldnames as [|f fieldnames IH]; intros row Hnd;
    [constructor|].
  destruct row as [|c row]; [constructor|].
  inversion Hnd as [|? ? Hf Hnd']; subst. simpl. constructor; [|apply IH; exact Hnd'].
  intros Hin. apply Hf. apply in_map_iff in Hin.
  destruct Hin as [[k v] [<- Hin]]. eapply in_combine_l. exact Hin.
Qed.

Lemma fill_None_other k keys : forall d,
  ~ In k keys ->
  cells_get k (cells (fold_left (fun d key => row_set key PyNone d) keys d))
  = cells_get k (cells d).
Proof.
  induction keys as [|key keys IH]; intros d Hk; simpl; [reflexivity|].
  rewrite IH by (intros Hin; apply Hk; right; exact Hin).
  simpl. apply cells_get_set_other. intros ->. apply Hk. left. reflexivity.
Qed.

Lemma In_drop (l : list str) : forall n x, In x (drop n l) -> In x l.
Proof.
  induction l as [|y l IH]; intros n x H; destruct n; simpl in *; auto.
  right. eapply IH. exact H.
Qed.

Lemma NoDup_not_in_drop (fieldnames : list str) : forall i n name,
  List.NoDup fieldnames -> fieldnames !! i = Some name -> (i < n)%nat ->
  ~ In name (drop n fieldnames).
Proof.
  induction fieldnames as [|f fieldnames IH]; intros i n name Hnd Hi Hlt;
    [discriminate|].
  inversion Hnd as [|? ? Hf Hnd']; subst.
  destruct n as [|n]; [lia|]. simpl.
  destruct i as [|i]; simpl in Hi.
  - injection Hi as ->. intros Hin. apply Hf.
    eapply In_drop. exact Hin.
  - eapply IH; [exact Hnd'|exact Hi|lia].
Qed.

(** X13. With a header of distinct names, a row holds under each name
    the cell of the same column, as a [str], whether the row is as long
    as the header, shorter or longer. *)
Theorem DictReader_row_cell fieldnames row i name cell default :
  List.NoDup fieldnames ->
  fieldnames !! i = Some name ->
  row !! i = Some cell ->
  row_get name default (DictReader_row fieldnames row) = PyStr cell.
Proof.
  intros Hnd Hf Hr.
  assert (cells_get name (dict_zip fieldnames row) = Some (PyStr cell)) as Hz.
  { unfold dict_zip. apply fold_set_get.
    - apply combine_keys_NoDup. exact Hnd.
    - eapply combine_lookup_In; eassumption. }
  unfold row_get, DictReader_row.
  destruct (Nat.ltb (length fieldnames) (length row)); [simpl; rewrite Hz; reflexivity|].
  destruct (Nat.ltb (length row) (length fieldnames)); [|simpl; rewrite Hz; reflexivity].
  rewrite fill_None_other.
  - simpl. rewrite Hz. reflexivity.
  - eapply NoDup_not_in_drop; [exact Hnd|exact Hf|].
    eapply lookup_lt_Some. exact Hr.
Qed.

(** ** The further properties at concrete inputs *)

Lemma renderer_second_call_changes_nothing_witness :
  heap (alloc world0 row0) !! 0%nat = Some row0
  /\ generate_payment_pdf env0 0%nat (alloc world0 row0)
     = (Ret (document_of env0 row0),
        set_heap (alloc world0 row0) 0%nat (normalize_row row0))
  /\ generate_payment_pdf env0 0%nat
       (set_heap (alloc world0 row0) 0%nat (normalize_row row0))
     = (Ret (document_of env0 row0),
        set_heap (alloc world0 row0) 0%nat (normalize_row row0)).
Proof.
  assert (generate_payment_pdf env0 0%nat (alloc world0 row0)
          = (Ret (document_of env0 row0),
             set_heap (alloc world0 row0) 0%nat (normalize_row row0))) as Hrun
    by (vm_compute; reflexivity).
  split; [reflexivity|]. split; [exact Hrun|].
  exact (renderer_second_call_changes_nothing env0 (alloc world0 row0) 0%nat
           row0 _ _ eq_refl Hrun).
Defined.

Lemma document_ignores_other_fields_witness :
  heap (alloc world0 row0) !! 0%nat = Some row0
  /\ heap (alloc world0 row0_with_iban) !! 0%nat = Some row0_with_iban
  /\ (forall k, In k [ZPRAVA; VAR_SYMBOL; DATUM_ZAUCTOVANI; CASTKA; MENA] ->
        cells_get k (cells row0) = cells_get k (cells row0_with_iban))
  /\ fst (generate_payment_pdf env0 0%nat (alloc world0 row0))
     = fst (generate_payment_pdf env0 0%nat (alloc world0 row0_with_iban)).
Proof.
  assert (forall k, In k [ZPRAVA; VAR_SYMBOL; DATUM_ZAUCTOVANI; CASTKA; MENA] ->
            cells_get k (cells row0) = cells_get k (cells row0_with_iban)) as Hk.
  { intros k Hin. cbn [In] in Hin.
    destruct Hin as [<-|[<-|[<-|[<-|[<-|[]]]]]]; reflexivity. }
  split; [reflexivity|]. split; [reflexivity|]. split; [exact Hk|].
  exact (document_ignores_other_fields env0 (alloc world0 row0) 0%nat row0
           (alloc world0 row0_with_iban) 0%nat row0_with_iban
           eq_refl eq_refl Hk).
Defined.

Lemma renderer_keeps_keys_witness :
  heap (alloc world0 row0_with_iban) !! 0%nat = Some row0_with_iban
  /\ generate_payment_pdf env0 0%nat (alloc world0 row0_with_iban)
     = (Ret (document_of env0 row0_with_iban),
        set_heap (alloc world0 row0_with_iban) 0%nat
                 (normalize_row row0_with_iban))
  /\ exists r1,
       heap (set_heap (alloc world0 row0_with_iban) 0%nat
                      (normalize_row row0_with_iban)) !! 0%nat = Some r1
       /\ map fst (cells r1) = [DATUM_ZAUCTOVANI; CASTKA; IBAN]
       /\ rest r1 = Some [u "x"].
Proof.
  assert (generate_payment_pdf env0 0%nat (alloc world0 row0_with_iban)
          = (Ret (document_of env0 row0_with_iban),
             set_heap (alloc world0 row0_with_iban) 0%nat
                      (normalize_row row0_with_iban))) as Hrun
    by (vm_compute; reflexivity).
  split; [reflexivity|]. split; [exact Hrun|].
  destruct (renderer_keeps_keys env0 (alloc world0 row0_with_iban) 0%nat
              row0_with_iban _ _ eq_refl Hrun)
    as (r1 & Hr1 & Hkeys & Hrest & _).
  exists r1. split; [exact Hr1|]. split; [exact Hkeys|exact Hrest].
Defined.

Lemma none_cell_printed_as_None_witness :
  heap (alloc world0 row_without_currency) !! 0%nat = Some row_without_currency
  /\ generate_payment_pdf env0 0%nat (alloc world0 row_without_currency)
     = (Ret (document_of env0 row_without_currency),
        set_heap (alloc world0 row_without_currency) 0%nat
                 (normalize_row row_without_currency))
  /\ In (Cell 10 (u "Částka: 100 None") false)
        (document_of env0 row_without_currency)
  /\ cells_get MENA
       (cells (heap (set_heap (alloc world0 row_without_currency) 0%nat
                       (normalize_row row_without_currency)) !!! 0%nat))
     = Some PyNone.
Proof.
  assert (generate_payment_pdf env0 0%nat (alloc world0 row_without_currency)
          = (Ret (document_of env0 row_without_currency),
             set_heap (alloc world0 row_without_currency) 0%nat
                      (normalize_row row_without_currency))) as Hrun
    by (vm_compute; reflexivity).
  split; [reflexivity|]. split; [exact Hrun|].
  destruct (none_cell_printed_as_None env0 (alloc world0 row_without_currency)
              0%nat row_without_currency _ _ eq_refl Hrun)
    as (text & Hnone & Hstr & _ & _ & _ & Hamount).
  destruct (Hnone MENA eq_refl) as [Htext Hrow].
  rewrite Htext, (Hstr CASTKA 49 [48; 48] eq_refl) in Hamount.
  split; [exact Hamount|exact Hrow].
Defined.

Lemma short_row_amount_raises_witness :
  In CASTKA (drop (length [u "01.03.2024"]) [DATUM_ZAUCTOVANI; CASTKA])
  /\ exists w',
       rows_loop env0
         (Yield (DictReader_row [DATUM_ZAUCTOVANI; CASTKA] [u "01.03.2024"]) Done)
         0 [] world0
       = (Raise (AttributeError (u "startswith")), w').
Proof.
  assert (In CASTKA (drop (length [u "01.03.2024"]) [DATUM_ZAUCTOVANI; CASTKA]))
    as Hin by (left; reflexivity).
  split; [exact Hin|].
  exact (short_row_amount_raises env0 [DATUM_ZAUCTOVANI; CASTKA]
           [u "01.03.2024"] Done 0 [] world0 Hin).
Defined.

Lemma short_row_date_raises_witness :
  amount_of (DictReader_row [CASTKA; DATUM_ZAUCTOVANI] [u "100"])
  = PyStr (u "100")
  /\ startswith_char MINUS (u "100") = false
  /\ In DATUM_ZAUCTOVANI (drop (length [u "100"]) [CASTKA; DATUM_ZAUCTOVANI])
  /\ exists pdf w1,
       generate_payment_pdf env0 (length (heap world0))
         (alloc world0 (DictReader_row [CASTKA; DATUM_ZAUCTOVANI] [u "100"]))
       = (Ret pdf, w1)
       /\ rows_loop env0
            (Yield (DictReader_row [CASTKA; DATUM_ZAUCTOVANI] [u "100"]) Done)
            0 [] world0
          = (Raise (AttributeError (u "replace")), w1)
       /\ files w1 = files world0
       /\ In (Cell 10 (u "Přijato dne: None") false) pdf.
Proof.
  assert (In DATUM_ZAUCTOVANI
            (drop (length [u "100"]) [CASTKA; DATUM_ZAUCTOVANI])) as Hin
    by (left; reflexivity).
  split; [reflexivity|]. split; [reflexivity|]. split; [exact Hin|].
  eexists _, _. 
  assert (generate_payment_pdf env0 (length (heap world0))
            (alloc world0 (DictReader_row [CASTKA; DATUM_ZAUCTOVANI] [u "100"]))
          = (Ret (document_of env0
                    (DictReader_row [CASTKA; DATUM_ZAUCTOVANI] [u "100"])),
             set_heap
               (alloc world0
                  (DictReader_row [CASTKA; DATUM_ZAUCTOVANI] [u "100"]))
               0%nat
               (normalize_row
                  (DictReader_row [CASTKA; DATUM_ZAUCTOVANI] [u "100"]))))
    as Hrun by (vm_compute; reflexivity).
  split; [exact Hrun|].
  exact (short_row_date_raises env0 [CASTKA; DATUM_ZAUCTOVANI] [u "100"]
           Done 0 [] world0 (u "100") _ _ eq_refl eq_refl Hin Hrun).
Defined.

Lemma archive_holds_rendered_documents_witness :
  three_rows_result
  = (Ret (SendFile (archive_of three_rows_result) (u "application/zip")
                   (u "pdf_confirmations.zip")), snd three_rows_result)
  /\ exists file,
       csv_file (upload three_rows_export) = Some file
       /\ archive_of three_rows_result
          = combine
              (names_from 0 (List.filter kept (items (rows_of env0 file))))
              (map (document_of env0)
                   (List.filter kept (items (rows_of env0 file)))).
Proof.
  assert (three_rows_result
          = (Ret (SendFile (archive_of three_rows_result) (u "application/zip")
                           (u "pdf_confirmations.zip")), snd three_rows_result))
    as Hrun by (vm_compute; reflexivity).
  split; [exact Hrun|].
  exact (archive_holds_rendered_documents env0 (upload three_rows_export)
           world0 _ _ _ _ Hrun).
Defined.

Lemma archive_names_have_no_separator_witness :
  three_rows_result
  = (Ret (SendFile (archive_of three_rows_result) (u "application/zip")
                   (u "pdf_confirmations.zip")), snd three_rows_result)
  /\ forall name, In name (map fst (archive_of three_rows_result)) ->
       ~ In SLASH name /\ ~ In 0 name.
Proof.
  assert (three_rows_result
          = (Ret (SendFile (archive_of three_rows_result) (u "application/zip")
                           (u "pdf_confirmations.zip")), snd three_rows_result))
    as Hrun by (vm_compute; reflexivity).
  split; [exact Hrun|].
  exact (archive_names_have_no_separator env0 (upload three_rows_export)
           world0 _ _ _ _ Hrun).
Defined.

Lemma well_formed_export_gives_archive_witness :
  plain_dir (temp_dir env0) = true
  /\ 1980 <= today_year env0 <= 2107
  /\ printable (header_text env0) = true
  /\ filename (file_of three_rows_export) <> []
  /\ rows_ok env0 (rows_of env0 (file_of three_rows_export)) 0 = true
  /\ exists zip w',
       index env0 (mkRequest POST (Some (file_of three_rows_export))) world0
       = (Ret (SendFile zip (u "application/zip") (u "pdf_confirmations.zip")),
          w')
       /\ length zip
          = length (List.filter kept
                      (items (rows_of env0 (file_of three_rows_export))))
       /\ files w' = files world0.
Proof.
  assert (1980 <= today_year env0 <= 2107) as Hyear by (simpl; lia).
  assert (filename (file_of three_rows_export) <> []) as Hname by discriminate.
  assert (rows_ok env0 (rows_of env0 (file_of three_rows_export)) 0 = true)
    as Hrows by (vm_compute; reflexivity).
  split; [reflexivity|]. split; [exact Hyear|]. split; [reflexivity|].
  split; [exact Hname|]. split; [exact Hrows|].
  exact (well_formed_export_gives_archive env0 (file_of three_rows_export)
           world0 eq_refl Hyear eq_refl Hname Hrows).
Defined.

Lemma decoded_text_is_scalar_witness :
  decode_utf16 Replace true [x00; xd8; x61; x00] = Ret [REPLACEMENT; 97]
  /\ Forall (fun c => is_scalar c = true) [REPLACEMENT; 97].
Proof.
  split; [reflexivity|].
  exact (decoded_text_is_scalar true [x00; xd8; x61; x00] _ eq_refl).
Defined.

Lemma decode_reads_utf16_export_witness :
  Forall (fun c => c < 65536 /\ is_surrogate c = false) (u "Částka")
  /\ decode_utf16 Replace false (encode_utf16 (u "Částka")) = Ret (u "Částka").
Proof.
  assert (Forall (fun c => c < 65536 /\ is_surrogate c = false) (u "Částka"))
    as H by (repeat (constructor; [split; reflexivity|]); constructor).
  split; [exact H|].
  exact (decode_reads_utf16_export Replace false (u "Částka") H).
Defined.

Lemma DictReader_row_cell_witness :
  List.NoDup [DATUM_ZAUCTOVANI; CASTKA; MENA]
  /\ [DATUM_ZAUCTOVANI; CASTKA; MENA] !! 1%nat = Some CASTKA
  /\ [u "01.03.2024"; u "100"] !! 1%nat = Some (u "100")
  /\ row_get CASTKA (PyStr [])
       (DictReader_row [DATUM_ZAUCTOVANI; CASTKA; MENA] [u "01.03.2024"; u "100"])
     = PyStr (u "100").
Proof.
  assert (List.NoDup [DATUM_ZAUCTOVANI; CASTKA; MENA]) as Hnd.
  { repeat constructor; cbn [In]; intros H;
      repeat (destruct H as [H|H]; [discriminate H|]); exact H. }
  split; [exact Hnd|]. split; [reflexivity|]. split; [reflexivity|].
  exact (DictReader_row_cell [DATUM_ZAUCTOVANI; CASTKA; MENA]
           [u "01.03.2024"; u "100"] 1%nat CASTKA (u "100") (PyStr [])
           Hnd eq_refl eq_refl).
Defined.

Lemma astral_character_raises_witness :
  amount_of row_with_emoji = PyStr (u "100")
  /\ startswith_char MINUS (u "100") = false
  /\ has_surrogate (header_text env0) = false
  /\ (forall k' s', In k' [ZPRAVA; VAR_SYMBOL; DATUM_ZAUCTOVANI; CASTKA; MENA] ->
        cells_get k' (cells row_with_emoji) = Some (PyStr s') ->
        has_surrogate s' = false)
  /\ In ZPRAVA [ZPRAVA; VAR_SYMBOL; DATUM_ZAUCTOVANI; CASTKA; MENA]
  /\ cells_get ZPRAVA (cells row_with_emoji) = Some (PyStr (u "Jan " ++ [128512]))
  /\ beyond_font (u "Jan " ++ [128512]) = true
  /\ exists msg w',
       rows_loop env0 (Yield row_with_emoji Done) 0 [] world0
       = (Raise (IndexError msg), w')
       /\ files w' = files world0.
Proof.
  assert (forall k' s',
            In k' [ZPRAVA; VAR_SYMBOL; DATUM_ZAUCTOVANI; CASTKA; MENA] ->
            cells_get k' (cells row_with_emoji) = Some (PyStr s') ->
            has_surrogate s' = false) as Hsur.
  { intros k' s' Hin. cbn [In] in Hin.
    destruct Hin as [<-|[<-|[<-|[<-|[<-|[]]]]]]; vm_compute;
      intros Hk; try discriminate Hk; injection Hk as <-; reflexivity. }
  assert (In ZPRAVA [ZPRAVA; VAR_SYMBOL; DATUM_ZAUCTOVANI; CASTKA; MENA]) as Hin
    by (left; reflexivity).
  split; [reflexivity|]. split; [reflexivity|]. split; [reflexivity|].
  split; [exact Hsur|]. split; [exact Hin|]. split; [reflexivity|].
  split; [reflexivity|].
  exact (astral_character_raises env0 row_with_emoji Done 0 [] world0 (u "100")
           ZPRAVA (u "Jan " ++ [128512]) eq_refl eq_refl eq_refl Hsur Hin
           eq_refl eq_refl).
Defined.

Lemma long_file_name_raises_witness :
  plain_dir (temp_dir env0) = true
  /\ amount_of row_with_long_date = PyStr (u "100")
  /\ startswith_char MINUS (u "100") = false
  /\ generate_payment_pdf env0 (length (heap world0))
       (alloc world0 row_with_long_date)
     = (Ret (document_of env0 row_with_long_date),
        set_heap (alloc world0 row_with_long_date) 0%nat
                 (normalize_row row_with_long_date))
  /\ date_after_render row_with_long_date = PyStr (repeat 97 300)
  /\ plain_text (repeat 97 300) = true
  /\ 255 < fs_length (pdf_name (0 + 1) (replace_char DOT MINUS (repeat 97 300)))
  /\ rows_loop env0 (Yield row_with_long_date Done) 0 [] world0
     = (Raise (OSError 36
                 (posix_join (temp_dir env0)
                    (pdf_name (0 + 1)
                       (replace_char DOT MINUS (repeat 97 300))))),
        set_heap (alloc world0 row_with_long_date) 0%nat
                 (normalize_row row_with_long_date)).
Proof.
  assert (generate_payment_pdf env0 (length (heap world0))
            (alloc world0 row_with_long_date)
          = (Ret (document_of env0 row_with_long_date),
             set_heap (alloc world0 row_with_long_date) 0%nat
                      (normalize_row row_with_long_date))) as Hgen
    by (vm_compute; reflexivity).
  assert (255 < fs_length (pdf_name (0 + 1)
                             (replace_char DOT MINUS (repeat 97 300)))) as Hlen
    by (vm_compute; reflexivity).
  split; [reflexivity|]. split; [reflexivity|]. split; [reflexivity|].
  split; [exact Hgen|]. split; [reflexivity|]. split; [reflexivity|].
  split; [exact Hlen|].
  exact (proj1 (long_file_name_raises env0 row_with_long_date Done 0 [] world0
                  (u "100") _ _ (repeat 97 300) eq_refl eq_refl eq_refl Hgen
                  eq_refl eq_refl Hlen)).
Defined.
